(** * gun-violence: data acquisition and report generation

    A shallow embedding of [src/data_utils.py] (World Bank fetchers with
    embedded fallback tables) and of [scripts/generate_html.py] (the static
    report built from executed notebooks), followed by the properties
    established about them.

    Conventions of the embedding.
    - A Python [str] is a [string]: a sequence of one-byte characters.  Text
      outside ASCII (the page template has some) is carried as the bytes the
      source file holds.
    - A value decoded from JSON is a [pyval].  A Python [dict] is an
      association list in insertion order whose keys are pairwise distinct.
    - A Python [float] is a binary64 [float]; a Python [int] is a [Z].
    - A computation that may raise is an [outcome]; code that also prints or
      draws random identifiers threads an explicit state.
    - What the code gets from outside the repository (the network, the
      built-ins [float], [int], [json.loads], [json.dumps], the library sort,
      the random source, the file system) is a field of an environment
      record, so every theorem holds whatever these deliver. *)

From Stdlib Require Import ZArith List String Ascii Bool Arith Lia.
From Stdlib Require Import Permutation Sorting.Sorted.
From Stdlib Require Import Floats.PrimFloat Numbers.Cyclic.Int63.Uint63.
From Stdlib Require Import Numbers.DecimalString.
Import ListNotations.

#[local] Set Warnings "-inexact-float,-register-all".
#[local] Open Scope list_scope.
#[local] Open Scope string_scope.

(** ** Exceptions and outcomes *)

(** The exception classes the two files can meet. *)
Inductive exn : Type :=
| TypeError
| KeyError
| IndexError
| AttributeError
| ValueError
| OverflowError
| RequestException   (* requests.get failed: connection, timeout, ... *)
| HTTPError          (* raise_for_status on a 4xx/5xx answer *)
| JSONDecodeError    (* the body is not JSON *)
| OSError.           (* a file could not be read *)

Inductive outcome (A : Type) : Type :=
| Val (a : A)
| Exc (e : exn).

Arguments Val {A} a.
Arguments Exc {A} e.

Definition and_then {A B : Type} (m : outcome A) (k : A -> outcome B) : outcome B :=
  match m with
  | Val a => k a
  | Exc e => Exc e
  end.

Notation "'let*' x ':=' m 'in' k" := (and_then m (fun x => k))
  (at level 10, x pattern, m at level 100, k at level 200).

(** [for x in xs: acc = step acc x], stopping at the first exception. *)
Fixpoint for_each {A S : Type} (step : S -> A -> outcome S) (xs : list A) (acc : S)
  : outcome S :=
  match xs with
  | [] => Val acc
  | x :: rest => let* acc' := step acc x in for_each step rest acc'
  end.

(** [xs.append(x)], seen as the list it leaves behind. *)
Definition snoc {A : Type} (xs : list A) (x : A) : list A := (xs ++ [x])%list.

(** ** Strings *)

Definition nl : string := String "010"%char "".
Definition dq : string := String "034"%char "".

(** [s[n:]] *)
Fixpoint str_drop (n : nat) (s : string) : string :=
  match n, s with
  | O, _ => s
  | S n', String _ r => str_drop n' r
  | S _, EmptyString => EmptyString
  end.

Definition startswith (s p : string) : bool := String.prefix p s.

Definition endswith (s p : string) : bool :=
  (String.length p <=? String.length s)%nat
  && String.eqb (str_drop (String.length s - String.length p) s) p.

(** [s[a:-b]] for a string of length at least [b]. *)
Definition str_slice_inner (a b : nat) (s : string) : string :=
  String.substring a (String.length s - b - a) s.

(** [sub in s] *)
Fixpoint str_contains (sub s : string) : bool :=
  String.prefix sub s
  || match s with
     | EmptyString => false
     | String _ r => str_contains sub r
     end.

(** [s.split(sep)] for a one-character separator. *)
Fixpoint str_split (sep : ascii) (s : string) : list string :=
  match s with
  | EmptyString => [EmptyString]
  | String c r =>
      if Ascii.eqb c sep then EmptyString :: str_split sep r
      else match str_split sep r with
           | h :: t => String c h :: t
           | [] => [String c EmptyString]
           end
  end.

(** [str.isspace] on one-byte characters: TAB, LF, VT, FF, CR, the four
    separators FS, GS, RS, US, and the blank. *)
Definition isspace (c : ascii) : bool :=
  let n := nat_of_ascii c in
  ((9 <=? n) && (n <=? 13) || (28 <=? n) && (n <=? 32))%nat.

Fixpoint str_lstrip_by (drop : ascii -> bool) (s : string) : string :=
  match s with
  | EmptyString => EmptyString
  | String c r => if drop c then str_lstrip_by drop r else s
  end.

Fixpoint str_rstrip_by (drop : ascii -> bool) (s : string) : string :=
  match s with
  | EmptyString => EmptyString
  | String c r =>
      match str_rstrip_by drop r with
      | EmptyString => if drop c then EmptyString else String c EmptyString
      | r' => String c r'
      end
  end.

(** [s.strip()] *)
Definition str_strip (s : string) : string :=
  str_rstrip_by isspace (str_lstrip_by isspace s).

(** Truth value of a [str]: non-empty. *)
Definition str_truthy (s : string) : bool :=
  match s with
  | EmptyString => false
  | String _ _ => true
  end.

Fixpoint str_mem (c : ascii) (s : string) : bool :=
  match s with
  | EmptyString => false
  | String d r => Ascii.eqb c d || str_mem c r
  end.

(** [s.lstrip(chars)] *)
Definition str_lstrip_chars (chars s : string) : string :=
  str_lstrip_by (fun c => str_mem c chars) s.

(** [s.replace(old, new)] for a non-empty [old]: occurrences are taken from
    the left and do not overlap; [skip] counts the characters of a matched
    occurrence still to be passed over. *)
Fixpoint str_replace_from (old new : string) (skip : nat) (s : string) : string :=
  match s with
  | EmptyString => EmptyString
  | String c r =>
      match skip with
      | S k => str_replace_from old new k r
      | O =>
          if String.prefix old s
          then new ++ str_replace_from old new (String.length old - 1) r
          else String c (str_replace_from old new 0 r)
      end
  end.

Definition str_replace (old new s : string) : string :=
  str_replace_from old new 0 s.

Definition is_upper (c : ascii) : bool :=
  let n := nat_of_ascii c in ((65 <=? n) && (n <=? 90))%nat.

Definition is_lower (c : ascii) : bool :=
  let n := nat_of_ascii c in ((97 <=? n) && (n <=? 122))%nat.

Definition to_upper (c : ascii) : ascii :=
  if is_lower c then ascii_of_nat (nat_of_ascii c - 32) else c.

Definition to_lower (c : ascii) : ascii :=
  if is_upper c then ascii_of_nat (nat_of_ascii c + 32) else c.

(** [s.title()] on ASCII text: a letter that follows a non-letter is put in
    upper case, a letter that follows a letter in lower case. *)
Fixpoint str_title_from (prev_cased : bool) (s : string) : string :=
  match s with
  | EmptyString => EmptyString
  | String c r =>
      if is_upper c || is_lower c
      then String (if prev_cased then to_lower c else to_upper c)
                  (str_title_from true r)
      else String c (str_title_from false r)
  end.

Definition str_title (s : string) : string := str_title_from false s.

(** [sep.join(parts)] *)
Definition str_join (sep : string) (parts : list string) : string :=
  String.concat sep parts.

(** [str(n)] for an [int]. *)
Definition str_of_int (z : Z) : string :=
  NilZero.string_of_int (Z.to_int z).

Definition str_of_nat (n : nat) : string := str_of_int (Z.of_nat n).

(** ** Python values *)

(** The values [json.loads] builds, which are also the cells of a frame. *)
Inductive pyval : Type :=
| PNone
| PBool (b : bool)
| PInt (z : Z)
| PFloat (f : float)
| PStr (s : string)
| PList (items : list pyval)
| PDict (items : list (string * pyval)).

Fixpoint assoc {V : Type} (k : string) (kvs : list (string * V)) : option V :=
  match kvs with
  | [] => None
  | (k', v) :: rest => if String.eqb k k' then Some v else assoc k rest
  end.

Definition chars_of (s : string) : list pyval :=
  map (fun c => PStr (String c EmptyString)) (list_ascii_of_string s).

(** [len(v)] *)
Definition py_len (v : pyval) : outcome Z :=
  match v with
  | PStr s => Val (Z.of_nat (String.length s))
  | PList l => Val (Z.of_nat (List.length l))
  | PDict d => Val (Z.of_nat (List.length d))
  | _ => Exc TypeError
  end.

(** [v[i]] for an integer [i >= 0]: a list gives its item and a string its
    character; a dict, whose keys are strings, has no such key. *)
Definition py_item (v : pyval) (i : nat) : outcome pyval :=
  match v with
  | PList l => match nth_error l i with Some x => Val x | None => Exc IndexError end
  | PStr s => match nth_error (chars_of s) i with Some x => Val x | None => Exc IndexError end
  | PDict _ => Exc KeyError
  | _ => Exc TypeError
  end.

(** [v[k]] for a string [k] *)
Definition py_getitem (v : pyval) (k : string) : outcome pyval :=
  match v with
  | PDict d => match assoc k d with Some x => Val x | None => Exc KeyError end
  | _ => Exc TypeError
  end.

(** [v.get(k, default)]: only a dict has the method. *)
Definition py_get (v : pyval) (k : string) (default : pyval) : outcome pyval :=
  match v with
  | PDict d => Val (match assoc k d with Some x => x | None => default end)
  | _ => Exc AttributeError
  end.

(** The items [for x in v] visits: a dict yields its keys, a string its
    characters. *)
Definition py_iter (v : pyval) : outcome (list pyval) :=
  match v with
  | PList l => Val l
  | PDict d => Val (map (fun kv => PStr (fst kv)) d)
  | PStr s => Val (chars_of s)
  | _ => Exc TypeError
  end.

(** [v == s] for a string literal [s] *)
Definition py_eq_str (v : pyval) (s : string) : bool :=
  match v with
  | PStr t => String.eqb t s
  | _ => false
  end.

(** [k in v] for a string [k]: key of a dict, item of a list, substring of
    a string. *)
Definition py_in (k : string) (v : pyval) : outcome bool :=
  match v with
  | PDict d => Val (match assoc k d with Some _ => true | None => false end)
  | PList l => Val (existsb (fun x => py_eq_str x k) l)
  | PStr s => Val (str_contains k s)
  | _ => Exc TypeError
  end.

Fixpoint join_items (sep : string) (items : list pyval) : outcome string :=
  match items with
  | [] => Val EmptyString
  | PStr s :: rest =>
      match rest with
      | [] => Val s
      | _ => let* r := join_items sep rest in Val (s ++ sep ++ r)
      end
  | _ => Exc TypeError
  end.

(** [sep.join(v)]: [v] is iterated and every item has to be a string. *)
Definition py_join (sep : string) (v : pyval) : outcome string :=
  let* items := py_iter v in join_items sep items.

(** [d.setdefault(k, v)] seen as the dict it leaves behind. *)
Definition py_setdefault (d : pyval) (k : string) (v : pyval) : outcome pyval :=
  match d with
  | PDict kvs =>
      Val (match assoc k kvs with
           | Some _ => d
           | None => PDict (snoc kvs (k, v))
           end)
  | _ => Exc AttributeError
  end.

(** [d[k] = v] on a dict that has the key: the position is kept. *)
Fixpoint assoc_update {V : Type} (k : string) (v : V) (kvs : list (string * V))
  : list (string * V) :=
  match kvs with
  | [] => []
  | (k', v') :: rest =>
      if String.eqb k k' then (k', v) :: rest
      else (k', v') :: assoc_update k v rest
  end.

(** ** Frames *)

(** A [pandas.DataFrame] without its index: the column labels in order and
    one list of cells per row, aligned with the labels. *)
Record DataFrame : Type := {
  columns : list string;
  rows : list (list pyval)
}.

(** A record of a row under construction: [{"country_code": ..., ...}]. *)
Definition record : Type := list (string * pyval).

(** [pd.DataFrame(columns=cols)] *)
Definition DataFrame_columns (cols : list string) : DataFrame :=
  {| columns := cols; rows := [] |}.

Definition record_cell (r : record) (col : string) : pyval :=
  match assoc col r with
  | Some v => v
  | None => PFloat nan
  end.

(** The labels of a list in order of first appearance. *)
Fixpoint first_seen (seen labels : list string) : list string :=
  match labels with
  | [] => []
  | x :: rest =>
      if existsb (String.eqb x) seen then first_seen seen rest
      else x :: first_seen (x :: seen) rest
  end.

(** [pd.DataFrame(records)]: the columns are the keys met, in order of first
    appearance (none at all for an empty list); a key a record lacks is
    filled with NaN. *)
Definition DataFrame_records (records : list record) : DataFrame :=
  let cols := first_seen [] (flat_map (map fst) records) in
  {| columns := cols;
     rows := map (fun r => map (record_cell r) cols) records |}.

(** [len(df)] *)
Definition df_len (df : DataFrame) : Z := Z.of_nat (List.length (rows df)).

Definition records_of (df : DataFrame) : list record :=
  map (fun r => combine (columns df) r) (rows df).

(** The cell of a row in a given column. *)
Definition cell (df : DataFrame) (col : string) (r : list pyval) : pyval :=
  record_cell (combine (columns df) r) col.

(** [df.rename(columns={old: new})] *)
Definition df_rename (old new : string) (df : DataFrame) : DataFrame :=
  {| columns := map (fun c => if String.eqb c old then new else c) (columns df);
     rows := rows df |}.

(** [df[col] = v] for a scalar [v]: every row gets [v] in that column, which
    is appended when the frame does not have it yet. *)
Definition df_assign (col : string) (v : pyval) (df : DataFrame) : DataFrame :=
  if existsb (String.eqb col) (columns df)
  then {| columns := columns df;
          rows := map (fun r => map (fun cv => if String.eqb (fst cv) col then v else snd cv)
                                    (combine (columns df) r))
                      (rows df) |}
  else {| columns := snoc (columns df) col;
          rows := map (fun r => snoc r v) (rows df) |}.

(** [pd.concat(frames, ignore_index=True)]: the union of the columns in
    order of first appearance, the rows one frame after the other. *)
Definition df_concat (frames : list DataFrame) : DataFrame :=
  let cols := first_seen [] (flat_map columns frames) in
  {| columns := cols;
     rows := flat_map (fun df => map (fun r => map (record_cell r) cols) (records_of df))
                      frames |}.

(** [df[cols]]: a label the frame lacks is a KeyError. *)
Definition df_select (cols : list string) (df : DataFrame) : outcome DataFrame :=
  if forallb (fun c => existsb (String.eqb c) (columns df)) cols
  then Val {| columns := cols;
              rows := map (fun r => map (fun c => cell df c r) cols) (rows df) |}
  else Exc KeyError.

(** ** Embedded fallback data

    The dict literals of [data_utils.py], entry by entry and in the order
    of the source; each is an association list, the order being the one
    [.items()] follows. *)

(** Population (2022 estimates, World Bank): code -> (name, population). *)
Definition _POPULATION_FALLBACK : list (string * (string * Z)) :=
  [ ("AFG", ("Afghanistan", 41128771%Z)); ("ALB", ("Albania", 2842321%Z));
    ("DZA", ("Algeria", 44903225%Z)); ("AGO", ("Angola", 34503774%Z));
    ("ARG", ("Argentina", 46234830%Z)); ("ARM", ("Armenia", 2780469%Z));
    ("AUS", ("Australia", 25978935%Z)); ("AUT", ("Austria", 9041851%Z));
    ("AZE", ("Azerbaijan", 10093121%Z)); ("BHS", ("Bahamas", 409984%Z));
    ("BHR", ("Bahrain", 1472233%Z)); ("BGD", ("Bangladesh", 169356251%Z));
    ("BRB", ("Barbados", 281200%Z)); ("BLR", ("Belarus", 9534954%Z));
    ("BEL", ("Belgium", 11584008%Z)); ("BLZ", ("Belize", 405272%Z));
    ("BEN", ("Benin", 12996895%Z)); ("BTN", ("Bhutan", 782455%Z));
    ("BOL", ("Bolivia", 12224110%Z)); ("BIH", ("Bosnia and Herzegovina", 3233526%Z));
    ("BWA", ("Botswana", 2588423%Z)); ("BRA", ("Brazil", 214326223%Z));
    ("BRN", ("Brunei", 445373%Z)); ("BGR", ("Bulgaria", 6781953%Z));
    ("BFA", ("Burkina Faso", 22100683%Z)); ("BDI", ("Burundi", 12551213%Z));
    ("KHM", ("Cambodia", 16767842%Z)); ("CMR", ("Cameroon", 27198628%Z));
    ("CAN", ("Canada", 38929902%Z)); ("CPV", ("Cabo Verde", 593149%Z));
    ("CAF", ("Central African Republic", 5579144%Z)); ("TCD", ("Chad", 17179740%Z));
    ("CHL", ("Chile", 19603733%Z)); ("CHN", ("China", 1412175000%Z));
    ("COL", ("Colombia", 51874024%Z)); ("COM", ("Comoros", 821625%Z));
    ("COG", ("Congo", 5970424%Z)); ("COD", ("DR Congo", 95894118%Z));
    ("CRI", ("Costa Rica", 5180829%Z)); ("CIV", ("Cote d'Ivoire", 27478249%Z));
    ("HRV", ("Croatia", 3855600%Z)); ("CUB", ("Cuba", 11212191%Z));
    ("CYP", ("Cyprus", 1251488%Z)); ("CZE", ("Czech Republic", 10827529%Z));
    ("DNK", ("Denmark", 5903037%Z)); ("DJI", ("Djibouti", 1105557%Z));
    ("DOM", ("Dominican Republic", 11228821%Z)); ("ECU", ("Ecuador", 17797737%Z));
    ("EGY", ("Egypt", 109262178%Z)); ("SLV", ("El Salvador", 6314167%Z));
    ("GNQ", ("Equatorial Guinea", 1634466%Z)); ("ERI", ("Eritrea", 3620312%Z));
    ("EST", ("Estonia", 1348840%Z)); ("SWZ", ("Eswatini", 1192271%Z));
    ("ETH", ("Ethiopia", 123379924%Z)); ("FJI", ("Fiji", 929766%Z));
    ("FIN", ("Finland", 5556106%Z)); ("FRA", ("France", 67935660%Z));
    ("GAB", ("Gabon", 2341179%Z)); ("GMB", ("Gambia", 2639916%Z));
    ("GEO", ("Georgia", 3736400%Z)); ("DEU", ("Germany", 83369843%Z));
    ("GHA", ("Ghana", 33475870%Z)); ("GRC", ("Greece", 10384971%Z));
    ("GTM", ("Guatemala", 17602431%Z)); ("GIN", ("Guinea", 13531906%Z));
    ("GNB", ("Guinea-Bissau", 2060721%Z)); ("GUY", ("Guyana", 808726%Z));
    ("HTI", ("Haiti", 11584996%Z)); ("HND", ("Honduras", 10278345%Z));
    ("HUN", ("Hungary", 9750149%Z)); ("ISL", ("Iceland", 376248%Z));
    ("IND", ("India", 1417173173%Z)); ("IDN", ("Indonesia", 275501339%Z));
    ("IRN", ("Iran", 87923432%Z)); ("IRQ", ("Iraq", 43533592%Z));
    ("IRL", ("Ireland", 5127170%Z)); ("ISR", ("Israel", 9557500%Z));
    ("ITA", ("Italy", 58940425%Z)); ("JAM", ("Jamaica", 2827695%Z));
    ("JPN", ("Japan", 125124989%Z)); ("JOR", ("Jordan", 11148278%Z));
    ("KAZ", ("Kazakhstan", 19397998%Z)); ("KEN", ("Kenya", 54027487%Z));
    ("KWT", ("Kuwait", 4268873%Z)); ("KGZ", ("Kyrgyzstan", 6747815%Z));
    ("LAO", ("Laos", 7529475%Z)); ("LVA", ("Latvia", 1883008%Z));
    ("LBN", ("Lebanon", 5489739%Z)); ("LSO", ("Lesotho", 2281454%Z));
    ("LBR", ("Liberia", 5302681%Z)); ("LBY", ("Libya", 6812341%Z));
    ("LTU", ("Lithuania", 2831639%Z)); ("LUX", ("Luxembourg", 660809%Z));
    ("MDG", ("Madagascar", 29611714%Z)); ("MWI", ("Malawi", 19889742%Z));
    ("MYS", ("Malaysia", 33938221%Z)); ("MLI", ("Mali", 22593590%Z));
    ("MLT", ("Malta", 531113%Z)); ("MRT", ("Mauritania", 4614974%Z));
    ("MUS", ("Mauritius", 1265740%Z)); ("MEX", ("Mexico", 127504125%Z));
    ("MDA", ("Moldova", 2615199%Z)); ("MNG", ("Mongolia", 3398366%Z));
    ("MNE", ("Montenegro", 616177%Z)); ("MAR", ("Morocco", 37457971%Z));
    ("MOZ", ("Mozambique", 32969518%Z)); ("MMR", ("Myanmar", 54179306%Z));
    ("NAM", ("Namibia", 2567012%Z)); ("NPL", ("Nepal", 30034989%Z));
    ("NLD", ("Netherlands", 17590672%Z)); ("NZL", ("New Zealand", 5123200%Z));
    ("NIC", ("Nicaragua", 6948392%Z)); ("NER", ("Niger", 25252722%Z));
    ("NGA", ("Nigeria", 218541212%Z)); ("NOR", ("Norway", 5457127%Z));
    ("OMN", ("Oman", 4576298%Z)); ("PAK", ("Pakistan", 231402117%Z));
    ("PAN", ("Panama", 4408581%Z)); ("PNG", ("Papua New Guinea", 10142619%Z));
    ("PRY", ("Paraguay", 6780744%Z)); ("PER", ("Peru", 33684208%Z));
    ("PHL", ("Philippines", 115559009%Z)); ("POL", ("Poland", 36821749%Z));
    ("PRT", ("Portugal", 10352042%Z)); ("QAT", ("Qatar", 2695122%Z));
    ("ROU", ("Romania", 19659267%Z)); ("RUS", ("Russia", 144236933%Z));
    ("RWA", ("Rwanda", 13461888%Z)); ("SAU", ("Saudi Arabia", 36408820%Z));
    ("SEN", ("Senegal", 17316449%Z)); ("SRB", ("Serbia", 6664449%Z));
    ("SLE", ("Sierra Leone", 8420641%Z)); ("SGP", ("Singapore", 5637022%Z));
    ("SVK", ("Slovakia", 5643453%Z)); ("SVN", ("Slovenia", 2119675%Z));
    ("SOM", ("Somalia", 17597511%Z)); ("ZAF", ("South Africa", 59893885%Z));
    ("KOR", ("South Korea", 51628117%Z)); ("SSD", ("South Sudan", 10913164%Z));
    ("ESP", ("Spain", 47778340%Z)); ("LKA", ("Sri Lanka", 22156000%Z));
    ("SDN", ("Sudan", 45657202%Z)); ("SUR", ("Suriname", 612985%Z));
    ("SWE", ("Sweden", 10486941%Z)); ("CHE", ("Switzerland", 8775760%Z));
    ("SYR", ("Syria", 22125249%Z)); ("TWN", ("Taiwan", 23894394%Z));
    ("TJK", ("Tajikistan", 9952787%Z)); ("TZA", ("Tanzania", 63588334%Z));
    ("THA", ("Thailand", 71697030%Z)); ("TLS", ("Timor-Leste", 1341296%Z));
    ("TGO", ("Togo", 8848699%Z)); ("TTO", ("Trinidad and Tobago", 1525663%Z));
    ("TUN", ("Tunisia", 12356117%Z)); ("TUR", ("Turkey", 84775404%Z));
    ("TKM", ("Turkmenistan", 6341855%Z)); ("UGA", ("Uganda", 45853778%Z));
    ("UKR", ("Ukraine", 43792855%Z)); ("ARE", ("United Arab Emirates", 9441129%Z));
    ("GBR", ("United Kingdom", 67508936%Z)); ("USA", ("United States", 333287557%Z));
    ("URY", ("Uruguay", 3422794%Z)); ("UZB", ("Uzbekistan", 35163944%Z));
    ("VEN", ("Venezuela", 28301696%Z)); ("VNM", ("Vietnam", 98186856%Z));
    ("YEM", ("Yemen", 33696614%Z)); ("ZMB", ("Zambia", 19473125%Z));
    ("ZWE", ("Zimbabwe", 15993524%Z))].

(** Gini coefficient (latest available, World Bank): code -> (name, gini). *)
Definition _GINI_FALLBACK : list (string * (string * float)) :=
  [ ("ALB", ("Albania", 30.0%float)); ("DZA", ("Algeria", 27.6%float));
    ("AGO", ("Angola", 51.3%float)); ("ARG", ("Argentina", 42.3%float));
    ("ARM", ("Armenia", 29.9%float)); ("AUS", ("Australia", 34.3%float));
    ("AUT", ("Austria", 30.5%float)); ("AZE", ("Azerbaijan", 26.6%float));
    ("BGD", ("Bangladesh", 32.4%float)); ("BLR", ("Belarus", 25.3%float));
    ("BEL", ("Belgium", 27.2%float)); ("BLZ", ("Belize", 53.3%float));
    ("BEN", ("Benin", 37.8%float)); ("BTN", ("Bhutan", 37.4%float));
    ("BOL", ("Bolivia", 43.6%float)); ("BIH", ("Bosnia and Herzegovina", 33.0%float));
    ("BWA", ("Botswana", 53.3%float)); ("BRA", ("Brazil", 52.9%float));
    ("BGR", ("Bulgaria", 40.3%float)); ("BFA", ("Burkina Faso", 47.3%float));
    ("BDI", ("Burundi", 38.6%float)); ("KHM", ("Cambodia", 38.0%float));
    ("CMR", ("Cameroon", 46.6%float)); ("CAN", ("Canada", 33.3%float));
    ("CAF", ("Central African Republic", 56.2%float)); ("TCD", ("Chad", 37.5%float));
    ("CHL", ("Chile", 44.9%float)); ("CHN", ("China", 38.2%float));
    ("COL", ("Colombia", 51.5%float)); ("COM", ("Comoros", 45.3%float));
    ("COG", ("Congo", 48.9%float)); ("COD", ("DR Congo", 42.1%float));
    ("CRI", ("Costa Rica", 48.2%float)); ("CIV", ("Cote d'Ivoire", 37.2%float));
    ("HRV", ("Croatia", 29.7%float)); ("CYP", ("Cyprus", 31.4%float));
    ("CZE", ("Czech Republic", 25.3%float)); ("DNK", ("Denmark", 28.2%float));
    ("DJI", ("Djibouti", 41.6%float)); ("DOM", ("Dominican Republic", 39.6%float));
    ("ECU", ("Ecuador", 47.3%float)); ("EGY", ("Egypt", 31.5%float));
    ("SLV", ("El Salvador", 38.8%float)); ("EST", ("Estonia", 30.4%float));
    ("SWZ", ("Eswatini", 54.6%float)); ("ETH", ("Ethiopia", 35.0%float));
    ("FJI", ("Fiji", 36.7%float)); ("FIN", ("Finland", 27.7%float));
    ("FRA", ("France", 31.6%float)); ("GAB", ("Gabon", 38.0%float));
    ("GMB", ("Gambia", 35.9%float)); ("GEO", ("Georgia", 34.5%float));
    ("DEU", ("Germany", 31.7%float)); ("GHA", ("Ghana", 43.5%float));
    ("GRC", ("Greece", 33.1%float)); ("GTM", ("Guatemala", 48.3%float));
    ("GIN", ("Guinea", 29.6%float)); ("GNB", ("Guinea-Bissau", 50.7%float));
    ("GUY", ("Guyana", 45.1%float)); ("HTI", ("Haiti", 41.1%float));
    ("HND", ("Honduras", 48.2%float)); ("HUN", ("Hungary", 30.6%float));
    ("ISL", ("Iceland", 26.1%float)); ("IND", ("India", 35.7%float));
    ("IDN", ("Indonesia", 37.9%float)); ("IRN", ("Iran", 40.9%float));
    ("IRQ", ("Iraq", 29.5%float)); ("IRL", ("Ireland", 30.6%float));
    ("ISR", ("Israel", 39.0%float)); ("ITA", ("Italy", 35.2%float));
    ("JAM", ("Jamaica", 35.0%float)); ("JPN", ("Japan", 32.9%float));
    ("JOR", ("Jordan", 33.7%float)); ("KAZ", ("Kazakhstan", 29.2%float));
    ("KEN", ("Kenya", 40.8%float)); ("KOR", ("South Korea", 31.4%float));
    ("KGZ", ("Kyrgyzstan", 29.0%float)); ("LAO", ("Laos", 38.8%float));
    ("LVA", ("Latvia", 35.1%float)); ("LBN", ("Lebanon", 31.8%float));
    ("LSO", ("Lesotho", 44.9%float)); ("LBR", ("Liberia", 35.3%float));
    ("LTU", ("Lithuania", 36.9%float)); ("LUX", ("Luxembourg", 35.4%float));
    ("MDG", ("Madagascar", 42.6%float)); ("MWI", ("Malawi", 44.7%float));
    ("MYS", ("Malaysia", 41.2%float)); ("MLI", ("Mali", 36.1%float));
    ("MLT", ("Malta", 30.7%float)); ("MRT", ("Mauritania", 32.6%float));
    ("MUS", ("Mauritius", 36.8%float)); ("MEX", ("Mexico", 45.4%float));
    ("MDA", ("Moldova", 26.0%float)); ("MNG", ("Mongolia", 32.7%float));
    ("MNE", ("Montenegro", 36.8%float)); ("MAR", ("Morocco", 39.5%float));
    ("MOZ", ("Mozambique", 54.0%float)); ("MMR", ("Myanmar", 30.7%float));
    ("NAM", ("Namibia", 59.1%float)); ("NPL", ("Nepal", 32.8%float));
    ("NLD", ("Netherlands", 28.5%float)); ("NZL", ("New Zealand", 36.0%float));
    ("NIC", ("Nicaragua", 46.2%float)); ("NER", ("Niger", 37.3%float));
    ("NGA", ("Nigeria", 35.1%float)); ("NOR", ("Norway", 27.6%float));
    ("PAK", ("Pakistan", 29.6%float)); ("PAN", ("Panama", 49.8%float));
    ("PNG", ("Papua New Guinea", 41.9%float)); ("PRY", ("Paraguay", 45.1%float));
    ("PER", ("Peru", 43.8%float)); ("PHL", ("Philippines", 42.3%float));
    ("POL", ("Poland", 29.7%float)); ("PRT", ("Portugal", 33.6%float));
    ("ROU", ("Romania", 34.8%float)); ("RUS", ("Russia", 36.0%float));
    ("RWA", ("Rwanda", 43.7%float)); ("SAU", ("Saudi Arabia", 45.9%float));
    ("SEN", ("Senegal", 40.3%float)); ("SRB", ("Serbia", 36.2%float));
    ("SLE", ("Sierra Leone", 35.7%float)); ("SGP", ("Singapore", 45.9%float));
    ("SVK", ("Slovakia", 25.2%float)); ("SVN", ("Slovenia", 24.6%float));
    ("ZAF", ("South Africa", 63.0%float)); ("ESP", ("Spain", 33.0%float));
    ("LKA", ("Sri Lanka", 37.7%float)); ("SDN", ("Sudan", 34.2%float));
    ("SUR", ("Suriname", 57.9%float)); ("SWE", ("Sweden", 30.0%float));
    ("CHE", ("Switzerland", 33.1%float)); ("TJK", ("Tajikistan", 34.0%float));
    ("TZA", ("Tanzania", 40.5%float)); ("THA", ("Thailand", 34.9%float));
    ("TLS", ("Timor-Leste", 28.7%float)); ("TGO", ("Togo", 43.1%float));
    ("TTO", ("Trinidad and Tobago", 40.3%float)); ("TUN", ("Tunisia", 32.8%float));
    ("TUR", ("Turkey", 41.9%float)); ("TKM", ("Turkmenistan", 40.8%float));
    ("UGA", ("Uganda", 42.7%float)); ("UKR", ("Ukraine", 25.6%float));
    ("ARE", ("United Arab Emirates", 32.5%float));
    ("GBR", ("United Kingdom", 35.1%float)); ("USA", ("United States", 39.8%float));
    ("URY", ("Uruguay", 40.2%float)); ("UZB", ("Uzbekistan", 35.3%float));
    ("VEN", ("Venezuela", 44.8%float)); ("VNM", ("Vietnam", 36.8%float));
    ("YEM", ("Yemen", 36.7%float)); ("ZMB", ("Zambia", 57.1%float));
    ("ZWE", ("Zimbabwe", 50.3%float))].

(** Gun homicide rate per 100K (UNODC): code -> (name, rate). *)
Definition _GUN_HOMICIDE_FALLBACK : list (string * (string * float)) :=
  [ ("AFG", ("Afghanistan", 4.7%float)); ("ALB", ("Albania", 1.3%float));
    ("DZA", ("Algeria", 0.5%float)); ("AGO", ("Angola", 4.8%float));
    ("ARG", ("Argentina", 2.2%float)); ("ARM", ("Armenia", 0.4%float));
    ("AUS", ("Australia", 0.15%float)); ("AUT", ("Austria", 0.15%float));
    ("AZE", ("Azerbaijan", 0.6%float)); ("BHS", ("Bahamas", 24.5%float));
    ("BHR", ("Bahrain", 0.1%float)); ("BGD", ("Bangladesh", 1.1%float));
    ("BRB", ("Barbados", 7.4%float)); ("BLR", ("Belarus", 0.2%float));
    ("BEL", ("Belgium", 0.3%float)); ("BLZ", ("Belize", 19.4%float));
    ("BEN", ("Benin", 0.8%float)); ("BOL", ("Bolivia", 3.0%float));
    ("BIH", ("Bosnia and Herzegovina", 0.6%float)); ("BWA", ("Botswana", 2.8%float));
    ("BRA", ("Brazil", 21.9%float)); ("BGR", ("Bulgaria", 0.5%float));
    ("BFA", ("Burkina Faso", 1.5%float)); ("BDI", ("Burundi", 2.1%float));
    ("KHM", ("Cambodia", 0.8%float)); ("CMR", ("Cameroon", 2.9%float));
    ("CAN", ("Canada", 0.75%float)); ("CAF", ("Central African Republic", 6.1%float));
    ("TCD", ("Chad", 3.2%float)); ("CHL", ("Chile", 2.1%float));
    ("CHN", ("China", 0.04%float)); ("COL", ("Colombia", 13.1%float));
    ("COG", ("Congo", 4.7%float)); ("COD", ("DR Congo", 3.0%float));
    ("CRI", ("Costa Rica", 6.3%float)); ("CIV", ("Cote d'Ivoire", 1.6%float));
    ("HRV", ("Croatia", 0.3%float)); ("CUB", ("Cuba", 2.5%float));
    ("CYP", ("Cyprus", 0.2%float)); ("CZE", ("Czech Republic", 0.12%float));
    ("DNK", ("Denmark", 0.15%float)); ("DOM", ("Dominican Republic", 11.2%float));
    ("ECU", ("Ecuador", 5.6%float)); ("EGY", ("Egypt", 0.4%float));
    ("SLV", ("El Salvador", 17.5%float)); ("GNQ", ("Equatorial Guinea", 2.1%float));
    ("ERI", ("Eritrea", 2.8%float)); ("EST", ("Estonia", 0.3%float));
    ("SWZ", ("Eswatini", 6.3%float)); ("ETH", ("Ethiopia", 3.5%float));
    ("FJI", ("Fiji", 0.5%float)); ("FIN", ("Finland", 0.2%float));
    ("FRA", ("France", 0.3%float)); ("GAB", ("Gabon", 2.4%float));
    ("GEO", ("Georgia", 0.8%float)); ("DEU", ("Germany", 0.06%float));
    ("GHA", ("Ghana", 1.7%float)); ("GRC", ("Greece", 0.4%float));
    ("GTM", ("Guatemala", 18.5%float)); ("GIN", ("Guinea", 2.6%float));
    ("GNB", ("Guinea-Bissau", 3.4%float)); ("GUY", ("Guyana", 7.1%float));
    ("HTI", ("Haiti", 12.0%float)); ("HND", ("Honduras", 26.7%float));
    ("HUN", ("Hungary", 0.12%float)); ("ISL", ("Iceland", 0.0%float));
    ("IND", ("India", 0.9%float)); ("IDN", ("Indonesia", 0.1%float));
    ("IRN", ("Iran", 1.3%float)); ("IRQ", ("Iraq", 5.2%float));
    ("IRL", ("Ireland", 0.2%float)); ("ISR", ("Israel", 0.7%float));
    ("ITA", ("Italy", 0.35%float)); ("JAM", ("Jamaica", 30.7%float));
    ("JPN", ("Japan", 0.01%float)); ("JOR", ("Jordan", 0.5%float));
    ("KAZ", ("Kazakhstan", 0.5%float)); ("KEN", ("Kenya", 2.3%float));
    ("KOR", ("South Korea", 0.02%float)); ("KWT", ("Kuwait", 0.4%float));
    ("KGZ", ("Kyrgyzstan", 1.2%float)); ("LVA", ("Latvia", 0.5%float));
    ("LBN", ("Lebanon", 3.0%float)); ("LSO", ("Lesotho", 3.1%float));
    ("LBR", ("Liberia", 3.2%float)); ("LBY", ("Libya", 4.5%float));
    ("LTU", ("Lithuania", 0.4%float)); ("LUX", ("Luxembourg", 0.1%float));
    ("MDG", ("Madagascar", 1.4%float)); ("MWI", ("Malawi", 1.0%float));
    ("MYS", ("Malaysia", 0.3%float)); ("MLI", ("Mali", 3.5%float));
    ("MLT", ("Malta", 0.3%float)); ("MRT", ("Mauritania", 1.2%float));
    ("MUS", ("Mauritius", 0.4%float)); ("MEX", ("Mexico", 16.3%float));
    ("MDA", ("Moldova", 0.5%float)); ("MNG", ("Mongolia", 0.6%float));
    ("MNE", ("Montenegro", 1.4%float)); ("MAR", ("Morocco", 0.3%float));
    ("MOZ", ("Mozambique", 3.0%float)); ("MMR", ("Myanmar", 2.3%float));
    ("NAM", ("Namibia", 5.2%float)); ("NPL", ("Nepal", 0.9%float));
    ("NLD", ("Netherlands", 0.2%float)); ("NZL", ("New Zealand", 0.18%float));
    ("NIC", ("Nicaragua", 5.3%float)); ("NER", ("Niger", 1.7%float));
    ("NGA", ("Nigeria", 3.2%float)); ("NOR", ("Norway", 0.1%float));
    ("OMN", ("Oman", 0.2%float)); ("PAK", ("Pakistan", 3.0%float));
    ("PAN", ("Panama", 7.8%float)); ("PNG", ("Papua New Guinea", 5.6%float));
    ("PRY", ("Paraguay", 5.5%float)); ("PER", ("Peru", 3.7%float));
    ("PHL", ("Philippines", 5.4%float)); ("POL", ("Poland", 0.08%float));
    ("PRT", ("Portugal", 0.3%float)); ("QAT", ("Qatar", 0.1%float));
    ("ROU", ("Romania", 0.1%float)); ("RUS", ("Russia", 2.7%float));
    ("RWA", ("Rwanda", 1.1%float)); ("SAU", ("Saudi Arabia", 0.6%float));
    ("SEN", ("Senegal", 1.4%float)); ("SRB", ("Serbia", 0.5%float));
    ("SLE", ("Sierra Leone", 1.8%float)); ("SGP", ("Singapore", 0.02%float));
    ("SVK", ("Slovakia", 0.2%float)); ("SVN", ("Slovenia", 0.1%float));
    ("SOM", ("Somalia", 5.6%float)); ("ZAF", ("South Africa", 10.2%float));
    ("SSD", ("South Sudan", 6.5%float)); ("ESP", ("Spain", 0.12%float));
    ("LKA", ("Sri Lanka", 1.4%float)); ("SDN", ("Sudan", 5.1%float));
    ("SUR", ("Suriname", 5.1%float)); ("SWE", ("Sweden", 0.4%float));
    ("CHE", ("Switzerland", 0.15%float)); ("SYR", ("Syria", 3.0%float));
    ("TJK", ("Tajikistan", 0.5%float)); ("TZA", ("Tanzania", 2.3%float));
    ("THA", ("Thailand", 2.5%float)); ("TLS", ("Timor-Leste", 1.0%float));
    ("TGO", ("Togo", 2.3%float)); ("TTO", ("Trinidad and Tobago", 20.3%float));
    ("TUN", ("Tunisia", 0.3%float)); ("TUR", ("Turkey", 1.8%float));
    ("TKM", ("Turkmenistan", 1.0%float)); ("UGA", ("Uganda", 3.3%float));
    ("UKR", ("Ukraine", 1.6%float)); ("ARE", ("United Arab Emirates", 0.3%float));
    ("GBR", ("United Kingdom", 0.04%float)); ("USA", ("United States", 4.46%float));
    ("URY", ("Uruguay", 3.5%float)); ("UZB", ("Uzbekistan", 0.5%float));
    ("VEN", ("Venezuela", 33.3%float)); ("VNM", ("Vietnam", 0.5%float));
    ("YEM", ("Yemen", 4.8%float)); ("ZMB", ("Zambia", 2.8%float));
    ("ZWE", ("Zimbabwe", 2.5%float))].

(** Drug offense rate per 100K (UNODC): code -> (name, rate). *)
Definition _DRUG_OFFENSE_FALLBACK : list (string * (string * float)) :=
  [ ("ALB", ("Albania", 45.0%float)); ("DZA", ("Algeria", 85.0%float));
    ("ARG", ("Argentina", 102.0%float)); ("ARM", ("Armenia", 38.0%float));
    ("AUS", ("Australia", 605.0%float)); ("AUT", ("Austria", 340.0%float));
    ("AZE", ("Azerbaijan", 42.0%float)); ("BHS", ("Bahamas", 310.0%float));
    ("BGD", ("Bangladesh", 72.0%float)); ("BLR", ("Belarus", 120.0%float));
    ("BEL", ("Belgium", 340.0%float)); ("BLZ", ("Belize", 195.0%float));
    ("BEN", ("Benin", 12.0%float)); ("BOL", ("Bolivia", 65.0%float));
    ("BIH", ("Bosnia and Herzegovina", 75.0%float)); ("BWA", ("Botswana", 210.0%float));
    ("BRA", ("Brazil", 155.0%float)); ("BGR", ("Bulgaria", 105.0%float));
    ("BFA", ("Burkina Faso", 8.0%float)); ("KHM", ("Cambodia", 48.0%float));
    ("CMR", ("Cameroon", 15.0%float)); ("CAN", ("Canada", 280.0%float));
    ("CHL", ("Chile", 210.0%float)); ("CHN", ("China", 35.0%float));
    ("COL", ("Colombia", 120.0%float)); ("CRI", ("Costa Rica", 105.0%float));
    ("HRV", ("Croatia", 165.0%float)); ("CYP", ("Cyprus", 185.0%float));
    ("CZE", ("Czech Republic", 85.0%float)); ("DNK", ("Denmark", 380.0%float));
    ("DOM", ("Dominican Republic", 52.0%float)); ("ECU", ("Ecuador", 68.0%float));
    ("EGY", ("Egypt", 35.0%float)); ("SLV", ("El Salvador", 42.0%float));
    ("EST", ("Estonia", 185.0%float)); ("ETH", ("Ethiopia", 15.0%float));
    ("FIN", ("Finland", 420.0%float)); ("FRA", ("France", 290.0%float));
    ("GEO", ("Georgia", 125.0%float)); ("DEU", ("Germany", 325.0%float));
    ("GHA", ("Ghana", 28.0%float)); ("GRC", ("Greece", 125.0%float));
    ("GTM", ("Guatemala", 35.0%float)); ("GUY", ("Guyana", 78.0%float));
    ("HND", ("Honduras", 38.0%float)); ("HUN", ("Hungary", 55.0%float));
    ("ISL", ("Iceland", 310.0%float)); ("IND", ("India", 18.0%float));
    ("IDN", ("Indonesia", 38.0%float)); ("IRN", ("Iran", 450.0%float));
    ("IRQ", ("Iraq", 22.0%float)); ("IRL", ("Ireland", 290.0%float));
    ("ISR", ("Israel", 210.0%float)); ("ITA", ("Italy", 165.0%float));
    ("JAM", ("Jamaica", 135.0%float)); ("JPN", ("Japan", 22.0%float));
    ("JOR", ("Jordan", 42.0%float)); ("KAZ", ("Kazakhstan", 82.0%float));
    ("KEN", ("Kenya", 48.0%float)); ("KOR", ("South Korea", 52.0%float));
    ("KWT", ("Kuwait", 32.0%float)); ("KGZ", ("Kyrgyzstan", 55.0%float));
    ("LVA", ("Latvia", 85.0%float)); ("LBN", ("Lebanon", 95.0%float));
    ("LTU", ("Lithuania", 95.0%float)); ("LUX", ("Luxembourg", 385.0%float));
    ("MYS", ("Malaysia", 115.0%float)); ("MLI", ("Mali", 10.0%float));
    ("MLT", ("Malta", 155.0%float)); ("MUS", ("Mauritius", 145.0%float));
    ("MEX", ("Mexico", 55.0%float)); ("MDA", ("Moldova", 65.0%float));
    ("MNG", ("Mongolia", 42.0%float)); ("MNE", ("Montenegro", 115.0%float));
    ("MAR", ("Morocco", 85.0%float)); ("MOZ", ("Mozambique", 18.0%float));
    ("MMR", ("Myanmar", 175.0%float)); ("NAM", ("Namibia", 110.0%float));
    ("NPL", ("Nepal", 22.0%float)); ("NLD", ("Netherlands", 165.0%float));
    ("NZL", ("New Zealand", 455.0%float)); ("NIC", ("Nicaragua", 32.0%float));
    ("NGA", ("Nigeria", 20.0%float)); ("NOR", ("Norway", 420.0%float));
    ("PAK", ("Pakistan", 55.0%float)); ("PAN", ("Panama", 85.0%float));
    ("PRY", ("Paraguay", 48.0%float)); ("PER", ("Peru", 72.0%float));
    ("PHL", ("Philippines", 180.0%float)); ("POL", ("Poland", 85.0%float));
    ("PRT", ("Portugal", 155.0%float)); ("QAT", ("Qatar", 28.0%float));
    ("ROU", ("Romania", 35.0%float)); ("RUS", ("Russia", 155.0%float));
    ("SAU", ("Saudi Arabia", 42.0%float)); ("SEN", ("Senegal", 22.0%float));
    ("SRB", ("Serbia", 95.0%float)); ("SGP", ("Singapore", 45.0%float));
    ("SVK", ("Slovakia", 48.0%float)); ("SVN", ("Slovenia", 135.0%float));
    ("ZAF", ("South Africa", 195.0%float)); ("ESP", ("Spain", 145.0%float));
    ("LKA", ("Sri Lanka", 185.0%float)); ("SUR", ("Suriname", 55.0%float));
    ("SWE", ("Sweden", 395.0%float)); ("CHE", ("Switzerland", 470.0%float));
    ("THA", ("Thailand", 345.0%float)); ("TTO", ("Trinidad and Tobago", 155.0%float));
    ("TUN", ("Tunisia", 35.0%float)); ("TUR", ("Turkey", 185.0%float));
    ("UGA", ("Uganda", 30.0%float)); ("UKR", ("Ukraine", 48.0%float));
    ("ARE", ("United Arab Emirates", 72.0%float));
    ("GBR", ("United Kingdom", 185.0%float)); ("USA", ("United States", 585.0%float));
    ("URY", ("Uruguay", 115.0%float)); ("UZB", ("Uzbekistan", 32.0%float));
    ("VEN", ("Venezuela", 42.0%float)); ("VNM", ("Vietnam", 28.0%float));
    ("ZMB", ("Zambia", 32.0%float)); ("ZWE", ("Zimbabwe", 45.0%float))].

(** Country -> region label, for the colours of the scatter plots. *)
Definition _COUNTRY_REGIONS : list (string * string) :=
  [ ("USA", "North America"); ("CAN", "North America"); ("MEX", "North America");
    ("GTM", "Central America & Caribbean"); ("BLZ", "Central America & Caribbean");
    ("HND", "Central America & Caribbean"); ("SLV", "Central America & Caribbean");
    ("NIC", "Central America & Caribbean"); ("CRI", "Central America & Caribbean");
    ("PAN", "Central America & Caribbean"); ("CUB", "Central America & Caribbean");
    ("JAM", "Central America & Caribbean"); ("HTI", "Central America & Caribbean");
    ("DOM", "Central America & Caribbean"); ("TTO", "Central America & Caribbean");
    ("BHS", "Central America & Caribbean"); ("BRB", "Central America & Caribbean");
    ("BRA", "South America"); ("ARG", "South America"); ("COL", "South America");
    ("VEN", "South America"); ("PER", "South America"); ("CHL", "South America");
    ("ECU", "South America"); ("BOL", "South America"); ("PRY", "South America");
    ("URY", "South America"); ("GUY", "South America"); ("SUR", "South America");
    ("GBR", "Western Europe"); ("FRA", "Western Europe"); ("DEU", "Western Europe");
    ("ESP", "Western Europe"); ("ITA", "Western Europe"); ("PRT", "Western Europe");
    ("NLD", "Western Europe"); ("BEL", "Western Europe"); ("CHE", "Western Europe");
    ("AUT", "Western Europe"); ("IRL", "Western Europe"); ("LUX", "Western Europe");
    ("DNK", "Western Europe"); ("NOR", "Western Europe"); ("SWE", "Western Europe");
    ("FIN", "Western Europe"); ("ISL", "Western Europe"); ("MLT", "Western Europe");
    ("CYP", "Western Europe"); ("GRC", "Western Europe"); ("RUS", "Eastern Europe");
    ("UKR", "Eastern Europe"); ("POL", "Eastern Europe"); ("ROU", "Eastern Europe");
    ("CZE", "Eastern Europe"); ("HUN", "Eastern Europe"); ("BGR", "Eastern Europe");
    ("SRB", "Eastern Europe"); ("HRV", "Eastern Europe"); ("SVK", "Eastern Europe");
    ("SVN", "Eastern Europe"); ("BIH", "Eastern Europe"); ("MNE", "Eastern Europe");
    ("ALB", "Eastern Europe"); ("MDA", "Eastern Europe"); ("BLR", "Eastern Europe");
    ("LTU", "Eastern Europe"); ("LVA", "Eastern Europe"); ("EST", "Eastern Europe");
    ("GEO", "Eastern Europe"); ("ARM", "Eastern Europe"); ("AZE", "Eastern Europe");
    ("SAU", "Middle East & N. Africa"); ("ARE", "Middle East & N. Africa");
    ("ISR", "Middle East & N. Africa"); ("TUR", "Middle East & N. Africa");
    ("IRN", "Middle East & N. Africa"); ("IRQ", "Middle East & N. Africa");
    ("JOR", "Middle East & N. Africa"); ("LBN", "Middle East & N. Africa");
    ("KWT", "Middle East & N. Africa"); ("QAT", "Middle East & N. Africa");
    ("BHR", "Middle East & N. Africa"); ("OMN", "Middle East & N. Africa");
    ("SYR", "Middle East & N. Africa"); ("YEM", "Middle East & N. Africa");
    ("EGY", "Middle East & N. Africa"); ("LBY", "Middle East & N. Africa");
    ("TUN", "Middle East & N. Africa"); ("DZA", "Middle East & N. Africa");
    ("MAR", "Middle East & N. Africa"); ("NGA", "Sub-Saharan Africa");
    ("ZAF", "Sub-Saharan Africa"); ("KEN", "Sub-Saharan Africa");
    ("ETH", "Sub-Saharan Africa"); ("GHA", "Sub-Saharan Africa");
    ("TZA", "Sub-Saharan Africa"); ("UGA", "Sub-Saharan Africa");
    ("CMR", "Sub-Saharan Africa"); ("CIV", "Sub-Saharan Africa");
    ("SEN", "Sub-Saharan Africa"); ("MLI", "Sub-Saharan Africa");
    ("BFA", "Sub-Saharan Africa"); ("NER", "Sub-Saharan Africa");
    ("TCD", "Sub-Saharan Africa"); ("SDN", "Sub-Saharan Africa");
    ("SSD", "Sub-Saharan Africa"); ("SOM", "Sub-Saharan Africa");
    ("COG", "Sub-Saharan Africa"); ("COD", "Sub-Saharan Africa");
    ("MOZ", "Sub-Saharan Africa"); ("MDG", "Sub-Saharan Africa");
    ("MWI", "Sub-Saharan Africa"); ("ZMB", "Sub-Saharan Africa");
    ("ZWE", "Sub-Saharan Africa"); ("AGO", "Sub-Saharan Africa");
    ("NAM", "Sub-Saharan Africa"); ("BWA", "Sub-Saharan Africa");
    ("LSO", "Sub-Saharan Africa"); ("SWZ", "Sub-Saharan Africa");
    ("RWA", "Sub-Saharan Africa"); ("BDI", "Sub-Saharan Africa");
    ("BEN", "Sub-Saharan Africa"); ("TGO", "Sub-Saharan Africa");
    ("SLE", "Sub-Saharan Africa"); ("LBR", "Sub-Saharan Africa");
    ("GIN", "Sub-Saharan Africa"); ("GNB", "Sub-Saharan Africa");
    ("GMB", "Sub-Saharan Africa"); ("GAB", "Sub-Saharan Africa");
    ("GNQ", "Sub-Saharan Africa"); ("ERI", "Sub-Saharan Africa");
    ("DJI", "Sub-Saharan Africa"); ("CPV", "Sub-Saharan Africa");
    ("MUS", "Sub-Saharan Africa"); ("MRT", "Sub-Saharan Africa");
    ("CAF", "Sub-Saharan Africa"); ("AFG", "Sub-Saharan Africa");
    ("IND", "South & Central Asia"); ("PAK", "South & Central Asia");
    ("BGD", "South & Central Asia"); ("LKA", "South & Central Asia");
    ("NPL", "South & Central Asia"); ("BTN", "South & Central Asia");
    ("KAZ", "South & Central Asia"); ("UZB", "South & Central Asia");
    ("TKM", "South & Central Asia"); ("TJK", "South & Central Asia");
    ("KGZ", "South & Central Asia"); ("CHN", "East & SE Asia");
    ("JPN", "East & SE Asia"); ("KOR", "East & SE Asia"); ("TWN", "East & SE Asia");
    ("MNG", "East & SE Asia"); ("IDN", "East & SE Asia"); ("PHL", "East & SE Asia");
    ("VNM", "East & SE Asia"); ("THA", "East & SE Asia"); ("MYS", "East & SE Asia");
    ("SGP", "East & SE Asia"); ("MMR", "East & SE Asia"); ("KHM", "East & SE Asia");
    ("LAO", "East & SE Asia"); ("BRN", "East & SE Asia"); ("TLS", "East & SE Asia");
    ("AUS", "Oceania"); ("NZL", "Oceania"); ("FJI", "Oceania"); ("PNG", "Oceania")].

(** Civilian firearms per 100 persons (Small Arms Survey 2017): code -> (name, guns_per_100). *)
Definition _GUN_OWNERSHIP_FALLBACK : list (string * (string * float)) :=
  [ ("AFG", ("Afghanistan", 12.5%float)); ("ALB", ("Albania", 8.6%float));
    ("DZA", ("Algeria", 7.1%float)); ("AGO", ("Angola", 3.0%float));
    ("ARG", ("Argentina", 10.2%float)); ("ARM", ("Armenia", 4.4%float));
    ("AUS", ("Australia", 13.7%float)); ("AUT", ("Austria", 30.0%float));
    ("AZE", ("Azerbaijan", 3.6%float)); ("BHS", ("Bahamas", 5.3%float));
    ("BHR", ("Bahrain", 11.6%float)); ("BGD", ("Bangladesh", 0.5%float));
    ("BRB", ("Barbados", 3.2%float)); ("BLR", ("Belarus", 7.3%float));
    ("BEL", ("Belgium", 12.2%float)); ("BLZ", ("Belize", 10.0%float));
    ("BEN", ("Benin", 1.4%float)); ("BOL", ("Bolivia", 2.8%float));
    ("BIH", ("Bosnia and Herzegovina", 31.2%float)); ("BWA", ("Botswana", 3.3%float));
    ("BRA", ("Brazil", 8.3%float)); ("BGR", ("Bulgaria", 6.2%float));
    ("BFA", ("Burkina Faso", 1.1%float)); ("BDI", ("Burundi", 1.6%float));
    ("KHM", ("Cambodia", 4.5%float)); ("CMR", ("Cameroon", 1.1%float));
    ("CAN", ("Canada", 34.7%float)); ("CAF", ("Central African Republic", 1.0%float));
    ("TCD", ("Chad", 1.3%float)); ("CHL", ("Chile", 10.5%float));
    ("CHN", ("China", 3.6%float)); ("COL", ("Colombia", 10.1%float));
    ("COG", ("Congo", 2.1%float)); ("COD", ("DR Congo", 1.4%float));
    ("CRI", ("Costa Rica", 10.0%float)); ("CIV", ("Cote d'Ivoire", 2.8%float));
    ("HRV", ("Croatia", 21.7%float)); ("CUB", ("Cuba", 4.5%float));
    ("CYP", ("Cyprus", 36.4%float)); ("CZE", ("Czech Republic", 16.3%float));
    ("DNK", ("Denmark", 9.9%float)); ("DOM", ("Dominican Republic", 8.7%float));
    ("ECU", ("Ecuador", 3.8%float)); ("EGY", ("Egypt", 3.5%float));
    ("SLV", ("El Salvador", 5.8%float)); ("ERI", ("Eritrea", 0.5%float));
    ("EST", ("Estonia", 9.2%float)); ("SWZ", ("Eswatini", 3.5%float));
    ("ETH", ("Ethiopia", 0.6%float)); ("FJI", ("Fiji", 0.5%float));
    ("FIN", ("Finland", 32.4%float)); ("FRA", ("France", 19.6%float));
    ("GAB", ("Gabon", 2.0%float)); ("GMB", ("Gambia", 1.3%float));
    ("GEO", ("Georgia", 7.5%float)); ("DEU", ("Germany", 19.6%float));
    ("GHA", ("Ghana", 1.4%float)); ("GRC", ("Greece", 22.5%float));
    ("GTM", ("Guatemala", 12.0%float)); ("GIN", ("Guinea", 1.1%float));
    ("GNB", ("Guinea-Bissau", 2.0%float)); ("GUY", ("Guyana", 4.0%float));
    ("HTI", ("Haiti", 1.7%float)); ("HND", ("Honduras", 14.1%float));
    ("HUN", ("Hungary", 5.5%float)); ("ISL", ("Iceland", 30.3%float));
    ("IND", ("India", 5.3%float)); ("IDN", ("Indonesia", 0.5%float));
    ("IRN", ("Iran", 7.3%float)); ("IRQ", ("Iraq", 19.6%float));
    ("IRL", ("Ireland", 7.2%float)); ("ISR", ("Israel", 7.3%float));
    ("ITA", ("Italy", 14.4%float)); ("JAM", ("Jamaica", 8.1%float));
    ("JPN", ("Japan", 0.3%float)); ("JOR", ("Jordan", 11.5%float));
    ("KAZ", ("Kazakhstan", 3.9%float)); ("KEN", ("Kenya", 1.7%float));
    ("KOR", ("South Korea", 0.2%float)); ("KWT", ("Kuwait", 24.8%float));
    ("KGZ", ("Kyrgyzstan", 3.9%float)); ("LAO", ("Laos", 2.2%float));
    ("LVA", ("Latvia", 10.1%float)); ("LBN", ("Lebanon", 31.9%float));
    ("LSO", ("Lesotho", 2.7%float)); ("LBR", ("Liberia", 2.2%float));
    ("LBY", ("Libya", 15.5%float)); ("LTU", ("Lithuania", 8.1%float));
    ("LUX", ("Luxembourg", 15.3%float)); ("MDG", ("Madagascar", 0.5%float));
    ("MWI", ("Malawi", 0.7%float)); ("MYS", ("Malaysia", 1.5%float));
    ("MLI", ("Mali", 1.5%float)); ("MLT", ("Malta", 11.9%float));
    ("MRT", ("Mauritania", 3.5%float)); ("MUS", ("Mauritius", 3.5%float));
    ("MEX", ("Mexico", 16.8%float)); ("MDA", ("Moldova", 4.0%float));
    ("MNG", ("Mongolia", 7.3%float)); ("MNE", ("Montenegro", 23.1%float));
    ("MAR", ("Morocco", 5.1%float)); ("MOZ", ("Mozambique", 2.8%float));
    ("MMR", ("Myanmar", 1.6%float)); ("NAM", ("Namibia", 5.6%float));
    ("NPL", ("Nepal", 2.0%float)); ("NLD", ("Netherlands", 2.6%float));
    ("NZL", ("New Zealand", 26.3%float)); ("NIC", ("Nicaragua", 6.7%float));
    ("NER", ("Niger", 0.7%float)); ("NGA", ("Nigeria", 1.5%float));
    ("NOR", ("Norway", 28.8%float)); ("OMN", ("Oman", 25.5%float));
    ("PAK", ("Pakistan", 22.3%float)); ("PAN", ("Panama", 7.7%float));
    ("PNG", ("Papua New Guinea", 3.9%float)); ("PRY", ("Paraguay", 17.0%float));
    ("PER", ("Peru", 5.0%float)); ("PHL", ("Philippines", 3.6%float));
    ("POL", ("Poland", 2.5%float)); ("PRT", ("Portugal", 8.5%float));
    ("QAT", ("Qatar", 19.2%float)); ("ROU", ("Romania", 2.6%float));
    ("RUS", ("Russia", 12.3%float)); ("RWA", ("Rwanda", 0.6%float));
    ("SAU", ("Saudi Arabia", 19.3%float)); ("SEN", ("Senegal", 2.0%float));
    ("SRB", ("Serbia", 39.1%float)); ("SLE", ("Sierra Leone", 0.6%float));
    ("SGP", ("Singapore", 0.3%float)); ("SVK", ("Slovakia", 8.3%float));
    ("SVN", ("Slovenia", 13.5%float)); ("SOM", ("Somalia", 9.1%float));
    ("ZAF", ("South Africa", 9.7%float)); ("SSD", ("South Sudan", 1.5%float));
    ("ESP", ("Spain", 7.5%float)); ("LKA", ("Sri Lanka", 1.5%float));
    ("SDN", ("Sudan", 6.2%float)); ("SUR", ("Suriname", 4.8%float));
    ("SWE", ("Sweden", 23.1%float)); ("CHE", ("Switzerland", 27.6%float));
    ("SYR", ("Syria", 3.9%float)); ("TJK", ("Tajikistan", 1.4%float));
    ("TZA", ("Tanzania", 1.4%float)); ("THA", ("Thailand", 15.1%float));
    ("TLS", ("Timor-Leste", 5.5%float)); ("TGO", ("Togo", 1.6%float));
    ("TTO", ("Trinidad and Tobago", 3.0%float)); ("TUN", ("Tunisia", 1.0%float));
    ("TUR", ("Turkey", 12.5%float)); ("TKM", ("Turkmenistan", 3.8%float));
    ("UGA", ("Uganda", 1.4%float)); ("UKR", ("Ukraine", 9.9%float));
    ("ARE", ("United Arab Emirates", 22.1%float));
    ("GBR", ("United Kingdom", 4.6%float)); ("USA", ("United States", 120.5%float));
    ("URY", ("Uruguay", 34.7%float)); ("UZB", ("Uzbekistan", 1.7%float));
    ("VEN", ("Venezuela", 18.5%float)); ("VNM", ("Vietnam", 1.6%float));
    ("YEM", ("Yemen", 52.8%float)); ("ZMB", ("Zambia", 1.6%float));
    ("ZWE", ("Zimbabwe", 2.8%float))].

(** Gun control strictness, ordinal scale 1 (very permissive) to 5 (very strict): code -> (name, level). *)
Definition _GUN_CONTROL_STRICTNESS_FALLBACK : list (string * (string * Z)) :=
  [ ("AFG", ("Afghanistan", 1%Z)); ("ALB", ("Albania", 3%Z)); ("DZA", ("Algeria", 4%Z));
    ("AGO", ("Angola", 3%Z)); ("ARG", ("Argentina", 3%Z)); ("ARM", ("Armenia", 3%Z));
    ("AUS", ("Australia", 4%Z)); ("AUT", ("Austria", 3%Z));
    ("AZE", ("Azerbaijan", 4%Z)); ("BHS", ("Bahamas", 3%Z)); ("BHR", ("Bahrain", 4%Z));
    ("BGD", ("Bangladesh", 4%Z)); ("BRB", ("Barbados", 3%Z)); ("BLR", ("Belarus", 4%Z));
    ("BEL", ("Belgium", 3%Z)); ("BLZ", ("Belize", 2%Z)); ("BEN", ("Benin", 3%Z));
    ("BOL", ("Bolivia", 3%Z)); ("BIH", ("Bosnia and Herzegovina", 3%Z));
    ("BWA", ("Botswana", 3%Z)); ("BRA", ("Brazil", 3%Z)); ("BGR", ("Bulgaria", 3%Z));
    ("BFA", ("Burkina Faso", 3%Z)); ("BDI", ("Burundi", 4%Z));
    ("KHM", ("Cambodia", 4%Z)); ("CMR", ("Cameroon", 3%Z)); ("CAN", ("Canada", 3%Z));
    ("CAF", ("Central African Republic", 2%Z)); ("TCD", ("Chad", 3%Z));
    ("CHL", ("Chile", 3%Z)); ("CHN", ("China", 5%Z)); ("COL", ("Colombia", 3%Z));
    ("COG", ("Congo", 3%Z)); ("COD", ("DR Congo", 3%Z)); ("CRI", ("Costa Rica", 3%Z));
    ("CIV", ("Cote d'Ivoire", 3%Z)); ("HRV", ("Croatia", 3%Z)); ("CUB", ("Cuba", 4%Z));
    ("CYP", ("Cyprus", 3%Z)); ("CZE", ("Czech Republic", 2%Z));
    ("DNK", ("Denmark", 4%Z)); ("DOM", ("Dominican Republic", 3%Z));
    ("ECU", ("Ecuador", 3%Z)); ("EGY", ("Egypt", 4%Z)); ("SLV", ("El Salvador", 3%Z));
    ("ERI", ("Eritrea", 5%Z)); ("EST", ("Estonia", 3%Z)); ("SWZ", ("Eswatini", 3%Z));
    ("ETH", ("Ethiopia", 4%Z)); ("FJI", ("Fiji", 4%Z)); ("FIN", ("Finland", 3%Z));
    ("FRA", ("France", 3%Z)); ("GAB", ("Gabon", 3%Z)); ("GMB", ("Gambia", 3%Z));
    ("GEO", ("Georgia", 3%Z)); ("DEU", ("Germany", 3%Z)); ("GHA", ("Ghana", 3%Z));
    ("GRC", ("Greece", 3%Z)); ("GTM", ("Guatemala", 2%Z)); ("GIN", ("Guinea", 3%Z));
    ("GNB", ("Guinea-Bissau", 3%Z)); ("GUY", ("Guyana", 3%Z)); ("HTI", ("Haiti", 2%Z));
    ("HND", ("Honduras", 2%Z)); ("HUN", ("Hungary", 4%Z)); ("ISL", ("Iceland", 3%Z));
    ("IND", ("India", 3%Z)); ("IDN", ("Indonesia", 4%Z)); ("IRN", ("Iran", 4%Z));
    ("IRQ", ("Iraq", 2%Z)); ("IRL", ("Ireland", 4%Z)); ("ISR", ("Israel", 3%Z));
    ("ITA", ("Italy", 3%Z)); ("JAM", ("Jamaica", 4%Z)); ("JPN", ("Japan", 5%Z));
    ("JOR", ("Jordan", 3%Z)); ("KAZ", ("Kazakhstan", 3%Z)); ("KEN", ("Kenya", 4%Z));
    ("KOR", ("South Korea", 4%Z)); ("KWT", ("Kuwait", 3%Z));
    ("KGZ", ("Kyrgyzstan", 3%Z)); ("LAO", ("Laos", 4%Z)); ("LVA", ("Latvia", 3%Z));
    ("LBN", ("Lebanon", 2%Z)); ("LSO", ("Lesotho", 3%Z)); ("LBR", ("Liberia", 3%Z));
    ("LBY", ("Libya", 2%Z)); ("LTU", ("Lithuania", 3%Z)); ("LUX", ("Luxembourg", 4%Z));
    ("MDG", ("Madagascar", 3%Z)); ("MWI", ("Malawi", 3%Z)); ("MYS", ("Malaysia", 4%Z));
    ("MLI", ("Mali", 3%Z)); ("MLT", ("Malta", 4%Z)); ("MRT", ("Mauritania", 3%Z));
    ("MUS", ("Mauritius", 4%Z)); ("MEX", ("Mexico", 3%Z)); ("MDA", ("Moldova", 4%Z));
    ("MNG", ("Mongolia", 3%Z)); ("MNE", ("Montenegro", 3%Z)); ("MAR", ("Morocco", 4%Z));
    ("MOZ", ("Mozambique", 3%Z)); ("MMR", ("Myanmar", 5%Z)); ("NAM", ("Namibia", 3%Z));
    ("NPL", ("Nepal", 4%Z)); ("NLD", ("Netherlands", 4%Z));
    ("NZL", ("New Zealand", 4%Z)); ("NIC", ("Nicaragua", 3%Z)); ("NER", ("Niger", 3%Z));
    ("NGA", ("Nigeria", 3%Z)); ("NOR", ("Norway", 3%Z)); ("OMN", ("Oman", 4%Z));
    ("PAK", ("Pakistan", 2%Z)); ("PAN", ("Panama", 3%Z));
    ("PNG", ("Papua New Guinea", 3%Z)); ("PRY", ("Paraguay", 2%Z));
    ("PER", ("Peru", 3%Z)); ("PHL", ("Philippines", 3%Z)); ("POL", ("Poland", 4%Z));
    ("PRT", ("Portugal", 3%Z)); ("QAT", ("Qatar", 4%Z)); ("ROU", ("Romania", 4%Z));
    ("RUS", ("Russia", 4%Z)); ("RWA", ("Rwanda", 5%Z)); ("SAU", ("Saudi Arabia", 3%Z));
    ("SEN", ("Senegal", 3%Z)); ("SRB", ("Serbia", 2%Z)); ("SLE", ("Sierra Leone", 3%Z));
    ("SGP", ("Singapore", 5%Z)); ("SVK", ("Slovakia", 3%Z)); ("SVN", ("Slovenia", 3%Z));
    ("SOM", ("Somalia", 1%Z)); ("ZAF", ("South Africa", 3%Z));
    ("SSD", ("South Sudan", 2%Z)); ("ESP", ("Spain", 3%Z)); ("LKA", ("Sri Lanka", 4%Z));
    ("SDN", ("Sudan", 2%Z)); ("SUR", ("Suriname", 2%Z)); ("SWE", ("Sweden", 3%Z));
    ("CHE", ("Switzerland", 2%Z)); ("SYR", ("Syria", 3%Z));
    ("TJK", ("Tajikistan", 4%Z)); ("TZA", ("Tanzania", 4%Z));
    ("THA", ("Thailand", 3%Z)); ("TLS", ("Timor-Leste", 4%Z)); ("TGO", ("Togo", 3%Z));
    ("TTO", ("Trinidad and Tobago", 3%Z)); ("TUN", ("Tunisia", 4%Z));
    ("TUR", ("Turkey", 3%Z)); ("TKM", ("Turkmenistan", 5%Z)); ("UGA", ("Uganda", 3%Z));
    ("UKR", ("Ukraine", 3%Z)); ("ARE", ("United Arab Emirates", 4%Z));
    ("GBR", ("United Kingdom", 4%Z)); ("USA", ("United States", 1%Z));
    ("URY", ("Uruguay", 3%Z)); ("UZB", ("Uzbekistan", 4%Z));
    ("VEN", ("Venezuela", 3%Z)); ("VNM", ("Vietnam", 5%Z)); ("YEM", ("Yemen", 1%Z));
    ("ZMB", ("Zambia", 3%Z)); ("ZWE", ("Zimbabwe", 3%Z))].
(** ** The outside of data_utils.py *)

(** What [requests.get] hands back: the two methods the code calls on it. *)
Record Response : Type := {
  raise_for_status : outcome unit;
  json : outcome pyval
}.

(** The network and the library functions the module relies on.
    - [requests_get url] is [requests.get(url, timeout=60)].
    - [float_of v] is the built-in [float(v)], [int_of s] the built-in
      [int(s)] on a string.
    - [str_of_exn e] is the text [{e}] prints for an exception.
    - [sort_values col df] is [df.sort_values(col, ascending=False)]; pandas
      sorts with an unstable quicksort, so the order among equal keys is
      the library's business: see [sorts_descending]. *)
Record World : Type := {
  requests_get : string -> outcome Response;
  float_of : pyval -> outcome float;
  int_of : string -> outcome Z;
  str_of_exn : exn -> string;
  sort_values : string -> DataFrame -> DataFrame
}.

(** An integer cell, as the [year] column holds. *)
Definition int_cell (df : DataFrame) (col : string) (r : list pyval) : Z :=
  match cell df col r with
  | PInt z => z
  | _ => 0%Z
  end.

(** The contract of [sort_values(col, ascending=False)] on an integer
    column: same columns, the same rows in some order, keys descending. *)
Definition sorts_descending (sort : string -> DataFrame -> DataFrame) : Prop :=
  forall col df,
    columns (sort col df) = columns df
    /\ Permutation (rows (sort col df)) (rows df)
    /\ StronglySorted (fun r1 r2 => (int_cell df col r2 <= int_cell df col r1)%Z)
                      (rows (sort col df)).

(** [range(first, stop, -1)] *)
Definition range_down (first stop : Z) : list Z :=
  map (fun i => (first - Z.of_nat i)%Z) (seq 0 (Z.to_nat (first - stop))).

(** The key pandas hashes when it looks for duplicates in the
    [country_code] column.  A list or a dict is unhashable: TypeError.  The
    column only ever holds values that passed [len(code) == 3], that is
    strings, lists and dicts (lemma [gini_combined_rows]); the remaining
    scalars are never met and are sent to TypeError only to make the
    function total. *)
Definition code_key (v : pyval) : outcome string :=
  match v with
  | PStr s => Val s
  | _ => Exc TypeError
  end.

Fixpoint keys_of (df : DataFrame) (col : string) (rs : list (list pyval))
  : outcome (list string) :=
  match rs with
  | [] => Val []
  | r :: rest =>
      let* k := code_key (cell df col r) in
      let* ks := keys_of df col rest in
      Val (k :: ks)
  end.

(** Rows whose key has not been seen further up. *)
Fixpoint keep_first (seen : list string) (keyed : list (string * list pyval))
  : list (list pyval) :=
  match keyed with
  | [] => []
  | (k, r) :: rest =>
      if existsb (String.eqb k) seen then keep_first seen rest
      else r :: keep_first (k :: seen) rest
  end.

(** [df.drop_duplicates(subset=[col], keep="first")] *)
Definition df_drop_duplicates (col : string) (df : DataFrame) : outcome DataFrame :=
  if existsb (String.eqb col) (columns df)
  then let* ks := keys_of df col (rows df) in
       Val {| columns := columns df;
              rows := keep_first [] (combine ks (rows df)) |}
  else Exc KeyError.

(** ** data_utils.py *)

Section DataUtils.

Variable W : World.

Definition world_bank_url (indicator year : string) : string :=
  "https://api.worldbank.org/v2/country/all/indicator/" ++ indicator
  ++ "?format=json&per_page=300&date=" ++ year.

Definition value_columns : list string :=
  ["country_code"; "country_name"; "value"].

(** One turn of the loop over [data[1]]. *)
Definition entry_step (acc : list record) (entry : pyval) : outcome (list record) :=
  let* country := py_get entry "country" (PDict []) in
  let* code := py_get country "id" (PStr "") in
  let* country' := py_get entry "country" (PDict []) in
  let* name := py_get country' "value" (PStr "") in
  let* val := py_get entry "value" PNone in
  match val with
  | PNone => Val acc
  | _ =>
      let* n := py_len code in
      if (n =? 3)%Z
      then let* v := float_of W val in
           Val (snoc acc [("country_code", code);
                          ("country_name", name);
                          ("value", PFloat v)])
      else Val acc
  end.

(** The body of the [try] block. *)
Definition fetch_try (indicator year : string) : outcome DataFrame :=
  let* resp := requests_get W (world_bank_url indicator year) in
  let* _ := raise_for_status resp in
  let* data := json resp in
  let* n := py_len data in
  if (n <? 2)%Z then Val (DataFrame_columns value_columns)
  else
    let* records := py_item data 1 in
    match records with
    | PNone => Val (DataFrame_columns value_columns)
    | _ =>
        let* entries := py_iter records in
        let* acc := for_each entry_step entries [] in
        Val (DataFrame_records acc)
    end.

(** [fetch_world_bank_indicator(indicator, year)]: the frame returned and
    the lines printed. *)
Definition fetch_world_bank_indicator (indicator year : string)
  : DataFrame * list string :=
  match fetch_try indicator year with
  | Val df => (df, [])
  | Exc e =>
      (DataFrame_columns value_columns,
       ["World Bank API error for " ++ indicator ++ ": " ++ str_of_exn W e])
  end.

(** The rows built by [for code, (name, x) in table.items(): rows.append(...)]. *)
Definition table_records {V : Type} (inj : V -> pyval) (label : string)
  (table : list (string * (string * V))) : list record :=
  fold_left
    (fun acc item =>
       let '(code, (name, x)) := item in
       snoc acc [("country_code", PStr code);
                 ("country_name", PStr name);
                 (label, inj x)])
    table [].

(** [fetch_population(year)] *)
Definition fetch_population (year : string) : DataFrame * list string :=
  let '(df, out) := fetch_world_bank_indicator "SP.POP.TOTL" year in
  if (100 <=? df_len df)%Z
  then (df_rename "value" "population" df, out)
  else (DataFrame_records (table_records PInt "population" _POPULATION_FALLBACK),
        snoc out "Using embedded population fallback data").

(** One turn of the loop over the years. *)
Definition gini_step (acc : list DataFrame * list string) (year : Z)
  : list DataFrame * list string :=
  let '(all_rows, out) := acc in
  let '(df, printed) := fetch_world_bank_indicator "SI.POV.GINI" (str_of_int year) in
  if (0 <? df_len df)%Z
  then (snoc all_rows (df_assign "year" (PInt year) df), (out ++ printed)%list)
  else (all_rows, (out ++ printed)%list).

(** [start, end = year_range.split(":")] with [int(end)] and [int(start)]. *)
Definition parse_year_range (year_range : string) : outcome (Z * Z) :=
  match str_split ":"%char year_range with
  | [start; end_] =>
      let* e := int_of W end_ in
      let* s := int_of W start in
      Val (s, e)
  | _ => Exc ValueError
  end.

(** The frames collected by the loop, most recent year first. *)
Definition gini_frames (s e : Z) : list DataFrame * list string :=
  fold_left gini_step (range_down e (s - 1)) ([], []).

(** Concatenation, sort by year descending, first row per country code. *)
Definition gini_latest (all_rows : list DataFrame) : outcome DataFrame :=
  let combined := df_concat all_rows in
  let combined := sort_values W "year" combined in
  df_drop_duplicates "country_code" combined.

Definition gini_fallback : DataFrame :=
  DataFrame_records (table_records PFloat "gini" _GINI_FALLBACK).

Definition gini_fallback_message : string := "Using embedded Gini fallback data".

(** [fetch_gini(year_range)] *)
Definition fetch_gini (year_range : string) : outcome DataFrame * list string :=
  match parse_year_range year_range with
  | Exc e => (Exc e, [])
  | Val (s, e) =>
      let '(all_rows, out) := gini_frames s e in
      match all_rows with
      | [] => (Val gini_fallback, snoc out gini_fallback_message)
      | _ :: _ =>
          match gini_latest all_rows with
          | Exc x => (Exc x, out)
          | Val combined =>
              if (50 <=? df_len combined)%Z
              then (df_select ["country_code"; "country_name"; "gini"]
                              (df_rename "value" "gini" combined), out)
              else (Val gini_fallback, snoc out gini_fallback_message)
          end
      end
  end.

End DataUtils.

(** The accessors below touch neither the network nor any library function
    of the [World]. *)

(** [get_gun_homicide_rates()] *)
Definition get_gun_homicide_rates : DataFrame :=
  DataFrame_records (table_records PFloat "gun_homicide_rate" _GUN_HOMICIDE_FALLBACK).

(** [get_drug_offense_rates()] *)
Definition get_drug_offense_rates : DataFrame :=
  DataFrame_records (table_records PFloat "drug_offense_rate" _DRUG_OFFENSE_FALLBACK).

(** [get_gun_ownership_rates()] *)
Definition get_gun_ownership_rates : DataFrame :=
  DataFrame_records (table_records PFloat "guns_per_100" _GUN_OWNERSHIP_FALLBACK).

(** [get_gun_control_strictness()] *)
Definition get_gun_control_strictness : DataFrame :=
  DataFrame_records
    (table_records PInt "gun_control_strictness" _GUN_CONTROL_STRICTNESS_FALLBACK).

(** [get_country_regions()] *)
Definition get_country_regions : DataFrame :=
  DataFrame_records
    (fold_left
       (fun acc item =>
          let '(code, region) := item in
          snoc acc [("country_code", PStr code); ("region", PStr region)])
       _COUNTRY_REGIONS []).

(** ** The outside of generate_html.py *)

(** The file system, the JSON codec and the random source.
    - [ROOT] is the repository root the script locates itself in.
    - [path_exists p] is [p.exists()], [read_text p] is [p.read_text()].
    - [json_loads] and [json_dumps] are those of the [json] module.
    - [uuid4_hex n] is the [hex] of the identifier returned by the call
      number [n] (from 0) of [uuid.uuid4()] in the process.
    - [st_size text] is the size in bytes of the file [write_text(text)]
      leaves, under the platform's encoding. *)
Record Host : Type := {
  ROOT : string;
  path_exists : string -> bool;
  read_text : string -> outcome string;
  json_loads : string -> outcome pyval;
  json_dumps : pyval -> string;
  uuid4_hex : nat -> string;
  st_size : string -> nat
}.

(** [for x in xs] for a body that also draws identifiers: the number of
    draws made so far is threaded through, and kept when the body raises. *)
Fixpoint for_each_drawing {A S : Type}
  (step : S -> A -> nat -> outcome S * nat) (xs : list A) (acc : S) (n : nat)
  : outcome S * nat :=
  match xs with
  | [] => (Val acc, n)
  | x :: rest =>
      match step acc x n with
      | (Val acc', n') => for_each_drawing step rest acc' n'
      | (Exc e, n') => (Exc e, n')
      end
  end.

(** ** generate_html.py *)

Definition NOTEBOOKS : list string :=
  [ "01_data_collection.ipynb";
    "02_gun_homicide_map.ipynb";
    "03_gini_correlation.ipynb";
    "04_drug_correlation.ipynb";
    "05_population_correlation.ipynb";
    "06_gun_ownership_correlation.ipynb";
    "07_gun_control_correlation.ipynb";
    "08_us_data_collection.ipynb";
    "09_us_gun_homicide_map.ipynb";
    "10_us_gini_correlation.ipynb";
    "11_us_drug_correlation.ipynb";
    "12_us_population_correlation.ipynb";
    "13_us_poverty_correlation.ipynb";
    "14_us_income_correlation.ipynb";
    "15_us_gun_ownership_correlation.ipynb";
    "16_us_gun_control_correlation.ipynb";
    "17_us_mass_shooting_data.ipynb";
    "18_us_mass_shooting_map.ipynb";
    "19_us_mass_shooting_gini.ipynb";
    "20_us_mass_shooting_drug.ipynb";
    "21_us_mass_shooting_population.ipynb";
    "22_us_mass_shooting_poverty.ipynb";
    "23_us_mass_shooting_income.ipynb";
    "24_us_mass_shooting_gun_ownership.ipynb";
    "25_us_mass_shooting_gun_control.ipynb";
    "26_us_mental_illness_homicide.ipynb";
    "27_us_mass_shooting_mental_illness.ipynb" ].

Definition plotly_mime : string := "application/vnd.plotly.v1+json".

(** One line of a markdown cell. *)
Definition markdown_line (html_lines : list string) (line : string) : list string :=
  if startswith line "### "
  then snoc html_lines ("<h4>" ++ str_drop 4 line ++ "</h4>")
  else if startswith line "## "
  then snoc html_lines ("<h3>" ++ str_drop 3 line ++ "</h3>")
  else if startswith line "# "
  then snoc html_lines ("<h3>" ++ str_drop 2 line ++ "</h3>")
  else if startswith line "**" && endswith line "**"
  then snoc html_lines ("<p><strong>" ++ str_slice_inner 2 2 line ++ "</strong></p>")
  else if startswith line "- "
  then snoc html_lines ("<li>" ++ str_drop 2 line ++ "</li>")
  else if str_truthy (str_strip line)
  then snoc html_lines ("<p>" ++ line ++ "</p>")
  else html_lines.

(** The fragment of a markdown cell. *)
Definition markdown_cell (c : pyval) : outcome string :=
  let* src := py_get c "source" (PList []) in
  let* source := py_join "" src in
  Val (str_join nl (fold_left markdown_line (str_split "010"%char source) [])).

(** [layout["margin"].setdefault(side, width)] *)
Definition margin_setdefault (layout : pyval) (side : string) (width : Z)
  : outcome pyval :=
  let* margin := py_getitem layout "margin" in
  let* margin' := py_setdefault margin side (PInt width) in
  match layout with
  | PDict kvs => Val (PDict (assoc_update "margin" margin' kvs))
  | _ => Exc TypeError
  end.

(** The layout of a chart once the defaults are filled in. *)
Definition plotly_layout (plotly_data : pyval) : outcome pyval :=
  let* layout := py_get plotly_data "layout" (PDict []) in
  let* layout := py_setdefault layout "autosize" (PBool true) in
  let* layout := py_setdefault layout "margin" (PDict []) in
  let* layout := margin_setdefault layout "l" 10 in
  let* layout := margin_setdefault layout "r" 10 in
  let* layout := margin_setdefault layout "t" 40 in
  margin_setdefault layout "b" 10.

Definition plotly_fragment (div_id fig_data fig_layout : string) : string :=
  "<div id=" ++ dq ++ div_id ++ dq ++ " class=" ++ dq ++ "plotly-graph-div" ++ dq ++ " "
  ++ "style=" ++ dq ++ "width:100%;" ++ dq ++ "></div>" ++ nl
  ++ "<script type=" ++ dq ++ "text/javascript" ++ dq ++ ">" ++ nl
  ++ "Plotly.newPlot(" ++ dq ++ div_id ++ dq ++ ", " ++ fig_data ++ ", " ++ fig_layout ++ ", "
  ++ "{" ++ dq ++ "responsive" ++ dq ++ ": true, " ++ dq ++ "displayModeBar" ++ dq
  ++ ": false});" ++ nl
  ++ "</script>".

Definition html_fragment_of (html_content : string) : string :=
  if str_contains "<table" html_content
  then "<div class=" ++ dq ++ "table-wrapper" ++ dq ++ ">" ++ html_content ++ "</div>"
  else "<div class=" ++ dq ++ "output-html" ++ dq ++ ">" ++ html_content ++ "</div>".

Definition image_fragment (img_data : string) : string :=
  "<div class=" ++ dq ++ "output-image" ++ dq ++ ">"
  ++ "<img src=" ++ dq ++ "data:image/png;base64," ++ str_strip img_data ++ dq ++ ">"
  ++ "</div>".

Definition stream_fragment (text : string) : string :=
  "<pre class=" ++ dq ++ "output-text" ++ dq ++ ">" ++ text ++ "</pre>".

(** [data["image/png"]] as the string whose [strip] is taken: a list is
    joined first, and anything but a string has no [strip]. *)
Definition image_text (img_data : pyval) : outcome string :=
  match img_data with
  | PList l => join_items "" l
  | PStr s => Val s
  | _ => Exc AttributeError
  end.

Section GenerateHtml.

Variable H : Host.

(** The chart branch: the identifier is drawn first, then the data and the
    layout are serialised. *)
Definition plotly_output (data : pyval) (parts : list string) (n : nat)
  : outcome (list string) * nat :=
  match py_getitem data plotly_mime with
  | Exc e => (Exc e, n)
  | Val plotly_data =>
      let div_id := "plotly-" ++ String.substring 0 12 (uuid4_hex H n) in
      (let* traces := py_get plotly_data "data" (PList []) in
       let fig_data := json_dumps H traces in
       let* layout := plotly_layout plotly_data in
       let fig_layout := json_dumps H layout in
       Val (snoc parts (plotly_fragment div_id fig_data fig_layout)),
       S n)
  end.

(** The branches of a [display_data] or [execute_result] output that draw
    nothing: an HTML table or block, or a PNG image. *)
Definition static_output (data : pyval) (parts : list string) : outcome (list string) :=
  let* is_html := py_in "text/html" data in
  if is_html
  then let* h := py_getitem data "text/html" in
       let* html_content := py_join "" h in
       Val (snoc parts (html_fragment_of html_content))
  else
    let* is_png := py_in "image/png" data in
    if is_png
    then let* img := py_getitem data "image/png" in
         let* img_data := image_text img in
         Val (snoc parts (image_fragment img_data))
    else Val parts.

(** One turn of the loop over the outputs of a code cell. *)
Definition output_step (parts : list string) (output : pyval) (n : nat)
  : outcome (list string) * nat :=
  match py_get output "output_type" (PStr "") with
  | Exc e => (Exc e, n)
  | Val otype =>
      if py_eq_str otype "display_data" || py_eq_str otype "execute_result"
      then
        match py_get output "data" (PDict []) with
        | Exc e => (Exc e, n)
        | Val data =>
            match py_in plotly_mime data with
            | Exc e => (Exc e, n)
            | Val true => plotly_output data parts n
            | Val false => (static_output data parts, n)
            end
        end
      else if py_eq_str otype "stream"
      then (let* t := py_get output "text" (PList []) in
            let* text := py_join "" t in
            if str_truthy (str_strip text)
            then Val (snoc parts (stream_fragment text))
            else Val parts,
            n)
      else (Val parts, n)
  end.

(** One turn of the loop over the cells. *)
Definition cell_step (parts : list string) (c : pyval) (n : nat)
  : outcome (list string) * nat :=
  match py_getitem c "cell_type" with
  | Exc e => (Exc e, n)
  | Val cell_type =>
      if py_eq_str cell_type "markdown"
      then (let* html := markdown_cell c in Val (snoc parts html), n)
      else if negb (py_eq_str cell_type "code")
      then (Val parts, n)
      else
        match (let* outs := py_get c "outputs" (PList []) in py_iter outs) with
        | Exc e => (Exc e, n)
        | Val outputs => for_each_drawing output_step outputs parts n
        end
  end.

(** The list [parts] at the end of [extract_outputs], for a decoded
    notebook. *)
Definition extract_parts (nb : pyval) (n : nat) : outcome (list string) * nat :=
  match (let* cells := py_get nb "cells" (PList []) in py_iter cells) with
  | Exc e => (Exc e, n)
  | Val cells => for_each_drawing cell_step cells [] n
  end.

(** [extract_outputs(nb_path)], started after [n] identifiers have been
    drawn: the fragment (or the exception that escapes) and the number of
    identifiers drawn by the end. *)
Definition extract_outputs (nb_path : string) (n : nat) : outcome string * nat :=
  match (let* text := read_text H nb_path in json_loads H text) with
  | Exc e => (Exc e, n)
  | Val nb =>
      match extract_parts nb n with
      | (Val parts, n') => (Val (str_join nl parts), n')
      | (Exc e, n') => (Exc e, n')
      end
  end.

(** What a run of [main] has done so far.  The console and the [docs]
    directory are taken to accept what is sent to them: [print],
    [write_text] and [stat] are modelled where they succeed, so that a run
    of [main] can only raise while it extracts the notebooks. *)
Record Run : Type := {
  draws : nat;                          (* identifiers drawn *)
  printed : list string;                (* texts passed to print, one per call *)
  written : list (string * string)      (* files written: path and text *)
}.

Definition start : Run := {| draws := 0; printed := []; written := [] |}.

Definition print (line : string) (r : Run) : Run :=
  {| draws := draws r; printed := snoc (printed r) line; written := written r |}.

Definition drawn (n : nat) (r : Run) : Run :=
  {| draws := n; printed := printed r; written := written r |}.

Definition write_text (path text : string) (r : Run) : Run :=
  {| draws := draws r; printed := printed r; written := snoc (written r) (path, text) |}.

Definition NOTEBOOKS_DIR : string := ROOT H ++ "/notebooks".
Definition DOCS_DIR : string := ROOT H ++ "/docs".

(** The section title of a notebook: no extension, blanks for underscores,
    title case, leading number stripped. *)
Definition section_title (nb_name : string) : string :=
  str_lstrip_chars "0123456789 "
    (str_title (str_replace "_" " " (str_replace ".ipynb" "" nb_name))).

(** The first loop of [main]: the sections collected from the notebooks. *)
Fixpoint collect_sections (names : list string) (sections : list (string * string))
  (r : Run) : outcome (list (string * string)) * Run :=
  match names with
  | [] => (Val sections, r)
  | nb_name :: rest =>
      let nb_path := NOTEBOOKS_DIR ++ "/" ++ nb_name in
      if negb (path_exists H nb_path)
      then collect_sections rest sections
             (print ("Skipping " ++ nb_name ++ " (not found)") r)
      else
        let r := print ("Extracting outputs from " ++ nb_name ++ " ...") r in
        match extract_outputs nb_path (draws r) with
        | (Exc e, n) => (Exc e, drawn n r)
        | (Val html_fragment, n) =>
            if str_truthy html_fragment
            then collect_sections rest
                   (snoc sections (section_title nb_name, html_fragment))
                   (drawn n r)
            else collect_sections rest sections (drawn n r)
        end
  end.

Definition nav_item (i : nat) (title : string) : string :=
  "<a href=" ++ dq ++ "#section-" ++ str_of_nat i ++ dq ++ ">" ++ title ++ "</a>".

Definition content_section (i : nat) (title fragment : string) : string :=
  "<section id=" ++ dq ++ "section-" ++ str_of_nat i ++ dq ++ ">" ++ nl
  ++ "<h2 class=" ++ dq ++ "section-title" ++ dq ++ ">" ++ title ++ "</h2>" ++ nl
  ++ "<div class=" ++ dq ++ "notebook-content" ++ dq ++ ">" ++ fragment ++ "</div>" ++ nl
  ++ "</section>" ++ nl ++ "<hr>" ++ nl.

(** The second loop of [main], over [enumerate(sections)]. *)
Fixpoint render_sections (i : nat) (sections : list (string * string))
  (nav_items content_sections : list string) : list string * list string :=
  match sections with
  | [] => (nav_items, content_sections)
  | (title, fragment) :: rest =>
      render_sections (S i) rest
        (snoc nav_items (nav_item i title))
        (snoc content_sections (content_section i title fragment))
  end.

End GenerateHtml.
(** The page up to the navigation links. *)
Definition page_head : string :=
  "<!DOCTYPE html>
<html lang=" ++ dq ++ "en" ++ dq ++ ">
<head>
<meta charset=" ++ dq ++ "utf-8" ++ dq ++ ">
<meta name=" ++ dq ++ "viewport" ++ dq ++ " content=" ++ dq ++ "width=device-width, initial-scale=1" ++ dq ++ ">
<link rel=" ++ dq ++ "icon" ++ dq ++ " href=" ++ dq ++ "data:image/svg+xml,<svg xmlns='http://www.w3.org/2000/svg' viewBox='0 0 100 100'><text y='.9em' font-size='90'>ðŸ”«</text></svg>" ++ dq ++ ">
<title>Gun Violence Analysis â€” Full Report</title>
<script src=" ++ dq ++ "https://cdn.plot.ly/plotly-2.35.2.min.js" ++ dq ++ "></script>
<style>
    * {
        box-sizing: border-box;
    }
    body {
        font-family: -apple-system, BlinkMacSystemFont, " ++ dq ++ "Segoe UI" ++ dq ++ ", Helvetica, Arial, sans-serif;
        max-width: 1200px;
        margin: 0 auto;
        padding: 20px;
        background: #fafafa;
        color: #333;
    }
    h1 {
        text-align: center;
        color: #2c3e50;
        border-bottom: 3px solid #e74c3c;
        padding-bottom: 15px;
        font-size: clamp(1.4rem, 4vw, 2rem);
    }
    nav {
        display: flex;
        flex-wrap: wrap;
        justify-content: center;
        gap: 8px 16px;
        margin: 20px 0 30px;
        padding: 15px;
        background: #fff;
        border-radius: 8px;
        box-shadow: 0 1px 3px rgba(0,0,0,0.1);
    }
    nav a {
        color: #e74c3c;
        text-decoration: none;
        font-weight: 600;
        font-size: 14px;
        white-space: nowrap;
    }
    nav a:hover {
        text-decoration: underline;
    }
    .section-title {
        color: #2c3e50;
        border-left: 4px solid #e74c3c;
        padding-left: 12px;
        font-size: clamp(1.1rem, 3vw, 1.5rem);
    }
    section {
        background: #fff;
        padding: 25px;
        margin: 20px 0;
        border-radius: 8px;
        box-shadow: 0 1px 3px rgba(0,0,0,0.1);
        overflow: hidden;
    }
    .notebook-content img {
        max-width: 100%;
        height: auto;
        display: block;
        margin: 0 auto;
    }
    .output-text {
        background: #f5f5f5;
        padding: 10px;
        border-radius: 4px;
        overflow-x: auto;
        font-size: 13px;
        white-space: pre-wrap;
        word-break: break-word;
    }
    .table-wrapper {
        overflow-x: auto;
        -webkit-overflow-scrolling: touch;
        margin: 10px 0;
    }
    .notebook-content table {
        border-collapse: collapse;
        font-size: 13px;
        min-width: 400px;
    }
    .notebook-content table th,
    .notebook-content table td {
        border: 1px solid #ddd;
        padding: 6px 10px;
        text-align: right;
        white-space: nowrap;
    }
    .notebook-content table th {
        background: #f0f0f0;
        position: sticky;
        top: 0;
        z-index: 1;
    }
    .output-image {
        text-align: center;
        margin: 15px 0;
        overflow-x: auto;
    }
    .output-html {
        margin: 15px 0;
        overflow-x: auto;
    }
    hr {
        border: none;
        border-top: 1px solid #eee;
        margin: 30px 0;
    }
    .plotly-graph-div {
        margin: 15px 0;
        min-height: 350px;
    }
    footer {
        text-align: center;
        color: #999;
        font-size: 13px;
        margin-top: 40px;
        padding: 20px;
    }
    @media (max-width: 768px) {
        body {
            padding: 10px;
        }
        section {
            padding: 12px;
            margin: 10px 0;
            border-radius: 6px;
        }
        nav {
            padding: 10px;
            gap: 6px 12px;
        }
        nav a {
            font-size: 13px;
        }
        .plotly-graph-div {
            min-height: 300px;
        }
        .notebook-content table {
            font-size: 11px;
        }
        .notebook-content table th,
        .notebook-content table td {
            padding: 4px 6px;
        }
        .output-text {
            font-size: 11px;
            padding: 8px;
        }
    }
</style>
</head>
<body>
<h1>Gun Violence Analysis â€” Country-Level &amp; US County-Level Report</h1>
<nav>
    ".

(** Between the navigation links and the sections. *)
Definition page_middle : string :=
  "
</nav>

".

(** From the end of the sections to the end of the page. *)
Definition page_tail : string :=
  "

<footer>
    Generated from Jupyter notebooks. Data sources: World Bank, UNODC, Census ACS, CDC WONDER, FBI UCR, RAND, Giffords Law Center, Gun Violence Archive, SAMHSA NSDUH.
</footer>
</body>
</html>".
(** The page [main] writes, around the navigation links and the sections. *)
Definition report_page (nav_items content_sections : list string) : string :=
  page_head ++ str_join "" nav_items ++ page_middle
  ++ str_join "" content_sections ++ page_tail.

(** The digits of [n] grouped by three: the format [{n:,}]. *)
Fixpoint group_digits (digits : string) : string :=
  match digits with
  | EmptyString => EmptyString
  | String d rest =>
      String d
        (if (0 <? String.length rest)%nat && (String.length rest mod 3 =? 0)%nat
         then "," ++ group_digits rest
         else group_digits rest)
  end.

Definition thousands (n : nat) : string := group_digits (str_of_nat n).

Section Report.

Variable H : Host.

(** [main()], continuing the run [r]. *)
Definition main (r : Run) : outcome unit * Run :=
  match collect_sections H NOTEBOOKS [] r with
  | (Exc e, r') => (Exc e, r')
  | (Val sections, r') =>
      let '(nav_items, content_sections) := render_sections 0 sections [] [] in
      let html := report_page nav_items content_sections in
      let out_path := DOCS_DIR H ++ "/report.html" in
      let r' := write_text out_path html r' in
      let r' := print (nl ++ "Wrote combined report to " ++ out_path) r' in
      let r' := print ("  File size: " ++ thousands (st_size H html) ++ " bytes") r' in
      (Val tt, r')
  end.

End Report.

(** * Specification vocabulary *)

(** A non-negative float. *)
Definition nonneg (f : float) : bool := PrimFloat.leb 0%float f.

(** The row a fallback entry stands for. *)
Definition table_row {V : Type} (inj : V -> pyval) (item : string * (string * V))
  : list pyval :=
  [PStr (fst item); PStr (fst (snd item)); inj (snd (snd item))].

(** The frame of a fallback table: one row per entry, in the table's order. *)
Definition table_frame {V : Type} (inj : V -> pyval) (label : string)
  (table : list (string * (string * V))) : DataFrame :=
  {| columns := ["country_code"; "country_name"; label];
     rows := map (table_row inj) table |}.

(** The cells under [country_code], row by row. *)
Definition codes (df : DataFrame) : list pyval :=
  map (cell df "country_code") (rows df).

(** Pairwise distinct labels, decided. *)
Fixpoint distinct (labels : list string) : bool :=
  match labels with
  | [] => true
  | x :: rest => negb (existsb (String.eqb x) rest) && distinct rest
  end.

(** The record appended for an entry: code, name and converted value. *)
Definition value_record (t : pyval * pyval * pyval) : record :=
  [("country_code", fst (fst t)); ("country_name", snd (fst t)); ("value", snd t)].

(** The row of that record. *)
Definition value_row (t : pyval * pyval * pyval) : list pyval :=
  [fst (fst t); snd (fst t); snd t].

(** What an entry of the records element holds: the country's [id], the
    country's [value] (its name) and the entry's [value]. *)
Definition entry_fields (entry : pyval) : outcome (pyval * pyval * pyval) :=
  let* country := py_get entry "country" (PDict []) in
  let* code := py_get country "id" (PStr "") in
  let* name := py_get country "value" (PStr "") in
  let* val := py_get entry "value" PNone in
  Val (code, name, val).

Definition is_none (v : pyval) : bool :=
  match v with
  | PNone => true
  | _ => false
  end.

(** The entries the claim speaks of: value not null, code of length 3. *)
Definition wanted (f : pyval * pyval * pyval) : bool :=
  negb (is_none (snd f))
  && match py_len (fst (fst f)) with
     | Val n => (n =? 3)%Z
     | Exc _ => false
     end.

(** What the loop of the fetcher lets through: a code of length 3 (a
    string, a list or a dict) with a float value. *)
Definition kept_triple (t : pyval * pyval * pyval) : Prop :=
  py_len (fst (fst t)) = Val 3%Z /\ exists v, snd t = PFloat v.

(** The text printed when the [try] block fails. *)
Definition api_error_line (W : World) (indicator : string) (e : exn) : string :=
  "World Bank API error for " ++ indicator ++ ": " ++ str_of_exn W e.

(** The country code and the year of a row of a frame. *)
Definition code_of (df : DataFrame) (r : list pyval) : pyval := cell df "country_code" r.
Definition year_of (df : DataFrame) (r : list pyval) : Z := int_cell df "year" r.

(** Every country code of the frame is a string, as the API delivers them. *)
Definition string_codes (df : DataFrame) : Prop :=
  Forall (fun r => exists s, code_of df r = PStr s) (rows df).

Definition str_key (v : pyval) : string :=
  match v with
  | PStr s => s
  | _ => EmptyString
  end.

(** The columns of a frame collected by the Gini loop. *)
Definition gini_columns : list string :=
  ["country_code"; "country_name"; "value"; "year"].

(** A row of the combined Gini data: code, name, value, year. *)
Definition gini_row (t : pyval * pyval * pyval) (year : Z) : list pyval :=
  [fst (fst t); snd (fst t); snd t; PInt year].

(** Two loop bodies run side by side from [n] and [m] identifiers drawn:
    either neither draws and both end the same way, or both draw. *)
Definition paired {A S : Type} (step step' : S -> A -> nat -> outcome S * nat) : Prop :=
  forall acc x n m,
    (snd (step acc x n) = n /\ snd (step' acc x m) = m
     /\ fst (step acc x n) = fst (step' acc x m))
    \/ (n < snd (step acc x n) /\ m < snd (step' acc x m))%nat.

(** A loop body that appends at least one item per identifier it draws. *)
Definition grows {A B : Type} (step : list B -> A -> nat -> outcome (list B) * nat) : Prop :=
  forall acc x n acc' n',
    step acc x n = (Val acc', n') ->
    (n <= n' /\ List.length acc + (n' - n) <= List.length acc')%nat.

(** A code cell without outputs: no [outputs] key, or an empty list. *)
Definition silent_cell (c : pyval) : bool :=
  match c with
  | PDict kvs =>
      match assoc "cell_type" kvs with
      | Some (PStr t) =>
          String.eqb t "code"
          && match assoc "outputs" kvs with
             | None => true
             | Some (PList []) => true
             | Some _ => false
             end
      | _ => false
      end
  | _ => false
  end.

(** The host in which the file at [path] is not there. *)
Definition hide (path : string) (H : Host) : Host :=
  {| ROOT := ROOT H;
     path_exists := fun p => if String.eqb p path then false else path_exists H p;
     read_text := read_text H;
     json_loads := json_loads H;
     json_dumps := json_dumps H;
     uuid4_hex := uuid4_hex H;
     st_size := st_size H |}.

(** Two runs of the first loop of [main] that agree on what matters for the
    report: the sections (or the exception), the identifiers drawn and the
    files written. *)
Definition same_report {A : Type} (res res' : outcome A * Run) : Prop :=
  fst res = fst res'
  /\ draws (snd res) = draws (snd res')
  /\ written (snd res) = written (snd res').

(** The line printed for a notebook that is not there. *)
Definition skipping_line (nb_name : string) : string :=
  "Skipping " ++ nb_name ++ " (not found)".

(** The navigation block without any link. *)
Definition empty_nav : string := "<nav>" ++ nl ++ "    " ++ nl ++ "</nav>".

(** Two loop bodies that, started from [n] and [m] draws related by [ok],
    end the same way after the same number of draws. *)
Definition synchronised {A S : Type} (ok : nat -> nat -> Prop)
  (step step' : S -> A -> nat -> outcome S * nat) : Prop :=
  forall acc x n m,
    ok n m ->
    fst (step acc x n) = fst (step' acc x m)
    /\ exists k, snd (step acc x n) = (n + k)%nat /\ snd (step' acc x m) = (m + k)%nat.

(** The random sources of two hosts deliver the same identifiers from the
    draws number [n] and [m] on. *)
Definition same_identifiers (H H' : Host) (n m : nat) : Prop :=
  forall i, uuid4_hex H (n + i) = uuid4_hex H' (m + i).

(** * Sample worlds

    Concrete instances of the network and of the library functions, on
    which the theorems can be evaluated. *)

(** [float] on a float, a boolean, or an integer below 2^53 (which a
    binary64 holds exactly). *)
Definition sample_float (v : pyval) : outcome float :=
  match v with
  | PFloat f => Val f
  | PBool b => Val (if b then 1%float else 0%float)
  | PInt z =>
      if ((0 <=? z) && (z <? 2 ^ 53))%Z
      then Val (PrimFloat.of_uint63 (Uint63.of_Z z))
      else Exc OverflowError
  | PStr _ => Exc ValueError
  | _ => Exc TypeError
  end.

(** [int] on a plain decimal numeral. *)
Definition sample_int (s : string) : outcome Z :=
  match NilZero.int_of_string s with
  | Some d => Val (Z.of_int d)
  | None => Exc ValueError
  end.

(** Insertion sort, descending on an integer key. *)
Fixpoint insert_desc {A : Type} (key : A -> Z) (x : A) (sorted : list A) : list A :=
  match sorted with
  | [] => [x]
  | y :: rest =>
      if (key y <=? key x)%Z then x :: sorted
      else y :: insert_desc key x rest
  end.

Definition sample_sort (col : string) (df : DataFrame) : DataFrame :=
  {| columns := columns df;
     rows := fold_right (insert_desc (int_cell df col)) [] (rows df) |}.

(** A server that answers every request with status 200 and the body
    chosen by [body]. *)
Definition answering (body : string -> outcome pyval) (url : string) : outcome Response :=
  Val {| raise_for_status := Val tt; json := body url |}.

Definition sample_world (get : string -> outcome Response) : World :=
  {| requests_get := get;
     float_of := sample_float;
     int_of := sample_int;
     str_of_exn := fun _ => "error";
     sort_values := sample_sort |}.

(** No network at all. *)
Definition offline : World := sample_world (fun _ => Exc RequestException).

(** The API answers [[{}, []]]: a well-formed envelope without any record. *)
Definition no_records : World :=
  sample_world (answering (fun _ => Val (PList [PDict []; PList []]))).

(** An entry of the records element of an answer. *)
Definition api_entry (code name : string) (value : pyval) : pyval :=
  PDict [("country", PDict [("id", PStr code); ("value", PStr name)]);
         ("value", value)].

(** The API serves four entries for every request: one complete, one with
    a two-letter code, one without a value, one complete. *)
Definition four_entries : list pyval :=
  [ api_entry "USA" "United States" (PFloat 39.8);
    api_entry "XK" "Kosovo" (PFloat 29.0);
    api_entry "FRA" "France" PNone;
    api_entry "DEU" "Germany" (PInt 31) ].

Definition serving_four : World :=
  sample_world (answering (fun _ => Val (PList [PDict []; PList four_entries]))).

(** Gini answers for three years: 2022 has USA and FRA, 2021 has USA and
    DEU (FRA without a value), 2020 has DEU and USA; other years and other
    indicators have no data. *)
Definition gini_by_year (url : string) : outcome pyval :=
  if String.eqb url (world_bank_url "SI.POV.GINI" "2022")
  then Val (PList [PDict []; PList [ api_entry "USA" "United States" (PFloat 39.8);
                                     api_entry "FRA" "France" (PFloat 31.6) ]])
  else if String.eqb url (world_bank_url "SI.POV.GINI" "2021")
  then Val (PList [PDict []; PList [ api_entry "USA" "United States" (PFloat 41.0);
                                     api_entry "DEU" "Germany" (PFloat 31.7);
                                     api_entry "FRA" "France" PNone ]])
  else if String.eqb url (world_bank_url "SI.POV.GINI" "2020")
  then Val (PList [PDict []; PList [ api_entry "DEU" "Germany" (PFloat 30.0);
                                     api_entry "USA" "United States" (PFloat 41.5) ]])
  else Val (PList [PDict []; PNone]).

Definition three_years : World := sample_world (answering gini_by_year).

(** Every request is answered with the whole Gini table as live data. *)
Definition full_coverage : World :=
  sample_world
    (answering (fun _ =>
       Val (PList [PDict [];
                   PList (map (fun item => api_entry (fst item) (fst (snd item))
                                             (PFloat (snd (snd item))))
                              _GINI_FALLBACK)]))).

(** * Sample hosts

    Concrete file systems with a few notebooks. *)

(** [json.dumps] on values without floats and without characters to
    escape, with the default separators. *)
Fixpoint sample_dumps (v : pyval) : string :=
  match v with
  | PNone => "null"
  | PBool b => if b then "true" else "false"
  | PInt z => str_of_int z
  | PFloat _ => "NaN"
  | PStr s => dq ++ s ++ dq
  | PList l =>
      "[" ++ (fix items (l : list pyval) : string :=
                match l with
                | [] => EmptyString
                | x :: rest =>
                    match rest with
                    | [] => sample_dumps x
                    | _ :: _ => sample_dumps x ++ ", " ++ items rest
                    end
                end) l ++ "]"
  | PDict d =>
      "{" ++ (fix items (d : list (string * pyval)) : string :=
                match d with
                | [] => EmptyString
                | (k, x) :: rest =>
                    match rest with
                    | [] => dq ++ k ++ dq ++ ": " ++ sample_dumps x
                    | _ :: _ => dq ++ k ++ dq ++ ": " ++ sample_dumps x ++ ", " ++ items rest
                    end
                end) d ++ "}"
  end.

(** A host whose file system holds the given notebooks, each a path with
    its text and the value the text decodes to; [json.loads] knows these
    texts only.  Two identifiers can be drawn, sizes count characters. *)
Definition sample_host (files : list (string * (string * pyval))) : Host :=
  {| ROOT := "/repo";
     path_exists := fun p => match assoc p files with Some _ => true | None => false end;
     read_text := fun p => match assoc p files with
                           | Some f => Val (fst f)
                           | None => Exc OSError
                           end;
     json_loads := fun t => match assoc t (map snd files) with
                            | Some v => Val v
                            | None => Exc JSONDecodeError
                            end;
     json_dumps := sample_dumps;
     uuid4_hex := fun n => match n with
                           | O => "3f2b8c1e9a7d4e56b0c2d4f6a8e0c2b4"
                           | S _ => "a41d77f0c3b94d1e8f6a2b5c7d9e1f30"
                           end;
     st_size := String.length |}.

(** A notebook with one code cell whose only output is a chart. *)
Definition chart_text : string :=
  "{" ++ dq ++ "cells" ++ dq ++ ": [{" ++ dq ++ "cell_type" ++ dq ++ ": " ++ dq ++ "code"
  ++ dq ++ ", " ++ dq ++ "outputs" ++ dq ++ ": [{" ++ dq ++ "output_type" ++ dq ++ ": "
  ++ dq ++ "display_data" ++ dq ++ ", " ++ dq ++ "data" ++ dq ++ ": {" ++ dq
  ++ "application/vnd.plotly.v1+json" ++ dq ++ ": {" ++ dq ++ "data" ++ dq ++ ": [], "
  ++ dq ++ "layout" ++ dq ++ ": {}}}}]}]}".

Definition chart_notebook : pyval :=
  PDict [("cells",
          PList [PDict [("cell_type", PStr "code");
                        ("outputs",
                         PList [PDict [("output_type", PStr "display_data");
                                       ("data",
                                        PDict [(plotly_mime,
                                                PDict [("data", PList []);
                                                       ("layout", PDict [])])])]])]])].

(** A notebook with a heading and a stream output. *)
Definition plain_text : string :=
  "{" ++ dq ++ "cells" ++ dq ++ ": [{" ++ dq ++ "cell_type" ++ dq ++ ": " ++ dq
  ++ "markdown" ++ dq ++ ", " ++ dq ++ "source" ++ dq ++ ": [" ++ dq ++ "# Data" ++ dq
  ++ "]}, {" ++ dq ++ "cell_type" ++ dq ++ ": " ++ dq ++ "code" ++ dq ++ ", " ++ dq
  ++ "outputs" ++ dq ++ ": [{" ++ dq ++ "output_type" ++ dq ++ ": " ++ dq ++ "stream"
  ++ dq ++ ", " ++ dq ++ "text" ++ dq ++ ": [" ++ dq ++ "169 countries" ++ dq ++ "]}]}]}".

Definition plain_notebook : pyval :=
  PDict [("cells",
          PList [PDict [("cell_type", PStr "markdown"); ("source", PList [PStr "# Data"])];
                 PDict [("cell_type", PStr "code");
                        ("outputs",
                         PList [PDict [("output_type", PStr "stream");
                                       ("text", PList [PStr "169 countries"])]])]])].

(** A notebook whose only cell is a code cell that was never run. *)
Definition silent_text : string :=
  "{" ++ dq ++ "cells" ++ dq ++ ": [{" ++ dq ++ "cell_type" ++ dq ++ ": " ++ dq ++ "code"
  ++ dq ++ ", " ++ dq ++ "outputs" ++ dq ++ ": []}]}".

Definition silent_notebook : pyval :=
  PDict [("cells", PList [PDict [("cell_type", PStr "code"); ("outputs", PList [])]])].

Definition chart_path : string := "/repo/notebooks/02_gun_homicide_map.ipynb".
Definition plain_path : string := "/repo/notebooks/01_data_collection.ipynb".
Definition silent_path : string := "/repo/notebooks/08_us_data_collection.ipynb".

(** Only the chart notebook is there. *)
Definition chart_host : Host := sample_host [(chart_path, (chart_text, chart_notebook))].

(** No notebook at all. *)
Definition bare_host : Host := sample_host [].

(** The plain notebook and the silent one. *)
Definition two_notebooks : Host :=
  sample_host [(plain_path, (plain_text, plain_notebook));
               (silent_path, (silent_text, silent_notebook))].

(** The same host with another random source. *)
Definition reseeded (H : Host) : Host :=
  {| ROOT := ROOT H;
     path_exists := path_exists H;
     read_text := read_text H;
     json_loads := json_loads H;
     json_dumps := json_dumps H;
     uuid4_hex := fun _ => "5d0c7e2a9b184f63a1c8e4b6d2f0a7c9";
     st_size := st_size H |}.

(** * Vocabulary and samples of the further properties *)

(** How often a character occurs in a string. *)
Fixpoint count_char (c : ascii) (s : string) : nat :=
  match s with
  | EmptyString => 0
  | String d rest => (if Ascii.eqb d c then 1 else 0) + count_char c rest
  end.

(** An entry the loop of the fetcher cannot digest: it is not a dict, its
    [country] is not a dict, or it has a value while the length of its code
    cannot be taken or, the code having length 3, the value cannot be
    converted by [float]. *)
Definition unusable (W : World) (entry : pyval) : Prop :=
  (exists e, entry_fields entry = Exc e)
  \/ (exists f, entry_fields entry = Val f
                /\ is_none (snd f) = false
                /\ ((exists e, py_len (fst (fst f)) = Exc e)
                    \/ (py_len (fst (fst f)) = Val 3%Z
                        /\ exists e, float_of W (snd f) = Exc e))).

(** The answer the API gives to a request it rejects: one element, a
    message. *)
Definition error_envelope : pyval :=
  PList [PDict [("message",
                 PList [PDict [("id", PStr "120");
                               ("key", PStr "Invalid value");
                               ("value", PStr "The provided parameter value is not valid")]])]].

Definition rejecting : World := sample_world (answering (fun _ => Val error_envelope)).

(** One complete entry followed by one whose value is a text. *)
Definition spoiled : World :=
  sample_world
    (answering (fun _ =>
       Val (PList [PDict [];
                   PList [api_entry "USA" "United States" (PFloat 39.8);
                          api_entry "FRA" "France" (PStr "n/a")]]))).

(** A host on which the first notebook exists but is not JSON. *)
Definition broken_host : Host :=
  {| ROOT := "/repo";
     path_exists := fun p => String.eqb p plain_path;
     read_text := fun p => if String.eqb p plain_path then Val "{cells: " else Exc OSError;
     json_loads := fun _ => Exc JSONDecodeError;
     json_dumps := sample_dumps;
     uuid4_hex := fun _ => "3f2b8c1e9a7d4e56b0c2d4f6a8e0c2b4";
     st_size := String.length |}.

(** The sections of a report numbered from [i]. *)
Definition numbered (i : nat) (sections : list (string * string))
  : list (nat * (string * string)) :=
  combine (seq i (List.length sections)) sections.

(** A line with something else than blanks on it. *)
Definition nonblank (line : string) : bool := str_truthy (str_strip line).

(** A cell that is neither markdown nor code (a raw cell, say). *)
Definition other_cell (c : pyval) : bool :=
  match py_getitem c "cell_type" with
  | Val cell_type =>
      negb (py_eq_str cell_type "markdown") && negb (py_eq_str cell_type "code")
  | Exc _ => false
  end.

(** The value under a key, or a default. *)
Definition or_default (found : option pyval) (default : pyval) : pyval :=
  match found with
  | Some x => x
  | None => default
  end.

(** A notebook with a raw cell between a heading and a stream. *)
Definition mixed_notebook : pyval :=
  PDict [("metadata", PDict []);
         ("cells",
          PList [PDict [("cell_type", PStr "markdown"); ("source", PList [PStr "# Data"])];
                 PDict [("cell_type", PStr "raw"); ("source", PList [PStr "---"])];
                 PDict [("cell_type", PStr "code");
                        ("outputs",
                         PList [PDict [("output_type", PStr "stream");
                                       ("text", PList [PStr "169 countries"])]])]])].

(** A chart whose author set the left margin and switched autosize off. *)
Definition custom_chart : pyval :=
  PDict [("data", PList []);
         ("layout", PDict [("autosize", PBool false);
                           ("margin", PDict [("l", PInt 80)])])].

(** The cells a notebook is left with when the cells that are neither
    markdown nor code are taken out. *)
Definition rendered_cells (cells : list pyval) : list pyval :=
  filter (fun c => negb (other_cell c)) cells.

(** The pairs of country code and country name of a frame, row by row. *)
Definition code_names (df : DataFrame) : list (pyval * pyval) :=
  map (fun r => (cell df "country_code" r, cell df "country_name" r)) (rows df).

(** Equality of two strings held as values, decided. *)
Definition same_text (v w : pyval) : bool :=
  match v, w with
  | PStr s, PStr t => String.eqb s t
  | _, _ => false
  end.

(** Every item of [xs] is, as text, an item of [ys]. *)
Definition all_among (xs ys : list pyval) : bool :=
  forallb (fun x => existsb (same_text x) ys) xs.

(** Every pair of [xs] is, as text, a pair of [ys]. *)
Definition pairs_among (xs ys : list (pyval * pyval)) : bool :=
  forallb (fun x => existsb (fun y => same_text (fst x) (fst y)
                                      && same_text (snd x) (snd y)) ys) xs.

(** The items of [xs] at the places where [keep] says [true]. *)
Fixpoint pick {A : Type} (keep : list bool) (xs : list A) : list A :=
  match keep, xs with
  | b :: keep', x :: rest => if b then x :: pick keep' rest else pick keep' rest
  | _, _ => []
  end.

(** A section made from the notebook [name]: the notebook is there, the
    title is made from its name, and the fragment is what
    [extract_outputs] returned for it, and is not empty. *)
Definition taken_from (H : Host) (name : string) (section : string * string) : Prop :=
  fst section = section_title name
  /\ path_exists H (NOTEBOOKS_DIR H ++ "/" ++ name) = true
  /\ snd section <> EmptyString
  /\ exists n, fst (extract_outputs H (NOTEBOOKS_DIR H ++ "/" ++ name) n) = Val (snd section).

(** What the API delivered for the year [y]: the frame one call of the
    fetcher returns for the Gini indicator, and the lines that call
    printed. *)
Definition gini_year (W : World) (y : Z) : DataFrame :=
  fst (fetch_world_bank_indicator W "SI.POV.GINI" (str_of_int y)).

Definition gini_year_printed (W : World) (y : Z) : list string :=
  snd (fetch_world_bank_indicator W "SI.POV.GINI" (str_of_int y)).

(** The rows delivered for the year [y], each with the year as a fourth
    cell. *)
Definition year_frame (W : World) (y : Z) : DataFrame :=
  {| columns := gini_columns;
     rows := map (fun r => snoc r (PInt y)) (rows (gini_year W y)) |}.

(** The country [code] has a value for the year [y], one of the years from
    [s] to [e]. *)
Definition seen_in (W : World) (s e : Z) (code : pyval) (y : Z) : Prop :=
  (s <= y <= e)%Z
  /\ exists name value, In [code; name; value] (rows (gini_year W y)).

(** The API serves the whole Gini table for every year; the figures of
    2022 are all 25.0, those of the other years are the figures of the
    table. *)
Definition revised_in_2022 : World :=
  sample_world
    (answering (fun url =>
       Val (PList [PDict [];
                   PList (map (fun item =>
                                 api_entry (fst item) (fst (snd item))
                                   (if String.eqb url (world_bank_url "SI.POV.GINI" "2022")
                                    then PFloat 25.0
                                    else PFloat (snd (snd item))))
                              _GINI_FALLBACK)]))).

(** * Properties *)

(** ** Frames built from uniform records *)

Lemma first_seen_all_seen (seen labels : list string) :
  forallb (fun x => existsb (String.eqb x) seen) labels = true ->
  first_seen seen labels = [].
Proof.
  induction labels as [|x rest IH]; simpl; [reflexivity|].
  intros Hall. apply andb_true_iff in Hall as [Hx Hrest].
  rewrite Hx. now apply IH.
Qed.

Lemma table_loop_from {V : Type} (inj : V -> pyval) (label : string)
  (table : list (string * (string * V))) (acc : list record) :
  fold_left
    (fun acc item =>
       let '(code, (name, x)) := item in
       snoc acc [("country_code", PStr code); ("country_name", PStr name); (label, inj x)])
    table acc
  = (acc ++ map (fun item => [("country_code", PStr (fst item));
                              ("country_name", PStr (fst (snd item)));
                              (label, inj (snd (snd item)))]) table)%list.
Proof.
  revert acc.
  induction table as [|[code [name x]] rest IH]; intros acc; simpl.
  - now rewrite app_nil_r.
  - rewrite IH. unfold snoc. now rewrite <- app_assoc.
Qed.

(** The loop over [table.items()] appends one record per entry. *)
Lemma table_records_map {V : Type} (inj : V -> pyval) (label : string)
  (table : list (string * (string * V))) :
  table_records inj label table
  = map (fun item => [("country_code", PStr (fst item));
                      ("country_name", PStr (fst (snd item)));
                      (label, inj (snd (snd item)))]) table.
Proof.
  unfold table_records. now rewrite table_loop_from.
Qed.

(** Records that all carry the same three distinct keys make a frame with
    these three columns and one row per record. *)
Lemma DataFrame_records_uniform (k1 k2 k3 : string)
  (triples : list (pyval * pyval * pyval)) :
  k1 <> k2 -> k1 <> k3 -> k2 <> k3 -> triples <> [] ->
  DataFrame_records
    (map (fun t => [(k1, fst (fst t)); (k2, snd (fst t)); (k3, snd t)]) triples)
  = {| columns := [k1; k2; k3];
       rows := map (fun t => [fst (fst t); snd (fst t); snd t]) triples |}.
Proof.
  intros H12 H13 H23 Hne.
  apply String.eqb_neq in H12 as E12. apply String.eqb_neq in H13 as E13.
  apply String.eqb_neq in H23 as E23.
  assert (E21 : String.eqb k2 k1 = false) by (rewrite String.eqb_sym; exact E12).
  assert (E31 : String.eqb k3 k1 = false) by (rewrite String.eqb_sym; exact E13).
  assert (E32 : String.eqb k3 k2 = false) by (rewrite String.eqb_sym; exact E23).
  assert (Hcols : first_seen []
            (flat_map (map fst)
               (map (fun t : pyval * pyval * pyval =>
                       [(k1, fst (fst t)); (k2, snd (fst t)); (k3, snd t)]) triples))
          = [k1; k2; k3]).
  { destruct triples as [|t rest]; [contradiction|].
    simpl. rewrite E21. simpl. rewrite E32, E31. simpl.
    do 3 f_equal. apply first_seen_all_seen.
    clear. induction rest as [|u rest IH]; simpl; [reflexivity|].
    rewrite !String.eqb_refl, !orb_true_r. simpl. exact IH. }
  unfold DataFrame_records. rewrite Hcols. f_equal.
  rewrite map_map. apply map_ext. intros [[a b] c]. simpl.
  unfold record_cell. simpl.
  rewrite !String.eqb_refl, E21, E31, E32. reflexivity.
Qed.

Lemma table_frame_records {V : Type} (inj : V -> pyval) (label : string)
  (table : list (string * (string * V))) :
  label <> "country_code" -> label <> "country_name" -> table <> [] ->
  DataFrame_records (table_records inj label table) = table_frame inj label table.
Proof.
  intros Hc Hn Hne.
  rewrite table_records_map.
  pose (triple := fun item : string * (string * V) =>
                    (PStr (fst item), PStr (fst (snd item)), inj (snd (snd item)))).
  replace (map (fun item : string * (string * V) =>
                  [("country_code", PStr (fst item));
                   ("country_name", PStr (fst (snd item)));
                   (label, inj (snd (snd item)))]) table)
    with (map (fun t : pyval * pyval * pyval =>
                 [("country_code", fst (fst t)); ("country_name", snd (fst t)); (label, snd t)])
              (map triple table))
    by (now rewrite map_map).
  rewrite DataFrame_records_uniform.
  - unfold table_frame. now rewrite map_map.
  - discriminate.
  - congruence.
  - congruence.
  - destruct table; [contradiction | discriminate].
Qed.

Lemma Forall_by_check {A : Type} (check : A -> bool) (P : A -> Prop) (l : list A) :
  (forall x, check x = true -> P x) -> forallb check l = true -> Forall P l.
Proof.
  intros Hsound Hall. apply Forall_forall. intros x Hin.
  apply Hsound. now apply (proj1 (forallb_forall check l) Hall).
Qed.

(** ** Static tables and their accessors *)

(** C5. In each of the six embedded fallback tables a value pairs a country
    name with a number: populations are non-negative integers; Gini,
    homicide, drug-offense and ownership figures are non-negative floats;
    strictness levels are integers between 1 and 5. *)
Theorem fallback_tables_values_in_range :
  Forall (fun item => (0 <= snd (snd item))%Z) _POPULATION_FALLBACK
  /\ Forall (fun item => nonneg (snd (snd item)) = true) _GINI_FALLBACK
  /\ Forall (fun item => nonneg (snd (snd item)) = true) _GUN_HOMICIDE_FALLBACK
  /\ Forall (fun item => nonneg (snd (snd item)) = true) _DRUG_OFFENSE_FALLBACK
  /\ Forall (fun item => nonneg (snd (snd item)) = true) _GUN_OWNERSHIP_FALLBACK
  /\ Forall (fun item => (1 <= snd (snd item) <= 5)%Z) _GUN_CONTROL_STRICTNESS_FALLBACK.
Proof.
  repeat split.
  - apply (Forall_by_check (fun item => (0 <=? snd (snd item))%Z)).
    + intros x Hx. now apply Z.leb_le.
    + vm_compute. reflexivity.
  - apply (Forall_by_check (fun item => nonneg (snd (snd item)))); [tauto|].
    vm_compute. reflexivity.
  - apply (Forall_by_check (fun item => nonneg (snd (snd item)))); [tauto|].
    vm_compute. reflexivity.
  - apply (Forall_by_check (fun item => nonneg (snd (snd item)))); [tauto|].
    vm_compute. reflexivity.
  - apply (Forall_by_check (fun item => nonneg (snd (snd item)))); [tauto|].
    vm_compute. reflexivity.
  - apply (Forall_by_check
             (fun item => ((1 <=? snd (snd item)) && (snd (snd item) <=? 5))%Z)).
    + intros x Hx. apply andb_true_iff in Hx as [H1 H5].
      split; now apply Z.leb_le.
    + vm_compute. reflexivity.
Qed.

(** C6. The accessors without a live source take no argument and no
    [World]: each is the frame of its embedded table, with one row per
    entry, in the table's order. *)
Theorem static_accessors_return_their_table :
  get_gun_homicide_rates
  = table_frame PFloat "gun_homicide_rate" _GUN_HOMICIDE_FALLBACK
  /\ get_drug_offense_rates
     = table_frame PFloat "drug_offense_rate" _DRUG_OFFENSE_FALLBACK
  /\ get_gun_ownership_rates
     = table_frame PFloat "guns_per_100" _GUN_OWNERSHIP_FALLBACK
  /\ get_gun_control_strictness
     = table_frame PInt "gun_control_strictness" _GUN_CONTROL_STRICTNESS_FALLBACK
  /\ get_country_regions
     = {| columns := ["country_code"; "region"];
          rows := map (fun item => [PStr (fst item); PStr (snd item)]) _COUNTRY_REGIONS |}
  /\ List.length (rows get_gun_homicide_rates) = List.length _GUN_HOMICIDE_FALLBACK
  /\ List.length (rows get_drug_offense_rates) = List.length _DRUG_OFFENSE_FALLBACK
  /\ List.length (rows get_gun_ownership_rates) = List.length _GUN_OWNERSHIP_FALLBACK
  /\ List.length (rows get_gun_control_strictness)
     = List.length _GUN_CONTROL_STRICTNESS_FALLBACK
  /\ List.length (rows get_country_regions) = List.length _COUNTRY_REGIONS.
Proof.
  assert (Hh : get_gun_homicide_rates
               = table_frame PFloat "gun_homicide_rate" _GUN_HOMICIDE_FALLBACK)
    by (apply table_frame_records; discriminate).
  assert (Hd : get_drug_offense_rates
               = table_frame PFloat "drug_offense_rate" _DRUG_OFFENSE_FALLBACK)
    by (apply table_frame_records; discriminate).
  assert (Ho : get_gun_ownership_rates
               = table_frame PFloat "guns_per_100" _GUN_OWNERSHIP_FALLBACK)
    by (apply table_frame_records; discriminate).
  assert (Hs : get_gun_control_strictness
               = table_frame PInt "gun_control_strictness"
                   _GUN_CONTROL_STRICTNESS_FALLBACK)
    by (apply table_frame_records; discriminate).
  assert (Hr : get_country_regions
               = {| columns := ["country_code"; "region"];
                    rows := map (fun item => [PStr (fst item); PStr (snd item)])
                                _COUNTRY_REGIONS |})
    by (vm_compute; reflexivity).
  split; [exact Hh|]. split; [exact Hd|]. split; [exact Ho|].
  split; [exact Hs|]. split; [exact Hr|].
  rewrite Hh, Hd, Ho, Hs, Hr. unfold table_frame. cbn [rows].
  rewrite !length_map. tauto.
Qed.

(** ** The indicator fetcher *)

Lemma rows_records_uniform (triples : list (pyval * pyval * pyval)) :
  rows (DataFrame_records (map value_record triples)) = map value_row triples.
Proof.
  destruct triples as [|t rest] eqn:E; [reflexivity|].
  rewrite <- E. unfold value_record.
  rewrite DataFrame_records_uniform; try discriminate.
  - reflexivity.
  - subst. discriminate.
Qed.

Lemma columns_records_uniform (triples : list (pyval * pyval * pyval)) :
  triples <> [] ->
  columns (DataFrame_records (map value_record triples)) = value_columns.
Proof.
  intros Hne. unfold value_record.
  rewrite DataFrame_records_uniform; try discriminate; auto.
Qed.

(** One turn of the loop either leaves the rows alone (entry not wanted) or
    appends the record of the entry, its value converted by [float]. *)
Lemma entry_step_spec (W : World) (acc acc' : list record) (entry : pyval) :
  entry_step W acc entry = Val acc' ->
  exists f,
    entry_fields entry = Val f
    /\ ((wanted f = false /\ acc' = acc)
        \/ (wanted f = true
            /\ exists v, float_of W (snd f) = Val v
                         /\ acc' = snoc acc (value_record (fst f, PFloat v)))).
Proof.
  unfold entry_step, entry_fields, wanted.
  destruct (py_get entry "country" (PDict [])) as [country|] eqn:Ec; simpl; [|discriminate].
  destruct (py_get country "id" (PStr "")) as [code|] eqn:Ei; simpl; [|discriminate].
  destruct (py_get country "value" (PStr "")) as [name|] eqn:En; simpl; [|discriminate].
  destruct (py_get entry "value" PNone) as [val|] eqn:Ev; simpl; [|discriminate].
  intros Hstep. exists (code, name, val). split; [reflexivity|]. simpl.
  destruct (is_none val) eqn:Enone.
  - destruct val; try discriminate. simpl in Hstep.
    left. split; [reflexivity | congruence].
  - assert (Hrun : (let* n := py_len code in
                    if (n =? 3)%Z
                    then let* v := float_of W val in
                         Val (snoc acc [("country_code", code);
                                        ("country_name", name);
                                        ("value", PFloat v)])
                    else Val acc) = Val acc')
      by (destruct val; try discriminate; exact Hstep).
    clear Hstep. simpl.
    destruct (py_len code) as [n|]; simpl in Hrun; [|discriminate].
    destruct (n =? 3)%Z.
    + right. split; [reflexivity|].
      destruct (float_of W val) as [v|]; simpl in Hrun; [|discriminate].
      exists v. split; [reflexivity|]. injection Hrun as <-. reflexivity.
    + left. split; [reflexivity | congruence].
Qed.

(** The whole loop: the entries are all readable, and the rows appended are
    those of the wanted entries, in order. *)
Lemma entry_loop_spec (W : World) (entries : list pyval) (acc acc' : list record) :
  for_each (entry_step W) entries acc = Val acc' ->
  exists fields triples,
    Forall2 (fun entry f => entry_fields entry = Val f) entries fields
    /\ Forall2 (fun f t => exists v, float_of W (snd f) = Val v /\ t = (fst f, PFloat v))
               (filter wanted fields) triples
    /\ acc' = (acc ++ map value_record triples)%list.
Proof.
  revert acc. induction entries as [|entry rest IH]; intros acc; simpl.
  - intros [= <-]. exists [], []. repeat split; try constructor.
    now rewrite app_nil_r.
  - destruct (entry_step W acc entry) as [acc1|] eqn:Estep; simpl; [|discriminate].
    intros Hrest.
    destruct (entry_step_spec _ _ _ _ Estep) as (f & Hf & Hcase).
    destruct (IH _ Hrest) as (fields & triples & Hall & Hkept & ->).
    destruct Hcase as [[Hw ->] | (Hw & v & Hv & ->)].
    + exists (f :: fields), triples. simpl. rewrite Hw.
      repeat split; [constructor; assumption | assumption].
    + exists (f :: fields), ((fst f, PFloat v) :: triples). simpl. rewrite Hw.
      split; [constructor; assumption|]. split.
      * constructor; [exists v; auto | assumption].
      * unfold snoc. now rewrite <- app_assoc.
Qed.

(** An envelope with fewer than two items has no item 1. *)
Lemma short_envelope_no_records (data records : pyval) (n : Z) :
  py_len data = Val n -> (n < 2)%Z -> py_item data 1 = Val records -> False.
Proof.
  destruct data as [| | | |s|l|d]; simpl; try discriminate.
  - intros [= <-] Hn.
    destruct s as [|c [|c' s]]; simpl in *; try discriminate. lia.
  - intros [= <-] Hn.
    destruct l as [|a [|b l]]; simpl in *; try discriminate. lia.
Qed.

(** C3. [fetch_world_bank_indicator] hands a frame back whatever the
    network delivers.  When the [try] block raises, the frame is empty
    (with the three value columns) and one diagnostic is printed.  When it
    does not raise, nothing is printed, and if the answer held a records
    element that could be iterated, the rows are exactly those of the
    entries whose value is not null and whose country code has length 3,
    in order, each with its code, its name and its value as a float. *)
Theorem fetch_world_bank_indicator_never_raises
  (W : World) (indicator year : string) :
  (exists df out, fetch_world_bank_indicator W indicator year = (df, out))
  /\ (forall e, fetch_try W indicator year = Exc e ->
        fetch_world_bank_indicator W indicator year
        = ({| columns := value_columns; rows := [] |},
           [api_error_line W indicator e]))
  /\ (forall df, fetch_try W indicator year = Val df ->
        fetch_world_bank_indicator W indicator year = (df, [])
        /\ forall resp data records entries,
             requests_get W (world_bank_url indicator year) = Val resp ->
             json resp = Val data ->
             py_item data 1 = Val records ->
             py_iter records = Val entries ->
             exists fields,
               Forall2 (fun entry f => entry_fields entry = Val f) entries fields
               /\ Forall2 (fun f row =>
                             exists v, float_of W (snd f) = Val v
                                       /\ row = [fst (fst f); snd (fst f); PFloat v])
                          (filter wanted fields) (rows df)).
Proof.
  split; [|split].
  - unfold fetch_world_bank_indicator.
    destruct (fetch_try W indicator year); eauto.
  - intros e He. unfold fetch_world_bank_indicator. now rewrite He.
  - intros df Hdf. split.
    + unfold fetch_world_bank_indicator. now rewrite Hdf.
    + intros resp data records entries Hget Hjson Hitem Hiter.
      unfold fetch_try in Hdf. rewrite Hget in Hdf. simpl in Hdf.
      destruct (raise_for_status resp); simpl in Hdf; [|discriminate].
      rewrite Hjson in Hdf. simpl in Hdf.
      destruct (py_len data) as [n|] eqn:Hlen; simpl in Hdf; [|discriminate].
      destruct (n <? 2)%Z eqn:Hshort.
      * exfalso. apply Z.ltb_lt in Hshort.
        exact (short_envelope_no_records _ _ _ Hlen Hshort Hitem).
      * rewrite Hitem in Hdf. simpl in Hdf.
        assert (Hloop : (let* acc := for_each (entry_step W) entries [] in
                         Val (DataFrame_records acc)) = Val df).
        { destruct records; simpl in Hiter; try discriminate;
            simpl in Hdf; injection Hiter as <-; exact Hdf. }
        clear Hdf.
        destruct (for_each (entry_step W) entries []) as [acc|] eqn:Hacc;
          simpl in Hloop; [|discriminate].
        injection Hloop as <-.
        destruct (entry_loop_spec _ _ _ _ Hacc) as (fields & triples & Hall & Hkept & ->).
        exists fields. split; [exact Hall|].
        cbn [app]. rewrite rows_records_uniform.
        clear - Hkept. induction Hkept as [|f t fs ts (v & Hv & ->) _ IH]; simpl.
        -- constructor.
        -- constructor; [exists v; auto | exact IH].
Qed.

(** On an answer with four entries the two wanted ones make the rows. *)
Lemma fetch_world_bank_indicator_never_raises_witness :
  exists fields,
    Forall2 (fun entry f => entry_fields entry = Val f) four_entries fields
    /\ Forall2 (fun f row =>
                  exists v, float_of serving_four (snd f) = Val v
                            /\ row = [fst (fst f); snd (fst f); PFloat v])
               (filter wanted fields)
               [[PStr "USA"; PStr "United States"; PFloat 39.8];
                [PStr "DEU"; PStr "Germany"; PFloat 31]].
Proof.
  destruct (fetch_world_bank_indicator_never_raises serving_four "SI.POV.GINI" "2022")
    as (_ & _ & Hok).
  destruct (Hok {| columns := value_columns;
                   rows := [[PStr "USA"; PStr "United States"; PFloat 39.8];
                            [PStr "DEU"; PStr "Germany"; PFloat 31]] |} eq_refl)
    as [_ Hrows].
  exact (Hrows {| raise_for_status := Val tt;
                  json := Val (PList [PDict []; PList four_entries]) |}
               (PList [PDict []; PList four_entries]) (PList four_entries) four_entries
               eq_refl eq_refl eq_refl eq_refl).
Defined.

(** C8. The docstring promises the columns [country_code], [country_name],
    [value].  On the answer [[{}, []]] (a records element without entries)
    the frame comes from [pd.DataFrame([])] and has no column at all. *)
Theorem fetch_without_records_has_no_columns :
  fetch_world_bank_indicator no_records "SI.POV.GINI" "2022"
  = ({| columns := []; rows := [] |}, []).
Proof. reflexivity. Qed.

(** The schema is there on the other paths: whenever the [try] block
    raises, and whenever at least one row is returned. *)
Lemma fetch_columns_unless_no_row (W : World) (indicator year : string) :
  let df := fst (fetch_world_bank_indicator W indicator year) in
  columns df = value_columns \/ (columns df = [] /\ rows df = []).
Proof.
  unfold fetch_world_bank_indicator.
  destruct (fetch_try W indicator year) as [df|e] eqn:Htry; simpl; [|now left].
  unfold fetch_try in Htry.
  destruct (requests_get W _) as [resp|]; simpl in Htry; [|discriminate].
  destruct (raise_for_status resp); simpl in Htry; [|discriminate].
  destruct (json resp) as [data|]; simpl in Htry; [|discriminate].
  destruct (py_len data) as [n|]; simpl in Htry; [|discriminate].
  destruct (n <? 2)%Z; [injection Htry as <-; now left|].
  destruct (py_item data 1) as [records|]; simpl in Htry; [|discriminate].
  assert (Hcases : Val (DataFrame_columns value_columns) = Val df
                   \/ (let* entries := py_iter records in
                       let* acc := for_each (entry_step W) entries [] in
                       Val (DataFrame_records acc)) = Val df)
    by (destruct records; auto).
  clear Htry. destruct Hcases as [Hempty | Hloop]; [injection Hempty as <-; now left|].
  destruct (py_iter records) as [entries|]; simpl in Hloop; [|discriminate].
  destruct (for_each (entry_step W) entries []) as [acc|] eqn:Hacc;
    simpl in Hloop; [|discriminate].
  injection Hloop as <-.
  destruct (entry_loop_spec _ _ _ _ Hacc) as (fields & triples & _ & _ & ->).
  cbn [app]. destruct triples as [|t ts].
  - right. split; reflexivity.
  - left. apply columns_records_uniform. discriminate.
Qed.

(** ** Fallback substitution *)

Lemma gini_fallback_frame : gini_fallback = table_frame PFloat "gini" _GINI_FALLBACK.
Proof. apply table_frame_records; discriminate. Qed.

(** C2. When the population fetch yields fewer than 100 rows,
    [fetch_population] returns the frame of the population fallback table;
    when no year gave data, or the deduplicated Gini data has fewer than 50
    rows, [fetch_gini] returns the frame of the Gini fallback table.  Both
    frames have one row per entry: its code, its name and its figure. *)
Theorem fallback_when_too_few_rows (W : World) (year year_range : string) :
  ((df_len (fst (fetch_world_bank_indicator W "SP.POP.TOTL" year)) < 100)%Z ->
   fst (fetch_population W year)
   = table_frame PInt "population" _POPULATION_FALLBACK)
  /\ (forall s e,
        parse_year_range W year_range = Val (s, e) ->
        fst (gini_frames W s e) = []
        \/ (exists combined,
              gini_latest W (fst (gini_frames W s e)) = Val combined
              /\ (df_len combined < 50)%Z) ->
        fst (fetch_gini W year_range)
        = Val (table_frame PFloat "gini" _GINI_FALLBACK)).
Proof.
  split.
  - unfold fetch_population.
    destruct (fetch_world_bank_indicator W "SP.POP.TOTL" year) as [df out]. simpl.
    intros Hfew. apply Z.leb_gt in Hfew. rewrite Hfew. simpl.
    apply table_frame_records; discriminate.
  - intros s e Hparse Hfew. unfold fetch_gini. rewrite Hparse.
    destruct (gini_frames W s e) as [all_rows out]. simpl in Hfew.
    rewrite <- gini_fallback_frame.
    destruct Hfew as [-> | (combined & Hlatest & Hlen)]; [reflexivity|].
    destruct all_rows as [|df rest]; [reflexivity|].
    rewrite Hlatest. apply Z.leb_gt in Hlen. now rewrite Hlen.
Qed.

(** Without a network both wrappers fall back. *)
Lemma fallback_when_too_few_rows_witness :
  fst (fetch_population offline "2022")
  = table_frame PInt "population" _POPULATION_FALLBACK
  /\ fst (fetch_gini offline "2018:2022")
     = Val (table_frame PFloat "gini" _GINI_FALLBACK).
Proof.
  split.
  - apply (proj1 (fallback_when_too_few_rows offline "2022" "2018:2022")).
    reflexivity.
  - apply (proj2 (fallback_when_too_few_rows offline "2022" "2018:2022") 2018%Z 2022%Z).
    + reflexivity.
    + left. reflexivity.
Defined.

(** ** The sample sort meets the contract of [sort_values] *)

Lemma insert_desc_perm {A : Type} (key : A -> Z) (x : A) (l : list A) :
  Permutation (insert_desc key x l) (x :: l).
Proof.
  induction l as [|y rest IH]; simpl; [reflexivity|].
  destruct (key y <=? key x)%Z; [reflexivity|].
  rewrite IH. apply perm_swap.
Qed.

Lemma insert_desc_sorted {A : Type} (key : A -> Z) (x : A) (l : list A) :
  StronglySorted (fun a b => (key b <= key a)%Z) l ->
  StronglySorted (fun a b => (key b <= key a)%Z) (insert_desc key x l).
Proof.
  induction 1 as [|y rest Hsorted IH Hy]; simpl.
  - repeat constructor.
  - destruct (key y <=? key x)%Z eqn:Hcmp.
    + apply Z.leb_le in Hcmp. constructor; [constructor; assumption|].
      constructor; [exact Hcmp|].
      eapply Forall_impl; [|exact Hy]. simpl. intros z Hz. lia.
    + apply Z.leb_gt in Hcmp. constructor; [exact IH|].
      eapply Permutation_Forall; [symmetry; apply insert_desc_perm|].
      constructor; [lia | exact Hy].
Qed.

Lemma sample_sort_sorts : sorts_descending sample_sort.
Proof.
  intros col df. unfold sample_sort. simpl. split; [reflexivity|].
  induction (rows df) as [|r rest [IHp IHs]]; simpl.
  - split; [reflexivity | constructor].
  - split.
    + rewrite insert_desc_perm. now constructor.
    + now apply insert_desc_sorted.
Qed.

(** ** Deduplication keeps the first row of every key *)

Lemma existsb_eqb_In (k : string) (seen : list string) :
  existsb (String.eqb k) seen = true <-> In k seen.
Proof.
  rewrite existsb_exists. split.
  - intros (x & Hin & Heq). apply String.eqb_eq in Heq. now subst.
  - intros Hin. exists k. split; [exact Hin | apply String.eqb_refl].
Qed.

Section KeepFirst.

Variable code : list pyval -> pyval.
Variable year : list pyval -> Z.

Lemma keep_first_spec (keyed : list (string * list pyval)) (seen : list string) :
  (forall k r, In (k, r) keyed -> code r = PStr k) ->
  StronglySorted (fun a b => (year (snd b) <= year (snd a))%Z) keyed ->
  NoDup (map code (keep_first seen keyed))
  /\ (forall r', In r' (keep_first seen keyed) ->
        exists k, In (k, r') keyed /\ ~ In k seen
                  /\ forall r, In (k, r) keyed -> (year r <= year r')%Z)
  /\ (forall k r, In (k, r) keyed -> ~ In k seen ->
        exists r', In r' (keep_first seen keyed) /\ In (k, r') keyed).
Proof.
  revert seen. induction keyed as [|[k r] rest IH]; intros seen Hcode Hsorted.
  - simpl. split; [constructor|]. split; [intros r' [] | intros k r []].
  - apply StronglySorted_inv in Hsorted as [Hsorted Hhead].
    assert (Hcode' : forall k0 r0, In (k0, r0) rest -> code r0 = PStr k0)
      by (intros; apply Hcode; now right).
    simpl. destruct (existsb (String.eqb k) seen) eqn:Hseen.
    + apply existsb_eqb_In in Hseen.
      destruct (IH seen Hcode' Hsorted) as (Hnd & Hfirst & Hall).
      split; [exact Hnd|]. split.
      * intros r' Hin. destruct (Hfirst r' Hin) as (k' & Hk' & Hnew & Hmax).
        exists k'. split; [now right|]. split; [exact Hnew|].
        intros r0 [Heq | Hin0]; [|now apply Hmax].
        injection Heq as -> ->. contradiction.
      * intros k0 r0 [Heq | Hin0] Hnew.
        -- injection Heq as -> ->. contradiction.
        -- destruct (Hall k0 r0 Hin0 Hnew) as (r' & Hr' & Hk').
           exists r'. split; [exact Hr' | now right].
    + assert (Hnew : ~ In k seen).
      { intros Hin. apply existsb_eqb_In in Hin. congruence. }
      destruct (IH (k :: seen) Hcode' Hsorted) as (Hnd & Hfirst & Hall).
      split; [|split].
      * simpl. constructor; [|exact Hnd].
        intros Hin. apply in_map_iff in Hin as (r' & Hsame & Hr').
        destruct (Hfirst r' Hr') as (k' & Hk' & Hfresh & _).
        rewrite (Hcode' _ _ Hk'), (Hcode k r (or_introl eq_refl)) in Hsame.
        injection Hsame as ->. apply Hfresh. now left.
      * intros r' [<- | Hin].
        -- exists k. split; [now left|]. split; [exact Hnew|].
           intros r0 [Heq | Hin0]; [injection Heq as <-; lia|].
           rewrite Forall_forall in Hhead. exact (Hhead _ Hin0).
        -- destruct (Hfirst r' Hin) as (k' & Hk' & Hfresh & Hmax).
           exists k'. split; [now right|]. split.
           ++ intros Hs. apply Hfresh. now right.
           ++ intros r0 [Heq | Hin0]; [|now apply Hmax].
              injection Heq as -> ->. exfalso. apply Hfresh. now left.
      * intros k0 r0 Hin0 Hfresh0.
        destruct (String.eqb k0 k) eqn:Hk.
        -- apply String.eqb_eq in Hk as ->. exists r. split; now left.
        -- apply String.eqb_neq in Hk.
           destruct Hin0 as [Heq | Hin0]; [injection Heq as -> ->; congruence|].
           destruct (Hall k0 r0 Hin0) as (r' & Hr' & Hk').
           ++ intros [-> | Hs]; [congruence | contradiction].
           ++ exists r'. split; [now right | now right].
Qed.

End KeepFirst.

Lemma keys_of_strings (df : DataFrame) (col : string) (rs : list (list pyval))
  (ks : list string) :
  keys_of df col rs = Val ks ->
  combine ks rs = map (fun r => (str_key (cell df col r), r)) rs
  /\ Forall (fun r => exists s, cell df col r = PStr s) rs.
Proof.
  revert ks. induction rs as [|r rest IH]; simpl; intros ks.
  - intros [= <-]. split; [reflexivity | constructor].
  - destruct (code_key (cell df col r)) as [k|] eqn:Ek; simpl; [|discriminate].
    destruct (keys_of df col rest) as [ks'|]; simpl; [|discriminate].
    intros [= <-]. destruct (IH ks' eq_refl) as [Hcomb Hall].
    unfold code_key in Ek.
    destruct (cell df col r) as [| | | |s| |] eqn:Ecell; try discriminate.
    injection Ek as <-. simpl. split.
    + now rewrite Hcomb.
    + constructor; [now exists s | exact Hall].
Qed.

Lemma keys_of_total (df : DataFrame) (col : string) (rs : list (list pyval)) :
  Forall (fun r => exists s, cell df col r = PStr s) rs ->
  keys_of df col rs = Val (map (fun r => str_key (cell df col r)) rs).
Proof.
  induction 1 as [|r rest (s & Hs) _ IH]; simpl; [reflexivity|].
  rewrite Hs, IH. reflexivity.
Qed.

Lemma combine_keys {A : Type} (key : A -> string) (rs : list A) :
  combine (map key rs) rs = map (fun r => (key r, r)) rs.
Proof.
  induction rs as [|r rest IH]; simpl; [reflexivity | now rewrite IH].
Qed.

Lemma existsb_eqb_true (col : string) (cols : list string) :
  In col cols -> existsb (String.eqb col) cols = true.
Proof. apply existsb_eqb_In. Qed.

(** What [drop_duplicates] returns once it returns. *)
Lemma drop_duplicates_run (col : string) (df out : DataFrame) :
  df_drop_duplicates col df = Val out ->
  Forall (fun r => exists s, cell df col r = PStr s) (rows df)
  /\ out = {| columns := columns df;
              rows := keep_first []
                        (map (fun r => (str_key (cell df col r), r)) (rows df)) |}.
Proof.
  unfold df_drop_duplicates.
  destruct (existsb (String.eqb col) (columns df)); [|discriminate].
  destruct (keys_of df col (rows df)) as [ks|] eqn:Hks; simpl; [|discriminate].
  destruct (keys_of_strings _ _ _ _ Hks) as [Hcomb Hall].
  intros [= <-]. split; [exact Hall | now rewrite Hcomb].
Qed.

(** It does return when the column is there and holds strings. *)
Lemma drop_duplicates_total (col : string) (df : DataFrame) :
  In col (columns df) ->
  Forall (fun r => exists s, cell df col r = PStr s) (rows df) ->
  df_drop_duplicates col df
  = Val {| columns := columns df;
           rows := keep_first []
                     (map (fun r => (str_key (cell df col r), r)) (rows df)) |}.
Proof.
  intros Hcol Hall. unfold df_drop_duplicates.
  rewrite (existsb_eqb_true _ _ Hcol), (keys_of_total _ _ _ Hall). simpl.
  now rewrite combine_keys.
Qed.

Lemma keyed_rows_code (code : list pyval -> pyval) (rs : list (list pyval)) :
  Forall (fun r => exists s, code r = PStr s) rs ->
  forall k r, In (k, r) (map (fun r => (str_key (code r), r)) rs) ->
              In r rs /\ code r = PStr k.
Proof.
  intros Hall k r Hin. apply in_map_iff in Hin as (r0 & [= <- <-] & Hr0).
  split; [exact Hr0|].
  rewrite Forall_forall in Hall. destruct (Hall _ Hr0) as (s & Hs).
  now rewrite Hs.
Qed.

Lemma keyed_rows_sorted (key : list pyval -> string) (year : list pyval -> Z)
  (rs : list (list pyval)) :
  StronglySorted (fun r1 r2 => (year r2 <= year r1)%Z) rs ->
  StronglySorted (fun a b : string * list pyval => (year (snd b) <= year (snd a))%Z)
                 (map (fun r => (key r, r)) rs).
Proof.
  induction 1 as [|r rest _ IH Hr]; simpl; constructor; [exact IH|].
  apply Forall_map. exact Hr.
Qed.

Lemma always_sorted {A : Type} (l : list A) :
  StronglySorted (fun _ _ : A => (0 <= 0)%Z) l.
Proof.
  induction l as [|x rest IH]; constructor; [exact IH|].
  apply Forall_forall. intros. lia.
Qed.

(** The rows kept have pairwise distinct keys, whatever the order. *)
Lemma keep_first_distinct (code : list pyval -> pyval) (rs : list (list pyval)) :
  Forall (fun r => exists s, code r = PStr s) rs ->
  NoDup (map code (keep_first [] (map (fun r => (str_key (code r), r)) rs))).
Proof.
  intros Hall.
  apply (keep_first_spec code (fun _ => 0%Z)).
  - intros k r Hin. now apply (keyed_rows_code code rs Hall).
  - apply always_sorted.
Qed.

(** On rows sorted by year descending, the row kept for a key is one of
    its rows of the highest year, and every key keeps a row. *)
Lemma keep_first_latest (code : list pyval -> pyval) (year : list pyval -> Z)
  (rs : list (list pyval)) :
  Forall (fun r => exists s, code r = PStr s) rs ->
  StronglySorted (fun r1 r2 => (year r2 <= year r1)%Z) rs ->
  let kept := keep_first [] (map (fun r => (str_key (code r), r)) rs) in
  (forall r, In r rs -> exists r', In r' kept /\ code r' = code r)
  /\ (forall r', In r' kept ->
        In r' rs
        /\ forall r, In r rs -> code r = code r' -> (year r <= year r')%Z).
Proof.
  intros Hall Hsorted kept.
  pose proof (keyed_rows_code code rs Hall) as Hkeyed.
  destruct (keep_first_spec code year _ []
              (fun k r Hin => proj2 (Hkeyed k r Hin))
              (keyed_rows_sorted (fun r => str_key (code r)) year rs Hsorted))
    as (_ & Hfirst & Hevery).
  split.
  - intros r Hr.
    destruct (Hevery (str_key (code r)) r) as (r' & Hr' & Hk').
    + apply in_map_iff. now exists r.
    + intros [].
    + exists r'. split; [exact Hr'|].
      rewrite (proj2 (Hkeyed _ _ Hk')).
      rewrite Forall_forall in Hall. destruct (Hall _ Hr) as (s & Hs).
      now rewrite Hs.
  - intros r' Hr'. destruct (Hfirst r' Hr') as (k & Hk & _ & Hmax).
    destruct (Hkeyed _ _ Hk) as [Hin Hcode]. split; [exact Hin|].
    intros r Hr Hsame. apply Hmax.
    apply in_map_iff. exists r. split; [|exact Hr].
    now rewrite Hsame, Hcode.
Qed.

(** ** The columns of the collected frames *)

Lemma cell_by_columns (df df' : DataFrame) :
  columns df = columns df' -> cell df = cell df'.
Proof. intros Hcols. unfold cell. now rewrite Hcols. Qed.

(** A frame enters [all_rows] only with at least one row, hence with the
    three value columns, to which [year] is added. *)
Lemma gini_frames_columns (W : World) (s e : Z) :
  Forall (fun df => columns df = gini_columns) (fst (gini_frames W s e)).
Proof.
  unfold gini_frames.
  assert (Hinv : forall years acc,
             Forall (fun df => columns df = gini_columns) (fst acc) ->
             Forall (fun df => columns df = gini_columns)
                    (fst (fold_left (gini_step W) years acc))).
  { induction years as [|y rest IH]; intros [frames out] Hacc; simpl; [exact Hacc|].
    apply IH. unfold gini_step.
    destruct (fetch_world_bank_indicator W "SI.POV.GINI" (str_of_int y))
      as [df printed] eqn:Hfetch.
    destruct (0 <? df_len df)%Z eqn:Hlen; simpl; [|exact Hacc].
    unfold snoc. apply Forall_app. split; [exact Hacc|].
    constructor; [|constructor].
    pose proof (fetch_columns_unless_no_row W "SI.POV.GINI" (str_of_int y)) as Hcols.
    rewrite Hfetch in Hcols. simpl in Hcols.
    destruct Hcols as [Hcols | [_ Hnone]].
    - unfold df_assign. rewrite Hcols. reflexivity.
    - unfold df_len in Hlen. rewrite Hnone in Hlen. discriminate. }
  apply Hinv. constructor.
Qed.

Lemma concat_has_country_code (frames : list DataFrame) :
  frames <> [] ->
  Forall (fun df => columns df = gini_columns) frames ->
  In "country_code" (columns (df_concat frames)).
Proof.
  intros Hne Hall. destruct frames as [|df rest]; [contradiction|].
  apply Forall_inv in Hall. unfold df_concat. simpl. rewrite Hall.
  simpl. now left.
Qed.

(** ** Country codes are unique in the result of [fetch_gini] *)

Lemma distinct_NoDup (labels : list string) : distinct labels = true -> NoDup labels.
Proof.
  induction labels as [|x rest IH]; simpl; [constructor|].
  intros Hd. apply andb_true_iff in Hd as [Hx Hrest].
  constructor; [|now apply IH].
  intros Hin. apply existsb_eqb_In in Hin. rewrite Hin in Hx. discriminate.
Qed.

Lemma table_frame_codes {V : Type} (inj : V -> pyval) (label : string)
  (table : list (string * (string * V))) :
  codes (table_frame inj label table) = map (fun item => PStr (fst item)) table.
Proof.
  unfold codes, table_frame. cbn [rows]. rewrite map_map.
  apply map_ext. intros item. reflexivity.
Qed.

Lemma table_frame_codes_unique {V : Type} (inj : V -> pyval) (label : string)
  (table : list (string * (string * V))) :
  distinct (map fst table) = true -> NoDup (codes (table_frame inj label table)).
Proof.
  intros Hd. rewrite table_frame_codes, <- (map_map fst PStr).
  apply distinct_NoDup in Hd.
  induction Hd as [|k ks Hk _ IH]; simpl; constructor; [|exact IH].
  intros Hin. apply in_map_iff in Hin as (k' & [= ->] & Hin). contradiction.
Qed.

Lemma assoc_relabel {V : Type} (k : string) (f : string -> string)
  (cols : list string) (r : list V) :
  (forall c, String.eqb k (f c) = String.eqb k c) ->
  assoc k (combine (map f cols) r) = assoc k (combine cols r).
Proof.
  intros Hf. revert r. induction cols as [|c cols IH]; intros r; [reflexivity|].
  destruct r as [|v r]; [reflexivity|].
  cbn [map combine assoc]. rewrite Hf.
  destruct (String.eqb k c); [reflexivity | apply IH].
Qed.

(** Renaming [value] leaves the [country_code] cells where they are. *)
Lemma rename_keeps_codes (df : DataFrame) (r : list pyval) :
  cell (df_rename "value" "gini" df) "country_code" r = cell df "country_code" r.
Proof.
  unfold cell, df_rename, record_cell. cbn [columns].
  rewrite assoc_relabel; [reflexivity|].
  intros c. destruct (String.eqb c "value") eqn:Hc; [|reflexivity].
  apply String.eqb_eq in Hc as ->. reflexivity.
Qed.

(** C9. Whenever [fetch_gini] returns a frame, no country code occurs
    twice in it: on the live path the frame went through
    [drop_duplicates] on [country_code], on the fallback path it lists a
    dict keyed by country code. *)
Theorem fetch_gini_codes_unique (W : World) (year_range : string) (df : DataFrame) :
  fst (fetch_gini W year_range) = Val df -> NoDup (codes df).
Proof.
  assert (Hfallback : NoDup (codes gini_fallback)).
  { rewrite gini_fallback_frame. apply table_frame_codes_unique.
    vm_compute. reflexivity. }
  unfold fetch_gini.
  destruct (parse_year_range W year_range) as [[s e]|]; [|discriminate].
  destruct (gini_frames W s e) as [all_rows out].
  destruct all_rows as [|first others]; [intros [= <-]; exact Hfallback|].
  destruct (gini_latest W (first :: others)) as [combined|] eqn:Hlatest;
    [|discriminate].
  destruct (50 <=? df_len combined)%Z; [|intros [= <-]; exact Hfallback].
  simpl. unfold df_select.
  destruct (forallb _ _); [|discriminate].
  intros [= <-]. unfold codes. cbn [rows]. rewrite map_map.
  unfold gini_latest in Hlatest.
  apply drop_duplicates_run in Hlatest as [Hstr ->].
  set (sorted := sort_values W "year" (df_concat (first :: others))) in *.
  cbn [rows df_rename].
  erewrite map_ext.
  - apply (keep_first_distinct (cell sorted "country_code") (rows sorted) Hstr).
  - intros r. cbn -[cell]. 
    change (cell {| columns := ["country_code"; "country_name"; "gini"];
                    rows := _ |} "country_code" (?a :: _)) with a.
    rewrite rename_keeps_codes. reflexivity.
Qed.

(** Live path: when every request is answered with 152 countries, the
    result is the deduplicated live data and nothing is printed. *)
Lemma fetch_gini_codes_unique_witness :
  snd (fetch_gini full_coverage "2021:2022") = []
  /\ NoDup (codes (table_frame PFloat "gini" _GINI_FALLBACK)).
Proof.
  split; [vm_compute; reflexivity|].
  apply (fetch_gini_codes_unique full_coverage "2021:2022").
  vm_compute. reflexivity.
Defined.

(** ** The report without any notebook *)

Lemma collect_sections_all_missing (H : Host) (names : list string)
  (sections : list (string * string)) (r : Run) :
  (forall name, In name names ->
                path_exists H (NOTEBOOKS_DIR H ++ "/" ++ name) = false) ->
  collect_sections H names sections r
  = (Val sections,
     {| draws := draws r;
        printed := (printed r ++ map skipping_line names)%list;
        written := written r |}).
Proof.
  revert r. induction names as [|name rest IH]; intros r Hmissing.
  - cbn [collect_sections map]. rewrite app_nil_r. now destruct r.
  - cbn [collect_sections]. rewrite (Hmissing name (or_introl eq_refl)).
    cbn [negb]. rewrite IH by (intros n Hn; apply Hmissing; now right).
    unfold print, snoc. cbn [draws printed written map].
    rewrite <- app_assoc. reflexivity.
Qed.

(** C7. When none of the notebooks of the fixed list exists, [main] ends
    normally: it prints one "Skipping" line per notebook, in order, then
    the two closing lines, and writes a single file, the page with nothing
    between its parts.  That page starts with the doctype, ends with
    [</html>], has its head, stylesheet, title and footer, an empty
    navigation block, no link to a section and no section. *)
Theorem main_without_notebooks (H : Host) :
  (forall name, In name NOTEBOOKS ->
                path_exists H (NOTEBOOKS_DIR H ++ "/" ++ name) = false) ->
  main H start
  = (Val tt,
     {| draws := 0;
        printed :=
          (map skipping_line NOTEBOOKS
           ++ [(nl ++ "Wrote combined report to " ++ DOCS_DIR H ++ "/report.html")%string;
               ("  File size: " ++ thousands (st_size H (report_page [] []))
                ++ " bytes")%string])%list;
        written := [(DOCS_DIR H ++ "/report.html", report_page [] [])] |})
  /\ report_page [] [] = page_head ++ page_middle ++ page_tail
  /\ startswith (report_page [] []) "<!DOCTYPE html>" = true
  /\ endswith (report_page [] []) "</html>" = true
  /\ forallb (fun part => str_contains part (report_page [] []))
             ["<head>"; "<style>"; "</style>"; "</head>"; "<h1>"; "<footer>"; empty_nav]
     = true
  /\ str_contains "<a href" (report_page [] []) = false
  /\ str_contains "<section" (report_page [] []) = false.
Proof.
  intros Hmissing. split.
  - unfold main. rewrite (collect_sections_all_missing H NOTEBOOKS [] start Hmissing).
    cbn [render_sections]. unfold print, write_text, snoc, start.
    cbn [draws printed written app]. rewrite <- app_assoc. reflexivity.
  - repeat split; vm_compute; reflexivity.
Qed.

(** A host without any file. *)
Lemma main_without_notebooks_witness :
  written (snd (main bare_host start)) = [("/repo/docs/report.html", report_page [] [])]
  /\ fst (main bare_host start) = Val tt
  /\ List.length (printed (snd (main bare_host start))) = 29%nat.
Proof.
  destruct (main_without_notebooks bare_host) as [Hrun _].
  - intros name Hin. reflexivity.
  - rewrite Hrun. repeat split.
Defined.

(** ** Drawing identifiers *)

Ltac split_outcome :=
  repeat match goal with
         | |- context [and_then ?m _] => destruct m; cbn [and_then]
         | |- context [if ?b then _ else _] => destruct b
         end.

Lemma for_each_drawing_grows {A B : Type}
  (step : list B -> A -> nat -> outcome (list B) * nat) :
  grows step -> forall xs, grows (fun acc (_ : unit) n => for_each_drawing step xs acc n).
Proof.
  intros Hstep xs. induction xs as [|x rest IH]; intros acc [] n acc' n'; cbn [for_each_drawing].
  - intros [= <- <-]. lia.
  - destruct (step acc x n) as [[acc1|e] k] eqn:Hx; [|discriminate].
    intros Hrest. destruct (Hstep _ _ _ _ _ Hx). destruct (IH _ tt _ _ _ Hrest). lia.
Qed.

Lemma paired_mono {A S : Type} (step : S -> A -> nat -> outcome S * nat) :
  paired step step -> forall acc x n, (n <= snd (step acc x n))%nat.
Proof.
  intros Hp acc x n. destruct (Hp acc x n n) as [(Hn & _) | (Hn & _)]; lia.
Qed.

Lemma for_each_drawing_mono {A S : Type} (step : S -> A -> nat -> outcome S * nat) :
  (forall acc x n, (n <= snd (step acc x n))%nat) ->
  forall xs acc n, (n <= snd (for_each_drawing step xs acc n))%nat.
Proof.
  intros Hstep xs. induction xs as [|x rest IH]; intros acc n; cbn [for_each_drawing].
  - cbn [snd]. lia.
  - pose proof (Hstep acc x n) as Hx.
    destruct (step acc x n) as [[acc1|e] k]; cbn [snd] in *; [|exact Hx].
    specialize (IH acc1 k). lia.
Qed.

Lemma for_each_drawing_paired {A S : Type}
  (step step' : S -> A -> nat -> outcome S * nat) :
  paired step step' -> paired step step -> paired step' step' ->
  forall xs, paired (fun acc (_ : unit) n => for_each_drawing step xs acc n)
                    (fun acc (_ : unit) n => for_each_drawing step' xs acc n).
Proof.
  intros Hp Hs Hs' xs.
  pose proof (for_each_drawing_mono step (paired_mono step Hs)) as Hmono.
  pose proof (for_each_drawing_mono step' (paired_mono step' Hs')) as Hmono'.
  induction xs as [|x rest IH]; intros acc [] n m; cbn [for_each_drawing].
  - left. cbn [fst snd]. auto.
  - destruct (Hp acc x n m) as [(Hn & Hm & Hsame) | (Hn & Hm)].
    + destruct (step acc x n) as [r k]; destruct (step' acc x m) as [r' k'].
      cbn [fst snd] in *. subst k k' r'.
      destruct r as [acc1|e]; [apply (IH acc1 tt) | left; cbn [fst snd]; auto].
    + right.
      destruct (step acc x n) as [[acc1|e] k]; destruct (step' acc x m) as [[acc1'|e'] k'];
        cbn [fst snd] in *;
        repeat match goal with
               | |- context [for_each_drawing step rest ?a ?j] =>
                   pose proof (Hmono rest a j); generalize dependent (for_each_drawing step rest a j)
               | |- context [for_each_drawing step' rest ?a ?j] =>
                   pose proof (Hmono' rest a j); generalize dependent (for_each_drawing step' rest a j)
               end; intros; cbn [snd] in *; lia.
Qed.

Lemma snoc_length {A : Type} (xs : list A) (x : A) :
  List.length (snoc xs x) = S (List.length xs).
Proof. unfold snoc. rewrite length_app. cbn [List.length]. lia. Qed.

(** Only the chart branch of an output draws, and it draws exactly once;
    every other branch ignores the host and the number of draws. *)
Lemma output_step_paired (H H' : Host) : paired (output_step H) (output_step H').
Proof.
  intros parts o n m. unfold output_step, plotly_output.
  destruct (py_get o "output_type" (PStr "")) as [otype|]; [|left; cbn [fst snd]; auto].
  destruct (py_eq_str otype "display_data" || py_eq_str otype "execute_result").
  - destruct (py_get o "data" (PDict [])) as [data|]; [|left; cbn [fst snd]; auto].
    destruct (py_in plotly_mime data) as [[|]|]; try (left; cbn [fst snd]; now auto).
    destruct (py_getitem data plotly_mime); [right | left]; cbn [fst snd]; auto.
  - destruct (py_eq_str otype "stream"); left; cbn [fst snd]; auto.
Qed.

Lemma static_output_grows (data : pyval) (parts parts' : list string) :
  static_output data parts = Val parts' ->
  (List.length parts <= List.length parts')%nat.
Proof.
  unfold static_output. split_outcome; try discriminate;
    intros [= <-]; rewrite ?snoc_length; lia.
Qed.

Lemma output_step_grows (H : Host) : grows (output_step H).
Proof.
  intros parts o n parts' n'. unfold output_step, plotly_output.
  destruct (py_get o "output_type" (PStr "")) as [otype|]; [|discriminate].
  destruct (py_eq_str otype "display_data" || py_eq_str otype "execute_result").
  - destruct (py_get o "data" (PDict [])) as [data|]; [|discriminate].
    destruct (py_in plotly_mime data) as [[|]|]; [| |discriminate].
    + destruct (py_getitem data plotly_mime) as [plotly_data|]; [|discriminate].
      split_outcome; try discriminate.
      intros [= <- <-]. rewrite snoc_length. lia.
    + intros [= Hstatic <-]. apply static_output_grows in Hstatic. lia.
  - destruct (py_eq_str otype "stream"); [|intros [= <- <-]; lia].
    split_outcome; try discriminate; intros [= <- <-]; rewrite ?snoc_length; lia.
Qed.

Lemma cell_step_paired (H H' : Host) : paired (cell_step H) (cell_step H').
Proof.
  intros parts c n m. unfold cell_step.
  destruct (py_getitem c "cell_type") as [cell_type|]; [|left; cbn [fst snd]; auto].
  destruct (py_eq_str cell_type "markdown"); [left; cbn [fst snd]; auto|].
  destruct (negb (py_eq_str cell_type "code")); [left; cbn [fst snd]; auto|].
  destruct (let* outs := py_get c "outputs" (PList []) in py_iter outs) as [outputs|];
    [|left; cbn [fst snd]; auto].
  exact (for_each_drawing_paired _ _ (output_step_paired H H') (output_step_paired H H)
           (output_step_paired H' H') outputs parts tt n m).
Qed.

Lemma cell_step_grows (H : Host) : grows (cell_step H).
Proof.
  intros parts c n parts' n'. unfold cell_step.
  destruct (py_getitem c "cell_type") as [cell_type|]; [|discriminate].
  destruct (py_eq_str cell_type "markdown").
  - split_outcome; try discriminate. intros [= <- <-]. rewrite snoc_length. lia.
  - destruct (negb (py_eq_str cell_type "code")); [intros [= <- <-]; lia|].
    destruct (let* outs := py_get c "outputs" (PList []) in py_iter outs) as [outputs|];
      [|discriminate].
    apply (for_each_drawing_grows _ (output_step_grows H) outputs parts tt).
Qed.

Lemma extract_parts_paired (H H' : Host) (nb : pyval) (n m : nat) :
  (snd (extract_parts H nb n) = n /\ snd (extract_parts H' nb m) = m
   /\ fst (extract_parts H nb n) = fst (extract_parts H' nb m))
  \/ (n < snd (extract_parts H nb n) /\ m < snd (extract_parts H' nb m))%nat.
Proof.
  unfold extract_parts.
  destruct (let* cells := py_get nb "cells" (PList []) in py_iter cells) as [cells|];
    [|left; cbn [fst snd]; auto].
  exact (for_each_drawing_paired _ _ (cell_step_paired H H') (cell_step_paired H H)
           (cell_step_paired H' H') cells [] tt n m).
Qed.

(** A run that ends without any part has drawn nothing. *)
Lemma extract_parts_none_draws_nothing (H : Host) (nb : pyval) (n n' : nat) :
  extract_parts H nb n = (Val [], n') -> n' = n.
Proof.
  unfold extract_parts.
  destruct (let* cells := py_get nb "cells" (PList []) in py_iter cells) as [cells|];
    [|discriminate].
  intros Hloop.
  destruct (for_each_drawing_grows _ (cell_step_grows H) cells [] tt n [] n' Hloop)
    as [Hle Hlen].
  cbn [List.length] in Hlen. lia.
Qed.

(** ** Repeating an extraction *)

(** A run of [extract_outputs] that draws no identifier (no chart among
    the outputs it reaches) is repeatable: any other run on the same file,
    from any number of earlier draws and with any random source, ends the
    same way, with the same fragment or the same exception, and draws
    nothing either. *)
Lemma extract_outputs_no_draw_repeatable
  (H H' : Host) (nb_path : string) (n m : nat) :
  read_text H nb_path = read_text H' nb_path ->
  (forall text, json_loads H text = json_loads H' text) ->
  snd (extract_outputs H nb_path n) = n ->
  extract_outputs H' nb_path m = (fst (extract_outputs H nb_path n), m).
Proof.
  intros Hread Hloads. unfold extract_outputs. rewrite <- Hread.
  destruct (read_text H nb_path) as [text|]; cbn [and_then]; [|reflexivity].
  rewrite <- Hloads.
  destruct (json_loads H text) as [nb|]; [|reflexivity].
  destruct (extract_parts_paired H H' nb n m) as [(Hn & Hm & Hsame) | (Hn & _)].
  - destruct (extract_parts H nb n) as [r k]; destruct (extract_parts H' nb m) as [r' k'].
    cbn [fst snd] in *. subst k k' r'. intros _. now destruct r.
  - destruct (extract_parts H nb n) as [[parts|e] k]; cbn [fst snd] in *; lia.
Qed.

(** C4, as stated, fails.  The notebook with one chart, extracted twice in
    a row on the same host, gives two fragments that differ in the [div]
    identifier: [plotly-3f2b8c1e9a7d] the first time, [plotly-a41d77f0c3b9]
    the second. *)
Lemma extract_outputs_twice_differs :
  let first := extract_outputs chart_host chart_path 0 in
  let second := extract_outputs chart_host chart_path (snd first) in
  (exists html html', fst first = Val html /\ fst second = Val html')
  /\ fst first <> fst second.
Proof.
  split.
  - eexists. eexists. split; vm_compute; reflexivity.
  - vm_compute. discriminate.
Qed.

(** ** Notebooks without fragments *)

Lemma extract_outputs_hide (path : string) (H : Host) (nb_path : string) (n : nat) :
  extract_outputs (hide path H) nb_path n = extract_outputs H nb_path n.
Proof. reflexivity. Qed.

Lemma draws_print (line : string) (r : Run) : draws (print line r) = draws r.
Proof. reflexivity. Qed.

Lemma written_print (line : string) (r : Run) : written (print line r) = written r.
Proof. reflexivity. Qed.

(** With the file at [path] giving an empty fragment, the first loop of
    [main] collects the same sections as if the file were not there. *)
Lemma collect_sections_hide (H : Host) (path : string) :
  (forall n, extract_outputs H path n = (Val EmptyString, n)) ->
  forall names sections r r',
    draws r = draws r' -> written r = written r' ->
    same_report (collect_sections H names sections r)
                (collect_sections (hide path H) names sections r').
Proof.
  intros Hempty names.
  induction names as [|name rest IH]; intros sections r r' Hdraws Hwritten;
    cbn [collect_sections]; [repeat split; assumption|].
  change (NOTEBOOKS_DIR (hide path H)) with (NOTEBOOKS_DIR H).
  set (p := NOTEBOOKS_DIR H ++ "/" ++ name).
  rewrite extract_outputs_hide, !draws_print.
  change (path_exists (hide path H) p)
    with (if String.eqb p path then false else path_exists H p).
  destruct (String.eqb p path) eqn:Hp.
  - apply String.eqb_eq in Hp. rewrite Hp. cbn [negb].
    destruct (path_exists H path); cbn [negb].
    + rewrite Hempty. cbn [str_truthy]. apply IH; [exact Hdraws | exact Hwritten].
    + apply IH; [exact Hdraws | exact Hwritten].
  - destruct (path_exists H p); cbn [negb].
    + rewrite Hdraws.
      destruct (extract_outputs H p (draws r')) as [[fragment|e] k].
      * destruct (str_truthy fragment); apply IH; auto.
      * repeat split; auto.
    + apply IH; [exact Hdraws | exact Hwritten].
Qed.

(** A code cell without outputs adds no part. *)
Lemma silent_cell_step (H : Host) (parts : list string) (c : pyval) (n : nat) :
  silent_cell c = true -> cell_step H parts c n = (Val parts, n).
Proof.
  unfold silent_cell, cell_step, py_getitem, py_get.
  destruct c as [| | | | | |kvs]; try discriminate.
  destruct (assoc "cell_type" kvs) as [[| | | |t| |]|]; try discriminate.
  intros Hs. apply andb_true_iff in Hs as [Ht Ho].
  apply String.eqb_eq in Ht. subst t.
  change (py_eq_str (PStr "code") "markdown") with false.
  change (negb (py_eq_str (PStr "code") "code")) with false.
  cbn [and_then].
  destruct (assoc "outputs" kvs) as [[| | | | |[|]|]|]; try discriminate; reflexivity.
Qed.

(** A notebook without cells, or with such cells only, has no part. *)
Lemma silent_notebook_no_parts (H : Host) (nb : pyval) (cells : list pyval) (n : nat) :
  py_get nb "cells" (PList []) = Val (PList cells) ->
  forallb silent_cell cells = true ->
  extract_parts H nb n = (Val [], n).
Proof.
  intros Hcells Hsilent. unfold extract_parts. rewrite Hcells. cbn [and_then py_iter].
  induction cells as [|c rest IH] in Hsilent |- *; [reflexivity|].
  cbn [forallb] in Hsilent. apply andb_true_iff in Hsilent as [Hc Hrest].
  cbn [for_each_drawing]. rewrite (silent_cell_step H [] c n Hc). now apply IH.
Qed.

(** C10. Let a notebook file exist and decode to a notebook whose cells
    yield no part.  Then [extract_outputs] returns the empty string
    without drawing anything, and [main] ends the same way and writes the
    same report as if the file were not there: the notebook has neither a
    section nor a navigation link. *)
Theorem empty_notebook_contributes_nothing (H : Host) (nb_path : string) (nb : pyval) :
  path_exists H nb_path = true ->
  (let* text := read_text H nb_path in json_loads H text) = Val nb ->
  (forall n, fst (extract_parts H nb n) = Val []) ->
  (forall n, extract_outputs H nb_path n = (Val EmptyString, n))
  /\ (forall r,
        fst (main H r) = fst (main (hide nb_path H) r)
        /\ written (snd (main H r)) = written (snd (main (hide nb_path H) r))).
Proof.
  intros _ Hdecode Hnone.
  assert (Hempty : forall n, extract_outputs H nb_path n = (Val EmptyString, n)).
  { intros n. unfold extract_outputs. rewrite Hdecode.
    specialize (Hnone n).
    destruct (extract_parts H nb n) as [res k] eqn:Hparts.
    cbn [fst] in Hnone. subst res.
    apply extract_parts_none_draws_nothing in Hparts as ->. reflexivity. }
  split; [exact Hempty|].
  intros r. unfold main.
  destruct (collect_sections_hide H nb_path Hempty NOTEBOOKS [] r r eq_refl eq_refl)
    as (Hsections & _ & Hwritten).
  destruct (collect_sections H NOTEBOOKS [] r) as [res r1].
  destruct (collect_sections (hide nb_path H) NOTEBOOKS [] r) as [res' r1'].
  cbn [fst snd] in Hsections, Hwritten. subst res'.
  destruct res as [sections|e]; [|split; [reflexivity | exact Hwritten]].
  destruct (render_sections 0 sections [] []) as [nav_items content_sections].
  cbn [fst snd]. split; [reflexivity|].
  rewrite !written_print. unfold write_text. cbn [written].
  rewrite Hwritten. reflexivity.
Qed.

(** A host with a plain notebook and a notebook that was never run: the
    report is the one written when the second file is not there. *)
Lemma empty_notebook_contributes_nothing_witness :
  extract_outputs two_notebooks silent_path 0 = (Val EmptyString, 0%nat)
  /\ written (snd (main two_notebooks start))
     = written (snd (main (hide silent_path two_notebooks) start)).
Proof.
  destruct (empty_notebook_contributes_nothing two_notebooks silent_path silent_notebook)
    as [Hempty Hmain].
  - reflexivity.
  - reflexivity.
  - intros n.
    now rewrite (silent_notebook_no_parts two_notebooks silent_notebook
                   [PDict [("cell_type", PStr "code"); ("outputs", PList [])]] n
                   eq_refl eq_refl).
  - split; [apply Hempty | apply Hmain].
Defined.

(** ** The shape of the combined Gini data *)

(** The frame fetched is the empty frame with the value columns, or the
    frame of the records of some entries. *)
Lemma fetch_shape (W : World) (indicator year : string) :
  fst (fetch_world_bank_indicator W indicator year) = DataFrame_columns value_columns
  \/ exists triples,
       Forall kept_triple triples
       /\ fst (fetch_world_bank_indicator W indicator year)
          = DataFrame_records (map value_record triples).
Proof.
  unfold fetch_world_bank_indicator.
  destruct (fetch_try W indicator year) as [df|e] eqn:Htry; cbn [fst]; [|now left].
  unfold fetch_try in Htry.
  destruct (requests_get W _) as [resp|]; cbn [and_then] in Htry; [|discriminate].
  destruct (raise_for_status resp); cbn [and_then] in Htry; [|discriminate].
  destruct (json resp) as [data|]; cbn [and_then] in Htry; [|discriminate].
  destruct (py_len data) as [n|]; cbn [and_then] in Htry; [|discriminate].
  destruct (n <? 2)%Z; [injection Htry as <-; now left|].
  destruct (py_item data 1) as [records|]; cbn [and_then] in Htry; [|discriminate].
  assert (Hcases : Val (DataFrame_columns value_columns) = Val df
                   \/ (let* entries := py_iter records in
                       let* acc := for_each (entry_step W) entries [] in
                       Val (DataFrame_records acc)) = Val df)
    by (destruct records; auto).
  clear Htry. destruct Hcases as [Hempty | Hloop]; [injection Hempty as <-; now left|].
  destruct (py_iter records) as [entries|]; cbn [and_then] in Hloop; [|discriminate].
  destruct (for_each (entry_step W) entries []) as [acc|] eqn:Hacc;
    cbn [and_then] in Hloop; [|discriminate].
  injection Hloop as <-.
  destruct (entry_loop_spec _ _ _ _ Hacc) as (fields & triples & _ & Hkept & ->).
  right. exists triples. split; [|reflexivity].
  assert (Hwanted : Forall (fun f => wanted f = true) (filter wanted fields))
    by (apply Forall_forall; intros f Hf; now apply filter_In in Hf).
  clear - Hkept Hwanted.
  induction Hkept as [|f t fs ts (v & _ & ->) _ IH]; [constructor|].
  apply Forall_cons_iff in Hwanted as [Hf Hfs].
  constructor; [|now apply IH].
  unfold wanted in Hf. apply andb_true_iff in Hf as [_ Hlen].
  split; [|now exists v]. cbn [fst snd].
  destruct (py_len (fst (fst f))) as [k|]; [|discriminate].
  apply Z.eqb_eq in Hlen. now subst k.
Qed.

Lemma range_down_bounds (first stop y : Z) :
  In y (range_down first stop) -> (stop < y <= first)%Z.
Proof.
  unfold range_down. intros Hin. apply in_map_iff in Hin as (i & <- & Hi).
  apply in_seq in Hi. lia.
Qed.

(** Every frame the loop collects holds rows [code, name, value, year] of
    one year of the range. *)
Lemma gini_frames_shape (W : World) (s e : Z) :
  Forall (fun df => exists y triples,
                      (s <= y <= e)%Z
                      /\ Forall kept_triple triples
                      /\ df = {| columns := gini_columns;
                                 rows := map (fun t => gini_row t y) triples |})
         (fst (gini_frames W s e)).
Proof.
  unfold gini_frames.
  assert (Hinv : forall years acc,
             Forall (fun y => (s <= y <= e)%Z) years ->
             Forall (fun df => exists y triples,
                        (s <= y <= e)%Z
                        /\ Forall kept_triple triples
                        /\ df = {| columns := gini_columns;
                                   rows := map (fun t => gini_row t y) triples |})
                    (fst acc) ->
             Forall (fun df => exists y triples,
                        (s <= y <= e)%Z
                        /\ Forall kept_triple triples
                        /\ df = {| columns := gini_columns;
                                   rows := map (fun t => gini_row t y) triples |})
                    (fst (fold_left (gini_step W) years acc))).
  { induction years as [|y rest IH]; intros [frames out] Hyears Hacc;
      cbn [fold_left]; [exact Hacc|].
    apply Forall_cons_iff in Hyears as [Hy Hrest].
    apply IH; [exact Hrest|]. unfold gini_step.
    pose proof (fetch_shape W "SI.POV.GINI" (str_of_int y)) as Hshape.
    destruct (fetch_world_bank_indicator W "SI.POV.GINI" (str_of_int y))
      as [df printed].
    cbn [fst] in Hshape.
    destruct (0 <? df_len df)%Z eqn:Hlen; cbn [fst]; [|exact Hacc].
    unfold snoc. apply Forall_app. split; [exact Hacc|].
    constructor; [|constructor].
    destruct Hshape as [-> | (triples & Hkept & ->)]; [discriminate Hlen|].
    exists y, triples. split; [exact Hy|]. split; [exact Hkept|].
    destruct triples as [|t ts]; [discriminate Hlen|].
    unfold value_record.
    rewrite DataFrame_records_uniform by discriminate.
    unfold df_assign. cbn [columns rows].
    change (existsb (String.eqb "year") ["country_code"; "country_name"; "value"])
      with false.
    cbn iota. unfold snoc, gini_columns.
    f_equal. rewrite map_map. reflexivity. }
  apply Hinv; [|constructor].
  apply Forall_forall. intros y Hy. apply range_down_bounds in Hy. lia.
Qed.

Lemma reindex_gini_frame (df : DataFrame) :
  (exists (y : Z) triples,
      df = {| columns := gini_columns; rows := map (fun t => gini_row t y) triples |}) ->
  map (fun r => map (record_cell r) gini_columns) (records_of df) = rows df.
Proof.
  intros (y & triples & ->). unfold records_of. cbn [columns rows].
  rewrite !map_map. apply map_ext. intros t. reflexivity.
Qed.

Lemma first_seen_app (seen cols more : list string) :
  first_seen seen (cols ++ more)
  = (first_seen seen cols
     ++ first_seen (rev (first_seen seen cols) ++ seen) more)%list.
Proof.
  revert seen. induction cols as [|x cols IH]; intros seen; [reflexivity|].
  cbn [app first_seen]. destruct (existsb (String.eqb x) seen); [apply IH|].
  rewrite IH. cbn [rev app]. now rewrite <- app_assoc.
Qed.

(** Frames with the same four columns are concatenated row by row. *)
Lemma concat_gini_frames (frames : list DataFrame) :
  frames <> [] ->
  Forall (fun df => exists (y : Z) triples,
                      df = {| columns := gini_columns;
                              rows := map (fun t => gini_row t y) triples |}) frames ->
  df_concat frames = {| columns := gini_columns; rows := flat_map rows frames |}.
Proof.
  intros Hne Hall.
  assert (Hrows : flat_map (fun df => map (fun r => map (record_cell r) gini_columns)
                                          (records_of df)) frames
                  = flat_map rows frames).
  { clear Hne. induction Hall as [|df rest Hdf _ IH]; [reflexivity|].
    cbn [flat_map]. now rewrite (reindex_gini_frame df Hdf), IH. }
  assert (Hcols : first_seen [] (flat_map columns frames) = gini_columns).
  { destruct frames as [|df rest]; [contradiction|].
    apply Forall_cons_iff in Hall as [(y & triples & ->) Hrest].
    cbn [flat_map columns]. rewrite first_seen_app.
    change (first_seen [] gini_columns) with gini_columns.
    rewrite first_seen_all_seen; [apply app_nil_r|].
    clear Hne Hrows.
    induction Hrest as [|df rest (y' & triples' & ->) _ IH]; [reflexivity|].
    cbn [flat_map columns]. rewrite forallb_app, IH. reflexivity. }
  unfold df_concat. now rewrite Hcols, Hrows.
Qed.

(** In the combined data of [fetch_gini] every row reads
    [code, name, value, year]: its country code, of length 3, is the first
    cell and its year, one of the years asked for, the last. *)
Lemma gini_combined_rows (W : World) (s e : Z) (r : list pyval) :
  In r (rows (df_concat (fst (gini_frames W s e)))) ->
  exists t y,
    (s <= y <= e)%Z
    /\ kept_triple t
    /\ r = gini_row t y
    /\ code_of (df_concat (fst (gini_frames W s e))) r = fst (fst t)
    /\ year_of (df_concat (fst (gini_frames W s e))) r = y.
Proof.
  pose proof (gini_frames_shape W s e) as Hshape.
  destruct (fst (gini_frames W s e)) as [|df rest] eqn:Hframes; [intros []|].
  rewrite concat_gini_frames.
  - intros Hin. cbn [rows] in Hin. apply in_flat_map in Hin as (df' & Hdf' & Hr).
    rewrite Forall_forall in Hshape.
    destruct (Hshape df' Hdf') as (y & triples & Hy & Hkept & ->).
    cbn [rows] in Hr. apply in_map_iff in Hr as (t & <- & Ht).
    rewrite Forall_forall in Hkept.
    exists t, y. split; [exact Hy|]. split; [exact (Hkept t Ht)|]. repeat split.
  - discriminate.
  - eapply Forall_impl; [|exact Hshape].
    intros df' (y & triples & _ & _ & ->). now exists y, triples.
Qed.

(** ** Latest year per country *)

Lemma range_down_In (first stop y : Z) :
  (stop < y <= first)%Z -> In y (range_down first stop).
Proof.
  intros Hy. unfold range_down. apply in_map_iff.
  exists (Z.to_nat (first - y)). split; [lia|]. apply in_seq. lia.
Qed.

(** The rows of one fetch are rows [code, name, value]. *)
Lemma gini_year_rows (W : World) (y : Z) :
  exists triples,
    Forall kept_triple triples /\ rows (gini_year W y) = map value_row triples.
Proof.
  unfold gini_year.
  destruct (fetch_shape W "SI.POV.GINI" (str_of_int y)) as [-> | (triples & Hkept & ->)].
  - exists []. split; [constructor | reflexivity].
  - exists triples. split; [exact Hkept|].
    destruct triples as [|t ts]; [reflexivity|].
    unfold value_record. now rewrite DataFrame_records_uniform by discriminate.
Qed.

(** [df["year"] = year] on the rows of one fetch. *)
Lemma assign_year (W : World) (y : Z) :
  (0 <? df_len (gini_year W y))%Z = true ->
  df_assign "year" (PInt y) (gini_year W y) = year_frame W y.
Proof.
  unfold year_frame, gini_year.
  destruct (fetch_shape W "SI.POV.GINI" (str_of_int y)) as [-> | (triples & _ & ->)];
    [discriminate|].
  destruct triples as [|t ts]; [discriminate|]. intros _.
  unfold value_record. rewrite DataFrame_records_uniform by discriminate.
  unfold df_assign. cbn [columns rows].
  change (existsb (String.eqb "year") ["country_code"; "country_name"; "value"])
    with false.
  reflexivity.
Qed.

Lemma gini_step_exact (W : World) (frames : list DataFrame) (out : list string) (y : Z) :
  gini_step W (frames, out) y
  = (if (0 <? df_len (gini_year W y))%Z then snoc frames (year_frame W y) else frames,
     (out ++ gini_year_printed W y)%list).
Proof.
  pose proof (assign_year W y) as Hassign.
  unfold gini_step, gini_year, gini_year_printed in *.
  destruct (fetch_world_bank_indicator W "SI.POV.GINI" (str_of_int y)) as [df printed].
  cbn [fst snd] in *.
  destruct (0 <? df_len df)%Z; [now rewrite Hassign | reflexivity].
Qed.

(** The loop of [fetch_gini] collects, most recent year first, the frame of
    every year that delivered a row, and prints what the fetches print. *)
Lemma gini_frames_exact (W : World) (s e : Z) :
  gini_frames W s e
  = (map (year_frame W)
         (filter (fun y => (0 <? df_len (gini_year W y))%Z) (range_down e (s - 1))),
     flat_map (gini_year_printed W) (range_down e (s - 1))).
Proof.
  unfold gini_frames.
  assert (Hloop : forall years frames out,
             fold_left (gini_step W) years (frames, out)
             = ((frames
                 ++ map (year_frame W)
                        (filter (fun y => (0 <? df_len (gini_year W y))%Z) years))%list,
                (out ++ flat_map (gini_year_printed W) years)%list)).
  { induction years as [|y rest IH]; intros frames out; cbn [fold_left filter map flat_map].
    - now rewrite !app_nil_r.
    - rewrite gini_step_exact, IH.
      destruct (0 <? df_len (gini_year W y))%Z; unfold snoc; cbn [map];
        now rewrite <- !app_assoc. }
  now rewrite Hloop.
Qed.

Lemma year_frames_rows (W : World) (years : list Z) :
  flat_map rows
    (map (year_frame W) (filter (fun y => (0 <? df_len (gini_year W y))%Z) years))
  = flat_map (fun y => rows (year_frame W y)) years.
Proof.
  induction years as [|y rest IH]; [reflexivity|].
  cbn [filter flat_map]. destruct (0 <? df_len (gini_year W y))%Z eqn:Hlen.
  - cbn [map flat_map]. now rewrite IH.
  - rewrite IH. unfold year_frame at 2. cbn [rows].
    unfold df_len in Hlen. destruct (rows (gini_year W y)); [reflexivity|].
    cbn [List.length] in Hlen. apply Z.ltb_ge in Hlen. lia.
Qed.

(** The concatenation holds, for every year from [e] down to [s], the
    rows of that year with the year as their fourth cell. *)
Lemma combined_exact (W : World) (s e : Z) :
  fst (gini_frames W s e) <> [] ->
  df_concat (fst (gini_frames W s e))
  = {| columns := gini_columns;
       rows := flat_map (fun y => rows (year_frame W y)) (range_down e (s - 1)) |}.
Proof.
  intros Hne. rewrite concat_gini_frames; [|exact Hne|].
  - rewrite gini_frames_exact. cbn [fst]. now rewrite year_frames_rows.
  - eapply Forall_impl; [|exact (gini_frames_shape W s e)].
    intros df (y & triples & _ & _ & ->). now exists y, triples.
Qed.

Lemma combined_row (W : World) (s e : Z) (r : list pyval) :
  In r (flat_map (fun y => rows (year_frame W y)) (range_down e (s - 1)))
  <-> exists code name value y,
        r = [code; name; value; PInt y]
        /\ (s <= y <= e)%Z
        /\ In [code; name; value] (rows (gini_year W y)).
Proof.
  split.
  - intros Hin. apply in_flat_map in Hin as (y & Hy & Hr).
    apply range_down_bounds in Hy. unfold year_frame in Hr. cbn [rows] in Hr.
    apply in_map_iff in Hr as (r0 & <- & Hr0).
    destruct (gini_year_rows W y) as (triples & _ & Hrows).
    pose proof Hr0 as Hshape. rewrite Hrows in Hshape.
    apply in_map_iff in Hshape as ([[code name] value] & <- & _).
    exists code, name, value, y. split; [reflexivity|]. split; [lia | exact Hr0].
  - intros (code & name & value & y & -> & Hy & Hin).
    apply in_flat_map. exists y. split; [apply range_down_In; lia|].
    unfold year_frame. cbn [rows]. apply in_map_iff.
    exists [code; name; value]. split; [reflexivity | exact Hin].
Qed.

Lemma gini_latest_needs_frames (W : World) :
  sorts_descending (sort_values W) -> exists e, gini_latest W [] = Exc e.
Proof.
  intros Hsort. unfold gini_latest, df_drop_duplicates.
  destruct (Hsort "year" (df_concat [])) as (Hcols & _).
  rewrite Hcols. cbn. eauto.
Qed.

Lemma gini_latest_total (W : World) (frames : list DataFrame) :
  sorts_descending (sort_values W) ->
  frames <> [] ->
  Forall (fun df => columns df = gini_columns) frames ->
  string_codes (df_concat frames) ->
  exists latest,
    gini_latest W frames = Val latest
    /\ columns latest = columns (df_concat frames).
Proof.
  intros Hsort Hne Hcolumns Hstr.
  set (combined := df_concat frames) in *.
  destruct (Hsort "year" combined) as (Hcols & Hperm & _).
  set (sorted := sort_values W "year" combined) in *.
  pose proof (cell_by_columns sorted combined Hcols) as Hcell.
  assert (Hcode : In "country_code" (columns sorted)).
  { rewrite Hcols. now apply concat_has_country_code. }
  assert (Hstr' : Forall (fun r => exists k, cell sorted "country_code" r = PStr k)
                         (rows sorted)).
  { rewrite Hcell. eapply Permutation_Forall; [symmetry; exact Hperm | exact Hstr]. }
  eexists. split; [exact (drop_duplicates_total _ _ Hcode Hstr')|].
  exact Hcols.
Qed.

(** What sorting and dropping duplicates leave of the frames of the loop,
    told in terms of what each year delivered. *)
Lemma gini_latest_rows (W : World) (s e : Z) (latest : DataFrame) :
  sorts_descending (sort_values W) ->
  gini_latest W (fst (gini_frames W s e)) = Val latest ->
  columns latest = gini_columns
  /\ NoDup (codes latest)
  /\ (forall code y, seen_in W s e code y ->
        exists name value y', In [code; name; value; PInt y'] (rows latest))
  /\ (forall r', In r' (rows latest) ->
        exists code name value y,
          r' = [code; name; value; PInt y]
          /\ (s <= y <= e)%Z
          /\ In [code; name; value] (rows (gini_year W y))
          /\ forall y', seen_in W s e code y' -> (y' <= y)%Z).
Proof.
  intros Hsort Hlatest.
  assert (Hne : fst (gini_frames W s e) <> []).
  { intros Hnil. rewrite Hnil in Hlatest.
    destruct (gini_latest_needs_frames W Hsort) as (x & Hx). congruence. }
  unfold gini_latest in Hlatest. rewrite (combined_exact W s e Hne) in Hlatest.
  pose proof (combined_row W s e) as Hrow.
  set (all_rows := flat_map (fun y => rows (year_frame W y)) (range_down e (s - 1))) in *.
  set (combined := {| columns := gini_columns; rows := all_rows |}) in *.
  destruct (Hsort "year" combined) as (Hcols & Hperm & Hsorted).
  apply drop_duplicates_run in Hlatest as [Hstr ->].
  set (sorted := sort_values W "year" combined) in *.
  pose proof (cell_by_columns sorted combined Hcols) as Hcell.
  destruct (keep_first_latest (cell sorted "country_code") (int_cell combined "year")
              (rows sorted) Hstr Hsorted) as [Hevery Hfirst].
  cbn [columns rows].
  split; [exact Hcols|].
  split.
  { unfold codes. cbn [rows columns].
    rewrite (cell_by_columns {| columns := columns sorted; rows := _ |} sorted eq_refl).
    exact (keep_first_distinct _ _ Hstr). }
  split.
  - intros code y (Hy & name & value & Hin).
    assert (Hr : In [code; name; value; PInt y] (rows sorted)).
    { eapply Permutation_in; [symmetry; exact Hperm|]. apply Hrow. now eauto 8. }
    destruct (Hevery _ Hr) as (r' & Hkept & Hsame).
    destruct (Hfirst r' Hkept) as [Hin' _].
    assert (Hcomb : In r' all_rows) by (eapply Permutation_in; [exact Hperm | exact Hin']).
    apply Hrow in Hcomb as (code' & name' & value' & y' & -> & _ & _).
    rewrite Hcell in Hsame.
    change (code' = code) in Hsame. subst code'.
    now exists name', value', y'.
  - intros r' Hkept. destruct (Hfirst r' Hkept) as [Hin' Hmax].
    assert (Hcomb : In r' all_rows) by (eapply Permutation_in; [exact Hperm | exact Hin']).
    apply Hrow in Hcomb as (code & name & value & y & -> & Hy & Hin).
    exists code, name, value, y. repeat split; try assumption; try lia.
    intros y' (Hy' & name' & value' & Hin2).
    assert (Hr : In [code; name'; value'; PInt y'] (rows sorted)).
    { eapply Permutation_in; [symmetry; exact Hperm|]. apply Hrow. now eauto 8. }
    specialize (Hmax _ Hr). rewrite Hcell in Hmax. exact (Hmax eq_refl).
Qed.

(** C1. Let the years from [s] to [e] be fetched, at least one of them
    delivering a row, the country codes being strings.  Sorting the
    collected frames by year and dropping duplicates returns a frame with
    the columns [country_code], [country_name], [value], [year] in which no
    country code occurs twice; every country that has a value in some year
    of the range has a row; and every row reads [code, name, value, y]
    where [code, name, value] is a row the API delivered for the year [y]
    and [y] is the highest year of the range in which that country has a
    value. *)
Theorem gini_keeps_latest_year_per_country (W : World) (s e : Z) :
  sorts_descending (sort_values W) ->
  (exists y, (s <= y <= e)%Z /\ rows (gini_year W y) <> []) ->
  (forall code y, seen_in W s e code y -> exists k, code = PStr k) ->
  exists latest,
    gini_latest W (fst (gini_frames W s e)) = Val latest
    /\ columns latest = gini_columns
    /\ NoDup (codes latest)
    /\ (forall code y, seen_in W s e code y ->
          exists name value y', In [code; name; value; PInt y'] (rows latest))
    /\ (forall r', In r' (rows latest) ->
          exists code name value y,
            r' = [code; name; value; PInt y]
            /\ (s <= y <= e)%Z
            /\ In [code; name; value] (rows (gini_year W y))
            /\ forall y', seen_in W s e code y' -> (y' <= y)%Z).
Proof.
  intros Hsort (y0 & Hy0 & Hrows0) Hstr.
  assert (Hne : fst (gini_frames W s e) <> []).
  { rewrite gini_frames_exact. cbn [fst]. intros Hnil. apply map_eq_nil in Hnil.
    assert (Hin : In y0 (filter (fun y => (0 <? df_len (gini_year W y))%Z)
                                (range_down e (s - 1)))).
    { apply filter_In. split; [apply range_down_In; lia|].
      apply Z.ltb_lt. unfold df_len.
      destruct (rows (gini_year W y0)); [contradiction | cbn [List.length]; lia]. }
    rewrite Hnil in Hin. exact Hin. }
  assert (Hcodes : string_codes (df_concat (fst (gini_frames W s e)))).
  { rewrite (combined_exact W s e Hne). unfold string_codes. cbn [rows].
    apply Forall_forall. intros r Hr.
    apply combined_row in Hr as (code & name & value & y & -> & Hy & Hin).
    destruct (Hstr code y) as (k & ->); [split; [exact Hy | eauto]|].
    now exists k. }
  destruct (gini_latest_total W _ Hsort Hne (gini_frames_columns W s e) Hcodes)
    as (latest & Hlatest & _).
  exists latest. split; [exact Hlatest|].
  exact (gini_latest_rows W s e latest Hsort Hlatest).
Qed.

(** The three-year sample: USA has a value in 2022, 2021 and 2020 and keeps
    the one of 2022; FRA has one in 2022 only; DEU has one in 2021 and
    2020 and keeps the one of 2021. *)
Lemma gini_keeps_latest_year_per_country_witness :
  gini_latest three_years (fst (gini_frames three_years 2018 2022))
  = Val {| columns := gini_columns;
           rows := [[PStr "USA"; PStr "United States"; PFloat 39.8; PInt 2022];
                    [PStr "FRA"; PStr "France"; PFloat 31.6; PInt 2022];
                    [PStr "DEU"; PStr "Germany"; PFloat 31.7; PInt 2021]] |}
  /\ exists latest,
       gini_latest three_years (fst (gini_frames three_years 2018 2022)) = Val latest
       /\ columns latest = gini_columns
       /\ NoDup (codes latest)
       /\ (forall code y, seen_in three_years 2018 2022 code y ->
             exists name value y', In [code; name; value; PInt y'] (rows latest))
       /\ (forall r', In r' (rows latest) ->
             exists code name value y,
               r' = [code; name; value; PInt y]
               /\ (2018 <= y <= 2022)%Z
               /\ In [code; name; value] (rows (gini_year three_years y))
               /\ forall y', seen_in three_years 2018 2022 code y' -> (y' <= y)%Z).
Proof.
  split; [vm_compute; reflexivity|].
  apply (gini_keeps_latest_year_per_country three_years 2018 2022 sample_sort_sorts).
  - exists 2022%Z. split; [lia | vm_compute; discriminate].
  - intros code y (Hy & name & value & Hin).
    assert (Hyear : y = 2018%Z \/ y = 2019%Z \/ y = 2020%Z \/ y = 2021%Z \/ y = 2022%Z)
      by lia.
    destruct Hyear as [-> | [-> | [-> | [-> | ->]]]]; vm_compute in Hin;
      repeat (destruct Hin as [Hrow | Hin];
              [injection Hrow as <- _ _; eexists; reflexivity|]);
      contradiction.
Defined.

(** ** Extraction up to the identifiers drawn *)

Lemma same_identifiers_shift (H H' : Host) (n m k : nat) :
  same_identifiers H H' n m -> same_identifiers H H' (n + k) (m + k).
Proof.
  intros Hsame i. rewrite <- !Nat.add_assoc. apply Hsame.
Qed.

Lemma for_each_drawing_synchronised {A S : Type} (ok : nat -> nat -> Prop)
  (step step' : S -> A -> nat -> outcome S * nat) :
  (forall n m k, ok n m -> ok (n + k) (m + k))%nat ->
  synchronised ok step step' ->
  forall xs, synchronised ok (fun acc (_ : unit) n => for_each_drawing step xs acc n)
                            (fun acc (_ : unit) n => for_each_drawing step' xs acc n).
Proof.
  intros Hshift Hstep xs.
  induction xs as [|x rest IH]; intros acc [] n m Hok; cbn [for_each_drawing].
  - split; [reflexivity|]. exists 0%nat. cbn [snd]. lia.
  - destruct (Hstep acc x n m Hok) as (Hsame & k & Hn & Hm).
    destruct (step acc x n) as [r j]; destruct (step' acc x m) as [r' j'].
    cbn [fst snd] in *. subst r' j j'.
    destruct r as [acc1|e].
    + destruct (IH acc1 tt _ _ (Hshift n m k Hok)) as (Hrest & k' & Hn' & Hm').
      split; [exact Hrest|]. exists (k + k')%nat. lia.
    + split; [reflexivity|]. exists k. cbn [snd]. lia.
Qed.

Lemma output_step_synchronised (H H' : Host) :
  (forall v, json_dumps H v = json_dumps H' v) ->
  synchronised (same_identifiers H H') (output_step H) (output_step H').
Proof.
  intros Hdumps parts o n m Hids.
  pose proof (Hids 0%nat) as Hid. rewrite !Nat.add_0_r in Hid.
  assert (Hstay : forall r : outcome (list string),
             fst (r, n) = fst (r, m)
             /\ exists k, snd (r, n) = (n + k)%nat /\ snd (r, m) = (m + k)%nat)
    by (intros r; split; [reflexivity | exists 0%nat; cbn [snd]; lia]).
  unfold output_step, plotly_output.
  destruct (py_get o "output_type" (PStr "")) as [otype|]; [|apply Hstay].
  destruct (py_eq_str otype "display_data" || py_eq_str otype "execute_result").
  - destruct (py_get o "data" (PDict [])) as [data|]; [|apply Hstay].
    destruct (py_in plotly_mime data) as [[|]|]; try apply Hstay.
    destruct (py_getitem data plotly_mime) as [plotly_data|]; [|apply Hstay].
    rewrite Hid. cbn [fst snd]. split.
    + destruct (py_get plotly_data "data" (PList [])) as [traces|]; [|reflexivity].
      cbn [and_then]. rewrite Hdumps.
      destruct (plotly_layout plotly_data) as [layout|]; [|reflexivity].
      cbn [and_then]. now rewrite Hdumps.
    + exists 1%nat. lia.
  - destruct (py_eq_str otype "stream"); apply Hstay.
Qed.

Lemma cell_step_synchronised (H H' : Host) :
  (forall v, json_dumps H v = json_dumps H' v) ->
  synchronised (same_identifiers H H') (cell_step H) (cell_step H').
Proof.
  intros Hdumps parts c n m Hids.
  assert (Hstay : forall r : outcome (list string),
             fst (r, n) = fst (r, m)
             /\ exists k, snd (r, n) = (n + k)%nat /\ snd (r, m) = (m + k)%nat)
    by (intros r; split; [reflexivity | exists 0%nat; cbn [snd]; lia]).
  unfold cell_step.
  destruct (py_getitem c "cell_type") as [cell_type|]; [|apply Hstay].
  destruct (py_eq_str cell_type "markdown"); [apply Hstay|].
  destruct (negb (py_eq_str cell_type "code")); [apply Hstay|].
  destruct (let* outs := py_get c "outputs" (PList []) in py_iter outs) as [outputs|];
    [|apply Hstay].
  exact (for_each_drawing_synchronised _ _ _ (same_identifiers_shift H H')
           (output_step_synchronised H H' Hdumps) outputs parts tt n m Hids).
Qed.

(** Two runs on the same file that are handed the same identifiers give
    the same fragment: the random source is all that can tell them apart. *)
Lemma extract_outputs_same_identifiers (H H' : Host) (nb_path : string) (n m : nat) :
  read_text H nb_path = read_text H' nb_path ->
  (forall text, json_loads H text = json_loads H' text) ->
  (forall v, json_dumps H v = json_dumps H' v) ->
  same_identifiers H H' n m ->
  fst (extract_outputs H nb_path n) = fst (extract_outputs H' nb_path m).
Proof.
  intros Hread Hloads Hdumps Hids. unfold extract_outputs. rewrite <- Hread.
  destruct (read_text H nb_path) as [text|]; cbn [and_then]; [|reflexivity].
  rewrite <- Hloads.
  destruct (json_loads H text) as [nb|]; [|reflexivity].
  unfold extract_parts.
  destruct (let* cells := py_get nb "cells" (PList []) in py_iter cells) as [cells|];
    [|reflexivity].
  destruct (for_each_drawing_synchronised _ _ _ (same_identifiers_shift H H')
              (cell_step_synchronised H H' Hdumps) cells [] tt n m Hids)
    as (Hsame & _).
  destruct (for_each_drawing (cell_step H) cells [] n) as [r k].
  destruct (for_each_drawing (cell_step H') cells [] m) as [r' k'].
  cbn [fst] in *. subst r'. now destruct r.
Qed.

(** C4, as the code has it.  Extraction is deterministic up to the
    identifiers of the charts.  For two runs of [extract_outputs] on the
    same unchanged file: if both are handed the same identifiers, they end
    with the same fragment (or the same exception); and if one of them
    draws no identifier, because it reaches no chart, the other ends the
    same way whatever its random source, and draws none either. *)
Theorem extract_outputs_deterministic_up_to_identifiers
  (H H' : Host) (nb_path : string) (n m : nat) :
  read_text H nb_path = read_text H' nb_path ->
  (forall text, json_loads H text = json_loads H' text) ->
  (forall v, json_dumps H v = json_dumps H' v) ->
  (same_identifiers H H' n m ->
   fst (extract_outputs H nb_path n) = fst (extract_outputs H' nb_path m))
  /\ (snd (extract_outputs H nb_path n) = n ->
      extract_outputs H' nb_path m = (fst (extract_outputs H nb_path n), m)).
Proof.
  intros Hread Hloads Hdumps. split.
  - now apply extract_outputs_same_identifiers.
  - now apply extract_outputs_no_draw_repeatable.
Qed.

(** The chart notebook read twice with the same identifier at hand, and
    the notebook with a heading and a stream read again after seven draws
    with another random source. *)
Lemma extract_outputs_deterministic_up_to_identifiers_witness :
  fst (extract_outputs chart_host chart_path 1)
  = fst (extract_outputs chart_host chart_path 2)
  /\ extract_outputs (reseeded two_notebooks) plain_path 7
     = (fst (extract_outputs two_notebooks plain_path 0), 7%nat).
Proof.
  split.
  - apply (extract_outputs_deterministic_up_to_identifiers chart_host chart_host
             chart_path 1 2); try reflexivity.
    intros i. reflexivity.
  - apply (extract_outputs_deterministic_up_to_identifiers two_notebooks
             (reseeded two_notebooks) plain_path 0 7); reflexivity.
Defined.

(** * Further properties of data_utils.py *)

(** ** What the wrappers always deliver *)

(** X1. Whatever the network does, [fetch_population] returns a frame with
    the columns [country_code], [country_name], [population], rows of three
    cells, and at least 100 rows: the live data when it has that many, the
    169 rows of the fallback table otherwise. *)
Theorem fetch_population_schema_and_size (W : World) (year : string) :
  columns (fst (fetch_population W year))
  = ["country_code"; "country_name"; "population"]
  /\ (100 <= df_len (fst (fetch_population W year)))%Z
  /\ Forall (fun r => List.length r = 3%nat) (rows (fst (fetch_population W year))).
Proof.
  unfold fetch_population.
  pose proof (fetch_shape W "SP.POP.TOTL" year) as Hshape.
  destruct (fetch_world_bank_indicator W "SP.POP.TOTL" year) as [df out].
  cbn [fst] in Hshape.
  destruct (100 <=? df_len df)%Z eqn:Hlen; cbn [fst].
  - destruct Hshape as [-> | (triples & _ & ->)]; [discriminate Hlen|].
    destruct triples as [|t ts]; [discriminate Hlen|].
    apply Z.leb_le in Hlen. revert Hlen. unfold value_record.
    rewrite DataFrame_records_uniform by discriminate.
    unfold df_len, df_rename. cbn [rows columns]. intros Hlen.
    split; [reflexivity|]. split; [exact Hlen|].
    apply Forall_forall. intros r Hr. apply in_map_iff in Hr as (t' & <- & _).
    reflexivity.
  - rewrite table_frame_records by discriminate.
    unfold table_frame, df_len. cbn [rows columns]. rewrite length_map.
    split; [reflexivity|]. split; [vm_compute; discriminate|].
    apply Forall_forall. intros r Hr. apply in_map_iff in Hr as (item & <- & _).
    reflexivity.
Qed.

(** X2. Whenever [fetch_gini] returns a frame, it has the columns
    [country_code], [country_name], [gini], rows of three cells, and at
    least 50 rows. *)
Theorem fetch_gini_schema_and_size (W : World) (year_range : string) (df : DataFrame) :
  fst (fetch_gini W year_range) = Val df ->
  columns df = ["country_code"; "country_name"; "gini"]
  /\ (50 <= df_len df)%Z
  /\ Forall (fun r => List.length r = 3%nat) (rows df).
Proof.
  assert (Hfallback : columns gini_fallback = ["country_code"; "country_name"; "gini"]
                      /\ (50 <= df_len gini_fallback)%Z
                      /\ Forall (fun r => List.length r = 3%nat) (rows gini_fallback)).
  { rewrite gini_fallback_frame. unfold table_frame, df_len. cbn [rows columns].
    rewrite length_map. split; [reflexivity|]. split; [vm_compute; discriminate|].
    apply Forall_forall. intros r Hr. apply in_map_iff in Hr as (item & <- & _).
    reflexivity. }
  unfold fetch_gini.
  destruct (parse_year_range W year_range) as [[s e]|]; [|discriminate].
  destruct (gini_frames W s e) as [all_rows out].
  destruct all_rows as [|first others]; [intros [= <-]; exact Hfallback|].
  destruct (gini_latest W (first :: others)) as [combined|]; [|discriminate].
  destruct (50 <=? df_len combined)%Z eqn:Hlen; [|intros [= <-]; exact Hfallback].
  cbn [fst]. unfold df_select.
  destruct (forallb _ _); [|discriminate].
  intros [= <-]. cbn [columns rows]. split; [reflexivity|]. split.
  - apply Z.leb_le in Hlen. unfold df_len in *. cbn [rows df_rename].
    now rewrite length_map.
  - apply Forall_forall. intros r Hr. apply in_map_iff in Hr as (r0 & <- & _).
    reflexivity.
Qed.

(** Live data for 152 countries: three columns, 152 rows. *)
Lemma fetch_gini_schema_and_size_witness :
  columns (table_frame PFloat "gini" _GINI_FALLBACK)
  = ["country_code"; "country_name"; "gini"]
  /\ (50 <= df_len (table_frame PFloat "gini" _GINI_FALLBACK))%Z
  /\ Forall (fun r => List.length r = 3%nat)
            (rows (table_frame PFloat "gini" _GINI_FALLBACK)).
Proof.
  apply (fetch_gini_schema_and_size full_coverage "2021:2022").
  vm_compute. reflexivity.
Defined.

(** X3. A frame returned by [fetch_world_bank_indicator] with at least one
    row has the three columns of the docstring, and each of its rows
    holds a code of length 3, a name and a float. *)
Theorem fetch_rows_have_schema (W : World) (indicator year : string) (r : list pyval) :
  In r (rows (fst (fetch_world_bank_indicator W indicator year))) ->
  columns (fst (fetch_world_bank_indicator W indicator year)) = value_columns
  /\ exists code name v,
       r = [code; name; PFloat v] /\ py_len code = Val 3%Z.
Proof.
  destruct (fetch_shape W indicator year) as [-> | (triples & Hkept & ->)];
    [intros []|].
  rewrite rows_records_uniform. intros Hr.
  apply in_map_iff in Hr as (t & <- & Ht). split.
  - apply columns_records_uniform. intros ->. contradiction.
  - rewrite Forall_forall in Hkept. destruct (Hkept t Ht) as [Hlen (v & Hv)].
    exists (fst (fst t)), (snd (fst t)), v. split; [|exact Hlen].
    unfold value_row. now rewrite Hv.
Qed.

(** The first row served by the four-entry sample. *)
Lemma fetch_rows_have_schema_witness :
  columns (fst (fetch_world_bank_indicator serving_four "SI.POV.GINI" "2022"))
  = value_columns
  /\ exists code name v,
       [PStr "USA"; PStr "United States"; PFloat 39.8] = [code; name; PFloat v]
       /\ py_len code = Val 3%Z.
Proof.
  apply (fetch_rows_have_schema serving_four "SI.POV.GINI" "2022").
  left. reflexivity.
Defined.

(** ** Year ranges *)

Lemma str_split_length (sep : ascii) (s : string) :
  List.length (str_split sep s) = S (count_char sep s).
Proof.
  induction s as [|c rest IH]; [reflexivity|].
  cbn [str_split count_char]. destruct (Ascii.eqb c sep); cbn [List.length Nat.add].
  - now rewrite IH.
  - destruct (str_split sep rest) as [|h t]; [discriminate IH|exact IH].
Qed.

(** X4. A year range that does not hold exactly one colon makes
    [fetch_gini] raise ValueError before any request is made and before
    anything is printed. *)
Theorem fetch_gini_rejects_malformed_range (W : World) (year_range : string) :
  count_char ":"%char year_range <> 1%nat ->
  fetch_gini W year_range = (Exc ValueError, []).
Proof.
  intros Hcolons. unfold fetch_gini, parse_year_range.
  pose proof (str_split_length ":"%char year_range) as Hlen.
  destruct (str_split ":"%char year_range) as [|a [|b [|c more]]];
    try reflexivity.
  cbn [List.length] in Hlen. congruence.
Qed.

Lemma fetch_gini_rejects_malformed_range_witness :
  fetch_gini full_coverage "2018-2022" = (Exc ValueError, [])
  /\ fetch_gini full_coverage "2018:2020:2022" = (Exc ValueError, []).
Proof.
  split; apply fetch_gini_rejects_malformed_range; vm_compute; discriminate.
Defined.

(** X5. When the range ends before it starts, the loop over the years has
    no turn: [fetch_gini] returns the fallback table and prints the
    fallback line only, whatever the network would have answered. *)
Theorem fetch_gini_empty_range_falls_back (W : World) (year_range : string) (s e : Z) :
  parse_year_range W year_range = Val (s, e) ->
  (e < s)%Z ->
  fetch_gini W year_range
  = (Val (table_frame PFloat "gini" _GINI_FALLBACK), [gini_fallback_message]).
Proof.
  intros Hparse Hlt. unfold fetch_gini. rewrite Hparse.
  unfold gini_frames, range_down.
  replace (Z.to_nat (e - (s - 1))) with 0%nat by lia.
  cbn [seq map fold_left]. now rewrite gini_fallback_frame.
Qed.

(** The world that serves live data for every year, asked for 2022 down
    to 2023. *)
Lemma fetch_gini_empty_range_falls_back_witness :
  fetch_gini full_coverage "2023:2022"
  = (Val (table_frame PFloat "gini" _GINI_FALLBACK), [gini_fallback_message]).
Proof.
  apply (fetch_gini_empty_range_falls_back full_coverage "2023:2022" 2023 2022).
  - reflexivity.
  - lia.
Defined.

(** ** Answers the fetcher turns into an empty frame *)

Lemma item_1_needs_two (data records : pyval) :
  py_item data 1 = Val records -> exists n, py_len data = Val n /\ (2 <= n)%Z.
Proof.
  destruct data as [| | | |s|l|d]; cbn [py_item]; try discriminate; intros Hitem.
  - exists (Z.of_nat (String.length s)). split; [reflexivity|].
    destruct s as [|c [|c' s]]; cbn in Hitem; try discriminate.
    cbn [String.length]. lia.
  - exists (Z.of_nat (List.length l)). split; [reflexivity|].
    destruct l as [|a [|b l]]; cbn in Hitem; try discriminate.
    cbn [List.length]. lia.
Qed.

Lemma entry_step_unusable (W : World) (entry : pyval) :
  unusable W entry -> forall acc, exists e, entry_step W acc entry = Exc e.
Proof.
  intros Hbad acc. unfold entry_step.
  destruct Hbad as [(e & Hfields) | (f & Hfields & Hval & Hbad)];
    unfold entry_fields in Hfields;
    destruct (py_get entry "country" (PDict [])) as [country|];
    cbn [and_then] in *; eauto; try discriminate;
    destruct (py_get country "id" (PStr "")) as [code|];
    cbn [and_then] in *; eauto; try discriminate;
    destruct (py_get country "value" (PStr "")) as [name|];
    cbn [and_then] in *; eauto; try discriminate;
    destruct (py_get entry "value" PNone) as [val|];
    cbn [and_then] in *; eauto; try discriminate.
  injection Hfields as <-. cbn [fst snd] in *.
  assert (Hrun : exists e,
             (let* n := py_len code in
              if (n =? 3)%Z
              then let* v := float_of W val in
                   Val (snoc acc [("country_code", code);
                                  ("country_name", name);
                                  ("value", PFloat v)])
              else Val acc) = Exc e).
  { destruct Hbad as [(e & ->) | (-> & e & Hfloat)]; cbn [and_then]; [eauto|].
    change (3 =? 3)%Z with true. cbn iota. rewrite Hfloat. cbn [and_then]. eauto. }
  destruct val; try discriminate Hval; exact Hrun.
Qed.

Lemma for_each_stops {A S : Type} (step : S -> A -> outcome S) (x : A) (xs : list A) :
  In x xs ->
  (forall acc, exists e, step acc x = Exc e) ->
  forall acc, exists e, for_each step xs acc = Exc e.
Proof.
  intros Hin Hx. induction xs as [|y rest IH]; intros acc; [contradiction|].
  cbn [for_each]. destruct Hin as [-> | Hin].
  - destruct (Hx acc) as (e & ->). cbn [and_then]. eauto.
  - destruct (step acc y) as [acc'|e]; cbn [and_then]; [now apply IH | eauto].
Qed.

(** X6. The fetcher takes all or nothing: one unusable entry among the
    records makes the whole answer an empty frame with a diagnostic, however
    many complete entries surround it. *)
Theorem fetch_all_or_nothing (W : World) (indicator year : string)
  (resp : Response) (data records entry : pyval) (entries : list pyval) :
  requests_get W (world_bank_url indicator year) = Val resp ->
  raise_for_status resp = Val tt ->
  json resp = Val data ->
  py_item data 1 = Val records ->
  py_iter records = Val entries ->
  In entry entries ->
  unusable W entry ->
  exists e,
    fetch_world_bank_indicator W indicator year
    = ({| columns := value_columns; rows := [] |}, [api_error_line W indicator e]).
Proof.
  intros Hget Hstatus Hjson Hitem Hiter Hin Hbad.
  destruct (item_1_needs_two _ _ Hitem) as (n & Hlen & Hn).
  destruct (for_each_stops (entry_step W) entry entries Hin
              (entry_step_unusable W entry Hbad) []) as (e & Hloop).
  exists e. unfold fetch_world_bank_indicator, fetch_try.
  rewrite Hget. cbn [and_then]. rewrite Hstatus. cbn [and_then].
  rewrite Hjson. cbn [and_then]. rewrite Hlen. cbn [and_then].
  apply Z.ltb_ge in Hn. rewrite Hn, Hitem. cbn [and_then].
  assert (Htry : (let* entries := py_iter records in
                  let* acc := for_each (entry_step W) entries [] in
                  Val (DataFrame_records acc)) = Exc e)
    by (rewrite Hiter; cbn [and_then]; rewrite Hloop; reflexivity).
  destruct records; try discriminate Hiter; cbn iota; rewrite Htry; reflexivity.
Qed.

(** A value given as text after a complete entry: nothing is kept. *)
Lemma fetch_all_or_nothing_witness :
  exists e,
    fetch_world_bank_indicator spoiled "SI.POV.GINI" "2022"
    = ({| columns := value_columns; rows := [] |},
       [api_error_line spoiled "SI.POV.GINI" e]).
Proof.
  eapply (fetch_all_or_nothing spoiled "SI.POV.GINI" "2022" _ _ _
            (api_entry "FRA" "France" (PStr "n/a"))); try reflexivity.
  - right. left. reflexivity.
  - right. eexists. split; [reflexivity|]. split; [reflexivity|].
    right. split; [reflexivity|]. eexists. reflexivity.
Defined.

(** X7. An answer that is no exception but holds no records (an envelope
    of fewer than two items, as the API sends when it rejects a request,
    or a null records element) gives the empty frame with the three
    columns, and nothing is printed. *)
Theorem fetch_envelope_without_records (W : World) (indicator year : string)
  (resp : Response) (data : pyval) (n : Z) :
  requests_get W (world_bank_url indicator year) = Val resp ->
  raise_for_status resp = Val tt ->
  json resp = Val data ->
  py_len data = Val n ->
  (n < 2)%Z \/ py_item data 1 = Val PNone ->
  fetch_world_bank_indicator W indicator year
  = ({| columns := value_columns; rows := [] |}, []).
Proof.
  intros Hget Hstatus Hjson Hlen Hcase.
  unfold fetch_world_bank_indicator, fetch_try.
  rewrite Hget. cbn [and_then]. rewrite Hstatus. cbn [and_then].
  rewrite Hjson. cbn [and_then]. rewrite Hlen. cbn [and_then].
  destruct (n <? 2)%Z eqn:Hshort; [reflexivity|].
  apply Z.ltb_ge in Hshort.
  destruct Hcase as [Hlt | Hnull]; [lia|].
  rewrite Hnull. reflexivity.
Qed.

(** The envelope the API sends back for a parameter it rejects. *)
Lemma fetch_envelope_without_records_witness :
  fetch_world_bank_indicator rejecting "SP.POP.TOTL" "20x2"
  = ({| columns := value_columns; rows := [] |}, []).
Proof.
  apply (fetch_envelope_without_records rejecting "SP.POP.TOTL" "20x2"
           {| raise_for_status := Val tt; json := Val error_envelope |}
           error_envelope 1); try reflexivity.
  left. lia.
Defined.

(** ** The values [fetch_gini] returns on the live path *)

(** X8. On the live path (the deduplicated data has at least 50 rows)
    [fetch_gini] prints what the fetches of the years from [e] down to [s]
    print and returns a frame in which every country that has a value in
    some year of the range has a row, and every row is a row
    [code, name, value] the API delivered for the highest year of the
    range in which that country has a value; the year itself is dropped. *)
Theorem fetch_gini_returns_latest_values
  (W : World) (year_range : string) (s e : Z) (latest : DataFrame) :
  sorts_descending (sort_values W) ->
  parse_year_range W year_range = Val (s, e) ->
  gini_latest W (fst (gini_frames W s e)) = Val latest ->
  (50 <= df_len latest)%Z ->
  exists df,
    fetch_gini W year_range
    = (Val df, flat_map (gini_year_printed W) (range_down e (s - 1)))
    /\ (forall code y, seen_in W s e code y ->
          exists name value, In [code; name; value] (rows df))
    /\ (forall row, In row (rows df) ->
          exists code name value y,
            row = [code; name; value]
            /\ (s <= y <= e)%Z
            /\ In [code; name; value] (rows (gini_year W y))
            /\ forall y', seen_in W s e code y' -> (y' <= y)%Z).
Proof.
  intros Hsort Hparse Hlatest Hlen.
  destruct (gini_latest_rows W s e latest Hsort Hlatest)
    as (Hcols & _ & Hcover & Hrows).
  pose proof (f_equal snd (gini_frames_exact W s e)) as Hout. cbn [snd] in Hout.
  unfold fetch_gini. rewrite Hparse.
  destruct (gini_frames W s e) as [frames out]. cbn [fst snd] in *. subst out.
  destruct frames as [|first others].
  { destruct (gini_latest_needs_frames W Hsort) as (x & Hx). congruence. }
  rewrite Hlatest. apply Z.leb_le in Hlen. rewrite Hlen.
  unfold df_select, df_rename. cbn [columns rows]. rewrite Hcols.
  change (forallb _ ["country_code"; "country_name"; "gini"]) with true.
  cbn iota. eexists. split; [reflexivity|]. cbn [rows]. split.
  - intros code y Hseen. destruct (Hcover code y Hseen) as (name & value & y' & Hin).
    exists name, value. apply in_map_iff. eexists. split; [|exact Hin]. reflexivity.
  - intros row Hrow. apply in_map_iff in Hrow as (r & <- & Hr).
    destruct (Hrows r Hr) as (code & name & value & y & -> & Hy & Hin & Hmax).
    exists code, name, value, y. split; [reflexivity|]. now repeat split.
Qed.

(** The whole table served for 2021 and 2022, the figures of 2022 being all
    25.0: the frame returned holds 25.0 for every country. *)
Lemma fetch_gini_returns_latest_values_witness :
  fetch_gini revised_in_2022 "2021:2022"
  = (Val {| columns := ["country_code"; "country_name"; "gini"];
            rows := map (fun item => [PStr (fst item); PStr (fst (snd item)); PFloat 25.0])
                        _GINI_FALLBACK |}, [])
  /\ exists df,
       fetch_gini revised_in_2022 "2021:2022"
       = (Val df, flat_map (gini_year_printed revised_in_2022) (range_down 2022 (2021 - 1)))
       /\ (forall code y, seen_in revised_in_2022 2021 2022 code y ->
             exists name value, In [code; name; value] (rows df))
       /\ (forall row, In row (rows df) ->
             exists code name value y,
               row = [code; name; value]
               /\ (2021 <= y <= 2022)%Z
               /\ In [code; name; value] (rows (gini_year revised_in_2022 y))
               /\ forall y', seen_in revised_in_2022 2021 2022 code y' -> (y' <= y)%Z).
Proof.
  split; [vm_compute; reflexivity|].
  eapply (fetch_gini_returns_latest_values revised_in_2022 "2021:2022" 2021 2022 _
            sample_sort_sorts).
  - reflexivity.
  - vm_compute. reflexivity.
  - vm_compute. discriminate.
Defined.

(** ** What [fetch_gini] can raise *)

(** X9. A malformed range is all [fetch_gini] can fail on: once the range
    is parsed, and the country codes the API delivers being strings, the
    function returns a frame, however the requests end. *)
Theorem fetch_gini_raises_only_on_its_range
  (W : World) (year_range : string) (s e : Z) :
  sorts_descending (sort_values W) ->
  parse_year_range W year_range = Val (s, e) ->
  string_codes (df_concat (fst (gini_frames W s e))) ->
  exists df, fst (fetch_gini W year_range) = Val df.
Proof.
  intros Hsort Hparse Hstr. unfold fetch_gini. rewrite Hparse.
  pose proof (gini_frames_columns W s e) as Hcolumns.
  pose proof (gini_frames_shape W s e) as Hshape.
  destruct (gini_frames W s e) as [all_rows out]. cbn [fst] in *.
  destruct all_rows as [|first others]; [eexists; reflexivity|].
  destruct (gini_latest_total W (first :: others) Hsort ltac:(discriminate) Hcolumns Hstr)
    as (latest & -> & Hlatest).
  destruct (50 <=? df_len latest)%Z; [|eexists; reflexivity].
  rewrite concat_gini_frames in Hlatest.
  - cbn [fst columns] in *. unfold df_select.
    cbn [df_rename columns]. rewrite Hlatest.
    eexists. reflexivity.
  - discriminate.
  - eapply Forall_impl; [|exact Hshape].
    intros df (y & triples & _ & _ & ->). now exists y, triples.
Qed.

(** Three years of live data for three countries: fewer than 50 rows, so
    the frame returned is the fallback, and no exception. *)
Lemma fetch_gini_raises_only_on_its_range_witness :
  exists df, fst (fetch_gini three_years "2018:2022") = Val df.
Proof.
  apply (fetch_gini_raises_only_on_its_range three_years "2018:2022" 2018 2022
           sample_sort_sorts).
  - vm_compute. reflexivity.
  - unfold string_codes. apply Forall_forall. intros r Hr.
    vm_compute in Hr.
    repeat (destruct Hr as [<- | Hr]; [eexists; reflexivity|]).
    contradiction.
Defined.

(** ** The embedded tables, one against the other *)

Lemma same_text_eq (v w : pyval) : same_text v w = true -> v = w.
Proof.
  destruct v, w; try discriminate. cbn [same_text].
  intros Heq. apply String.eqb_eq in Heq. now subst.
Qed.

Lemma all_among_incl (xs ys : list pyval) : all_among xs ys = true -> incl xs ys.
Proof.
  unfold all_among. rewrite forallb_forall. intros Hall x Hx.
  apply Hall in Hx. apply existsb_exists in Hx as (y & Hy & Hsame).
  apply same_text_eq in Hsame. now subst.
Qed.

Lemma pairs_among_incl (xs ys : list (pyval * pyval)) :
  pairs_among xs ys = true -> incl xs ys.
Proof.
  unfold pairs_among. rewrite forallb_forall. intros Hall x Hx.
  apply Hall in Hx. apply existsb_exists in Hx as (y & Hy & Hsame).
  apply andb_prop in Hsame as [Hfst Hsnd].
  apply same_text_eq in Hfst, Hsnd. destruct x, y. cbn [fst snd] in *. now subst.
Qed.

(** X10. The frames of the accessors fit together, so that merging them on
    [country_code] loses no country and never pairs two names: every
    country with a homicide, drug, ownership or strictness figure has a
    region, and every country of these frames and of the Gini fallback is
    in the population fallback under the same name. *)
Theorem accessor_frames_fit_together :
  Forall (fun df => incl (codes df) (codes get_country_regions))
    [get_gun_homicide_rates; get_drug_offense_rates;
     get_gun_ownership_rates; get_gun_control_strictness]
  /\ Forall (fun df =>
               incl (code_names df)
                 (code_names
                    (DataFrame_records
                       (table_records PInt "population" _POPULATION_FALLBACK))))
       [get_gun_homicide_rates; get_drug_offense_rates;
        get_gun_ownership_rates; get_gun_control_strictness; gini_fallback].
Proof.
  split.
  - repeat (apply Forall_cons; [apply all_among_incl; vm_compute; reflexivity|]).
    apply Forall_nil.
  - repeat (apply Forall_cons; [apply pairs_among_incl; vm_compute; reflexivity|]).
    apply Forall_nil.
Qed.

(** * Further properties of generate_html.py *)

(** ** Navigation and sections *)

Lemma render_sections_from (i : nat) (sections : list (string * string))
  (nav_items content_sections : list string) :
  render_sections i sections nav_items content_sections
  = ((nav_items
      ++ map (fun p => nav_item (fst p) (fst (snd p))) (numbered i sections))%list,
     (content_sections
      ++ map (fun p => content_section (fst p) (fst (snd p)) (snd (snd p)))
             (numbered i sections))%list).
Proof.
  revert i nav_items content_sections.
  induction sections as [|[title fragment] rest IH]; intros i navs contents.
  - cbn. now rewrite !app_nil_r.
  - cbn [render_sections]. rewrite IH. unfold numbered, snoc.
    cbn [List.length seq combine map fst snd]. now rewrite <- !app_assoc.
Qed.

(** X11. The second loop of [main] numbers the sections from 0 in their
    order: there are as many links as sections, and the link number [i]
    points to [#section-i], the identifier of the section number [i]. *)
Theorem render_sections_aligned (sections : list (string * string)) :
  render_sections 0 sections [] []
  = (map (fun p => nav_item (fst p) (fst (snd p))) (numbered 0 sections),
     map (fun p => content_section (fst p) (fst (snd p)) (snd (snd p)))
         (numbered 0 sections))
  /\ List.length (fst (render_sections 0 sections [] [])) = List.length sections
  /\ List.length (snd (render_sections 0 sections [] [])) = List.length sections.
Proof.
  rewrite render_sections_from. cbn [app fst snd]. split; [reflexivity|].
  unfold numbered. rewrite !length_map, length_combine, length_seq.
  split; apply Nat.min_id.
Qed.

(** ** What a run of [main] leaves behind *)

(** The first loop writes no file; when it ends normally it has printed one
    line per notebook and added only sections whose fragment is not
    empty, at most one per notebook. *)
Lemma collect_sections_effects (H : Host) (names : list string)
  (sections : list (string * string)) (r : Run) :
  written (snd (collect_sections H names sections r)) = written r
  /\ forall sections',
       fst (collect_sections H names sections r) = Val sections' ->
       List.length (printed (snd (collect_sections H names sections r)))
       = (List.length (printed r) + List.length names)%nat
       /\ exists added,
            sections' = (sections ++ added)%list
            /\ (List.length added <= List.length names)%nat
            /\ Forall (fun section => snd section <> EmptyString) added.
Proof.
  revert sections r. induction names as [|name rest IH]; intros sections r.
  - cbn [collect_sections fst snd]. split; [reflexivity|].
    intros sections' [= <-]. split; [cbn; lia|].
    exists []. rewrite app_nil_r. repeat split; [cbn; lia | constructor].
  - cbn [collect_sections].
    destruct (negb (path_exists H (NOTEBOOKS_DIR H ++ "/" ++ name))).
    + destruct (IH sections (print ("Skipping " ++ name ++ " (not found)") r))
        as [Hwritten Hval].
      split; [exact Hwritten|]. intros sections' Hs.
      destruct (Hval sections' Hs) as (Hprinted & added & -> & Hlen & Hne).
      split.
      * rewrite Hprinted. unfold print. cbn [printed]. rewrite snoc_length.
        cbn [List.length]. lia.
      * exists added. repeat split; [cbn [List.length]; lia | exact Hne].
    + destruct (extract_outputs H (NOTEBOOKS_DIR H ++ "/" ++ name) _)
        as [[fragment|e] n]; [|cbn [fst snd]; split; [reflexivity | discriminate]].
      destruct fragment as [|c fragment]; cbn [str_truthy].
      * destruct (IH sections
                    (drawn n (print ("Extracting outputs from " ++ name ++ " ...") r)))
          as [Hwritten Hval].
        split; [exact Hwritten|]. intros sections' Hs.
        destruct (Hval sections' Hs) as (Hprinted & added & -> & Hlen & Hne).
        split.
        -- rewrite Hprinted. unfold drawn, print. cbn [printed].
           rewrite snoc_length. cbn [List.length]. lia.
        -- exists added. repeat split; [cbn [List.length]; lia | exact Hne].
      * destruct (IH (snoc sections (section_title name, String c fragment))
                    (drawn n (print ("Extracting outputs from " ++ name ++ " ...") r)))
          as [Hwritten Hval].
        split; [exact Hwritten|]. intros sections' Hs.
        destruct (Hval sections' Hs) as (Hprinted & added & -> & Hlen & Hne).
        split.
        -- rewrite Hprinted. unfold drawn, print. cbn [printed].
           rewrite snoc_length. cbn [List.length]. lia.
        -- exists ((section_title name, String c fragment) :: added).
           unfold snoc. rewrite <- app_assoc. repeat split.
           ++ cbn [List.length]. lia.
           ++ constructor; [discriminate | exact Hne].
Qed.

(** X12. The report is written only after every notebook has been
    extracted.  An exception that escapes the first loop of [main] (a
    notebook that cannot be read, decoded or converted) escapes [main]
    itself, and no file has been written by then.  A run that ends
    normally has written exactly one file, [docs/report.html]: the page
    built from at most 27 sections, none with an empty fragment; and it
    has called [print] 29 times, once per notebook and twice at the
    end. *)
Theorem main_writes_report_after_extraction (H : Host) (r : Run) :
  (forall e, fst (collect_sections H NOTEBOOKS [] r) = Exc e ->
     fst (main H r) = Exc e /\ written (snd (main H r)) = written r)
  /\ (fst (main H r) = Val tt ->
      exists sections,
        written (snd (main H r))
        = (written r
           ++ [((DOCS_DIR H ++ "/report.html")%string,
                report_page (fst (render_sections 0 sections [] []))
                            (snd (render_sections 0 sections [] [])))])%list
        /\ (List.length sections <= 27)%nat
        /\ Forall (fun section => snd section <> EmptyString) sections
        /\ List.length (printed (snd (main H r)))
           = (List.length (printed r) + 29)%nat).
Proof.
  unfold main.
  destruct (collect_sections_effects H NOTEBOOKS [] r) as [Hwritten Hval].
  destruct (collect_sections H NOTEBOOKS [] r) as [[sections|x] r']; cbn [fst snd] in *.
  - split; [discriminate|]. intros _.
    destruct (Hval sections eq_refl) as (Hprinted & added & -> & Hlen & Hne).
    destruct (render_sections 0 ([] ++ added) [] []) as [nav_items content_sections] eqn:Hr.
    cbn [fst snd]. exists ([] ++ added)%list. rewrite Hr. cbn [fst snd app].
    split; [|split; [exact Hlen|split; [exact Hne|]]].
    + unfold print, write_text, snoc. cbn [written]. now rewrite Hwritten.
    + unfold print, write_text. cbn [printed]. rewrite !snoc_length, Hprinted.
      change (List.length NOTEBOOKS) with 27%nat. lia.
  - split; [|discriminate]. intros e [= <-]. split; [reflexivity | exact Hwritten].
Qed.

Lemma collect_sections_aborts (H : Host) (name : string) (e : exn)
  (names : list string) :
  In name names ->
  path_exists H (NOTEBOOKS_DIR H ++ "/" ++ name) = true ->
  (let* text := read_text H (NOTEBOOKS_DIR H ++ "/" ++ name) in json_loads H text)
  = Exc e ->
  forall sections r, exists e', fst (collect_sections H names sections r) = Exc e'.
Proof.
  intros Hin Hexists Hdecode.
  induction names as [|nm rest IH]; intros sections r; [contradiction|].
  cbn [collect_sections]. destruct Hin as [-> | Hin].
  - rewrite Hexists. cbn [negb]. unfold extract_outputs. rewrite Hdecode.
    cbn [fst]. eauto.
  - destruct (negb (path_exists H (NOTEBOOKS_DIR H ++ "/" ++ nm))); [now apply IH|].
    destruct (extract_outputs H (NOTEBOOKS_DIR H ++ "/" ++ nm) _)
      as [[fragment|e1] n]; [|cbn [fst]; eauto].
    destruct (str_truthy fragment); now apply IH.
Qed.

(** X13. [main] has no handler around [extract_outputs]: if one notebook
    of the list exists but cannot be read or decoded, [main] raises and no
    report is written, whatever the other notebooks hold. *)
Theorem main_aborts_on_broken_notebook (H : Host) (name : string) (e : exn) (r : Run) :
  In name NOTEBOOKS ->
  path_exists H (NOTEBOOKS_DIR H ++ "/" ++ name) = true ->
  (let* text := read_text H (NOTEBOOKS_DIR H ++ "/" ++ name) in json_loads H text)
  = Exc e ->
  (exists e', fst (main H r) = Exc e') /\ written (snd (main H r)) = written r.
Proof.
  intros Hin Hexists Hdecode. unfold main.
  destruct (collect_sections_aborts H name e NOTEBOOKS Hin Hexists Hdecode [] r)
    as (e' & Hraise).
  destruct (collect_sections_effects H NOTEBOOKS [] r) as [Hwritten _].
  destruct (collect_sections H NOTEBOOKS [] r) as [res r']. cbn [fst snd] in *.
  subst res. cbn [fst snd]. split; [eauto | exact Hwritten].
Qed.

(** The first notebook is there but is not JSON. *)
Lemma main_aborts_on_broken_notebook_witness :
  (exists e', fst (main broken_host start) = Exc e')
  /\ written (snd (main broken_host start)) = [].
Proof.
  apply (main_aborts_on_broken_notebook broken_host "01_data_collection.ipynb"
           JSONDecodeError start).
  - left. reflexivity.
  - reflexivity.
  - reflexivity.
Defined.

Lemma collect_sections_taken (H : Host) (names : list string) :
  forall sections r sections',
    fst (collect_sections H names sections r) = Val sections' ->
    exists keep added,
      sections' = (sections ++ added)%list
      /\ Forall2 (taken_from H) (pick keep names) added.
Proof.
  induction names as [|name rest IH]; intros sections r sections'; cbn [collect_sections].
  - intros [= <-]. exists [], []. rewrite app_nil_r. split; [reflexivity | constructor].
  - destruct (path_exists H (NOTEBOOKS_DIR H ++ "/" ++ name)) eqn:Hthere; cbn [negb].
    + destruct (extract_outputs H (NOTEBOOKS_DIR H ++ "/" ++ name) _)
        as [[fragment|e] n] eqn:Hrun; [|discriminate].
      destruct fragment as [|c fragment]; cbn [str_truthy]; intros Hrest.
      * destruct (IH _ _ _ Hrest) as (keep & added & -> & Hall).
        exists (false :: keep), added. split; [reflexivity | exact Hall].
      * destruct (IH _ _ _ Hrest) as (keep & added & -> & Hall).
        exists (true :: keep), ((section_title name, String c fragment) :: added).
        split; [unfold snoc; now rewrite <- app_assoc|].
        cbn [pick]. constructor; [|exact Hall].
        repeat split; [exact Hthere | discriminate|].
        eexists. rewrite Hrun. reflexivity.
    + intros Hrest. destruct (IH _ _ _ Hrest) as (keep & added & -> & Hall).
      exists (false :: keep), added. split; [reflexivity | exact Hall].
Qed.

(** X14. The report follows the list of notebooks: when [main] ends
    normally, the sections of the page it wrote come from notebooks of
    [NOTEBOOKS] that are there, one section per notebook at most and in
    the order of the list; each is titled after its file name and holds
    the fragment [extract_outputs] returned, which is not empty. *)
Theorem report_sections_follow_notebooks (H : Host) (r : Run) :
  fst (main H r) = Val tt ->
  exists keep sections,
    Forall2 (taken_from H) (pick keep NOTEBOOKS) sections
    /\ written (snd (main H r))
       = snoc (written r)
              (DOCS_DIR H ++ "/report.html",
               report_page (fst (render_sections 0 sections [] []))
                           (snd (render_sections 0 sections [] []))).
Proof.
  unfold main.
  destruct (collect_sections_effects H NOTEBOOKS [] r) as [Hwritten _].
  pose proof (collect_sections_taken H NOTEBOOKS [] r) as Htaken.
  destruct (collect_sections H NOTEBOOKS [] r) as [[sections|e] r']; cbn [fst snd] in *;
    [|discriminate].
  intros _. destruct (Htaken sections eq_refl) as (keep & added & -> & Hall).
  exists keep, added. split; [exact Hall|]. cbn [app].
  destruct (render_sections 0 added [] []) as [nav_items content_sections].
  cbn [fst snd]. unfold print, write_text. cbn [written]. now rewrite Hwritten.
Qed.

(** The plain notebook and the one that was never run: the run ends
    normally. *)
Lemma report_sections_follow_notebooks_witness :
  exists keep sections,
    Forall2 (taken_from two_notebooks) (pick keep NOTEBOOKS) sections
    /\ written (snd (main two_notebooks start))
       = snoc (written start)
              (DOCS_DIR two_notebooks ++ "/report.html",
               report_page (fst (render_sections 0 sections [] []))
                           (snd (render_sections 0 sections [] []))).
Proof.
  apply (report_sections_follow_notebooks two_notebooks start).
  vm_compute. reflexivity.
Defined.

(** ** Markdown cells *)

Lemma nonspace_head_nonblank (c : ascii) (rest : string) :
  isspace c = false -> nonblank (String c rest) = true.
Proof.
  intros Hc. unfold nonblank, str_strip. cbn [str_lstrip_by]. rewrite Hc.
  cbn [str_rstrip_by]. destruct (str_rstrip_by isspace rest); [|reflexivity].
  now rewrite Hc.
Qed.

Lemma startswith_head (line : string) (c : ascii) (rest : string) :
  startswith line (String c rest) = true -> exists r, line = String c r.
Proof.
  unfold startswith. destruct line as [|d r]; cbn [String.prefix]; [discriminate|].
  destruct (ascii_dec c d) as [->|]; [eauto | discriminate].
Qed.

Lemma marker_nonblank (line : string) (c : ascii) (rest : string) :
  isspace c = false -> startswith line (String c rest) = true -> nonblank line = true.
Proof.
  intros Hc Hstart. destruct (startswith_head _ _ _ Hstart) as (r & ->).
  now apply nonspace_head_nonblank.
Qed.

(** One line gives one element, unless it is blank. *)
Lemma markdown_line_cases (html_lines : list string) (line : string) :
  if nonblank line
  then exists element, markdown_line html_lines line = snoc html_lines element
  else markdown_line html_lines line = html_lines.
Proof.
  unfold markdown_line.
  destruct (startswith line "### ") eqn:H4.
  { rewrite (marker_nonblank line "#" "## " eq_refl H4). eauto. }
  destruct (startswith line "## ") eqn:H3.
  { rewrite (marker_nonblank line "#" "# " eq_refl H3). eauto. }
  destruct (startswith line "# ") eqn:H2.
  { rewrite (marker_nonblank line "#" " " eq_refl H2). eauto. }
  destruct (startswith line "**") eqn:Hb.
  { rewrite (marker_nonblank line "*" "*" eq_refl Hb). cbn [andb].
    destruct (endswith line "**"); [eauto|].
    destruct (startswith line "- ") eqn:Hl; [eauto|].
    change (str_truthy (str_strip line)) with (nonblank line).
    rewrite (marker_nonblank line "*" "*" eq_refl Hb). eauto. }
  cbn [andb].
  destruct (startswith line "- ") eqn:Hl.
  { rewrite (marker_nonblank line "-" " " eq_refl Hl). eauto. }
  change (str_truthy (str_strip line)) with (nonblank line).
  destruct (nonblank line); eauto.
Qed.

(** X15. The conversion of a markdown cell keeps one HTML element per
    line that is not blank, and drops the blank lines. *)
Theorem markdown_one_element_per_nonblank_line (lines html_lines : list string) :
  List.length (fold_left markdown_line lines html_lines)
  = (List.length html_lines + List.length (filter nonblank lines))%nat.
Proof.
  revert html_lines. induction lines as [|line rest IH]; intros html_lines.
  - cbn. lia.
  - cbn [fold_left filter]. rewrite IH.
    pose proof (markdown_line_cases html_lines line) as Hline.
    destruct (nonblank line).
    + destruct Hline as (element & ->). rewrite snoc_length. cbn [List.length]. lia.
    + rewrite Hline. lia.
Qed.

(** X16. Only one to three [#] followed by a blank make a heading: a
    line that starts with four of them is rendered as a paragraph, [#]
    included. *)
Theorem markdown_deep_heading_is_paragraph (html_lines : list string) (rest : string) :
  markdown_line html_lines ("####" ++ rest)
  = snoc html_lines ("<p>####" ++ rest ++ "</p>").
Proof.
  unfold markdown_line.
  change (startswith ("####" ++ rest) "### ") with false.
  change (startswith ("####" ++ rest) "## ") with false.
  change (startswith ("####" ++ rest) "# ") with false.
  change (startswith ("####" ++ rest) "**") with false.
  change (startswith ("####" ++ rest) "- ") with false.
  cbn [andb].
  change (str_truthy (str_strip ("####" ++ rest))) with (nonblank ("####" ++ rest)).
  change ("####" ++ rest) with (String "#" ("###" ++ rest)) at 1.
  rewrite nonspace_head_nonblank by reflexivity. reflexivity.
Qed.

(** ** The layout of a chart *)

Lemma assoc_snoc {V : Type} (k k' : string) (v : V) (kvs : list (string * V)) :
  assoc k (snoc kvs (k', v))
  = match assoc k kvs with
    | Some x => Some x
    | None => if String.eqb k k' then Some v else None
    end.
Proof.
  unfold snoc. induction kvs as [|[k0 v0] rest IH]; cbn [app assoc]; [reflexivity|].
  destruct (String.eqb k k0); [reflexivity | exact IH].
Qed.

Lemma assoc_update_same {V : Type} (k : string) (v x : V) (kvs : list (string * V)) :
  assoc k kvs = Some x -> assoc k (assoc_update k v kvs) = Some v.
Proof.
  induction kvs as [|[k0 v0] rest IH]; cbn [assoc assoc_update]; [discriminate|].
  destruct (String.eqb k k0) eqn:Hk; cbn [assoc]; rewrite Hk; [reflexivity | exact IH].
Qed.

Lemma assoc_update_other {V : Type} (k k' : string) (v : V) (kvs : list (string * V)) :
  k' <> k -> assoc k' (assoc_update k v kvs) = assoc k' kvs.
Proof.
  intros Hne. induction kvs as [|[k0 v0] rest IH]; cbn [assoc assoc_update];
    [reflexivity|].
  destruct (String.eqb k k0) eqn:Hk; cbn [assoc].
  - apply String.eqb_eq in Hk as <-. apply String.eqb_neq in Hne. now rewrite Hne.
  - destruct (String.eqb k' k0); [reflexivity | exact IH].
Qed.

(** [setdefault] by lookups: the key holds what it held, or the default;
    every other key is as before. *)
Lemma setdefault_lookup (d d' : pyval) (k : string) (v : pyval) :
  py_setdefault d k v = Val d' ->
  exists kvs kvs',
    d = PDict kvs /\ d' = PDict kvs'
    /\ forall k', assoc k' kvs'
                  = if String.eqb k' k then Some (or_default (assoc k kvs) v)
                    else assoc k' kvs.
Proof.
  unfold py_setdefault. destruct d as [| | | | | |kvs]; try discriminate.
  intros [= <-]. exists kvs.
  destruct (assoc k kvs) as [x|] eqn:Hk.
  - exists kvs. repeat split. intros k'.
    destruct (String.eqb k' k) eqn:Hk'; [|reflexivity].
    apply String.eqb_eq in Hk' as ->. exact Hk.
  - exists (snoc kvs (k, v)). repeat split. intros k'. rewrite assoc_snoc.
    destruct (String.eqb k' k) eqn:Hk'.
    + apply String.eqb_eq in Hk' as ->. now rewrite Hk.
    + now destruct (assoc k' kvs).
Qed.

Lemma margin_setdefault_lookup (layout layout' : pyval) (side : string) (width : Z) :
  margin_setdefault layout side width = Val layout' ->
  exists kvs m m',
    layout = PDict kvs /\ assoc "margin" kvs = Some (PDict m)
    /\ layout' = PDict (assoc_update "margin" (PDict m') kvs)
    /\ forall k', assoc k' m'
                  = if String.eqb k' side
                    then Some (or_default (assoc side m) (PInt width))
                    else assoc k' m.
Proof.
  unfold margin_setdefault.
  destruct (py_getitem layout "margin") as [margin|] eqn:Hget; cbn [and_then];
    [|discriminate].
  destruct (py_setdefault margin side (PInt width)) as [margin'|] eqn:Hset;
    cbn [and_then]; [|discriminate].
  destruct (setdefault_lookup _ _ _ _ Hset) as (m & m' & -> & -> & Hlook).
  destruct layout as [| | | | | |kvs]; try discriminate.
  intros [= <-]. exists kvs, m, m'. repeat split; try assumption.
  unfold py_getitem in Hget. destruct (assoc "margin" kvs); congruence.
Qed.

(** Comparisons of key literals are decided by computation. *)
Tactic Notation "literal_keys" :=
  cbn [String.eqb Ascii.eqb Bool.eqb andb].
Tactic Notation "literal_keys" "in" hyp(H) :=
  cbn [String.eqb Ascii.eqb Bool.eqb andb] in H.

Ltac margin_side Hb Ht Hr Hl :=
  rewrite Hb; literal_keys; rewrite ?Ht; literal_keys;
  rewrite ?Hr; literal_keys; rewrite ?Hl; literal_keys; reflexivity.

(** X17. Filling the defaults of a chart layout never overwrites what the
    notebook holds.  Afterwards [autosize] is what it was, or [true]; the
    sides [l], [r], [t], [b] of the margin are what they were, or 10, 10,
    40, 10; and every other key of the layout and of the margin is as in
    the notebook. *)
Theorem plotly_layout_fills_defaults
  (plotly_data layout : pyval) (kvs0 m0 : list (string * pyval)) :
  py_get plotly_data "layout" (PDict []) = Val (PDict kvs0) ->
  or_default (assoc "margin" kvs0) (PDict []) = PDict m0 ->
  plotly_layout plotly_data = Val layout ->
  exists kvs margin,
    layout = PDict kvs
    /\ assoc "margin" kvs = Some (PDict margin)
    /\ assoc "autosize" kvs = Some (or_default (assoc "autosize" kvs0) (PBool true))
    /\ (forall k, k <> "margin" -> k <> "autosize" -> assoc k kvs = assoc k kvs0)
    /\ assoc "l" margin = Some (or_default (assoc "l" m0) (PInt 10))
    /\ assoc "r" margin = Some (or_default (assoc "r" m0) (PInt 10))
    /\ assoc "t" margin = Some (or_default (assoc "t" m0) (PInt 40))
    /\ assoc "b" margin = Some (or_default (assoc "b" m0) (PInt 10))
    /\ (forall k, k <> "l" -> k <> "r" -> k <> "t" -> k <> "b" ->
                  assoc k margin = assoc k m0).
Proof.
  intros Hlayout Hm0. unfold plotly_layout. rewrite Hlayout. cbn [and_then].
  destruct (py_setdefault (PDict kvs0) "autosize" (PBool true)) as [l1|] eqn:H1;
    cbn [and_then]; [|discriminate].
  destruct (setdefault_lookup _ _ _ _ H1) as (k0 & kvs1 & [= <-] & -> & Hauto).
  destruct (py_setdefault (PDict kvs1) "margin" (PDict [])) as [l2|] eqn:H2;
    cbn [and_then]; [|discriminate].
  destruct (setdefault_lookup _ _ _ _ H2) as (k1 & kvs2 & [= <-] & -> & Hmargin).
  destruct (margin_setdefault (PDict kvs2) "l" 10) as [l3|] eqn:H3;
    cbn [and_then]; [|discriminate].
  destruct (margin_setdefault_lookup _ _ _ _ H3)
    as (k2 & m2 & m3 & [= <-] & Hm2 & -> & Hl).
  destruct (margin_setdefault _ "r" 10) as [l4|] eqn:H4; cbn [and_then]; [|discriminate].
  destruct (margin_setdefault_lookup _ _ _ _ H4)
    as (k3 & m3' & m4 & [= <-] & Hm3 & -> & Hr).
  rewrite (assoc_update_same _ _ _ _ Hm2) in Hm3. injection Hm3 as <-.
  destruct (margin_setdefault _ "t" 40) as [l5|] eqn:H5; cbn [and_then]; [|discriminate].
  destruct (margin_setdefault_lookup _ _ _ _ H5)
    as (k4 & m4' & m5 & [= <-] & Hm4 & -> & Ht).
  assert (Hm3' : assoc "margin" (assoc_update "margin" (PDict m3) kvs2)
                 = Some (PDict m3)) by (eapply assoc_update_same; exact Hm2).
  rewrite (assoc_update_same _ _ _ _ Hm3') in Hm4. injection Hm4 as <-.
  intros H6.
  destruct (margin_setdefault_lookup _ _ _ _ H6)
    as (k5 & m5' & m6 & [= <-] & Hm5 & -> & Hb).
  assert (Hm4' : assoc "margin"
                   (assoc_update "margin" (PDict m4)
                      (assoc_update "margin" (PDict m3) kvs2)) = Some (PDict m4))
    by (eapply assoc_update_same; exact Hm3').
  rewrite (assoc_update_same _ _ _ _ Hm4') in Hm5. injection Hm5 as <-.
  assert (Hstart : m2 = m0).
  { rewrite Hmargin in Hm2. literal_keys in Hm2. rewrite Hauto in Hm2.
    literal_keys in Hm2. rewrite Hm0 in Hm2. congruence. }
  subst m2.
  assert (Hother : forall k, k <> "margin" ->
             assoc k (assoc_update "margin" (PDict m6)
                        (assoc_update "margin" (PDict m5)
                           (assoc_update "margin" (PDict m4)
                              (assoc_update "margin" (PDict m3) kvs2))))
             = assoc k kvs2)
    by (intros k Hk; now rewrite !assoc_update_other by exact Hk).
  eexists. exists m6. split; [reflexivity|].
  split; [eapply assoc_update_same; eapply assoc_update_same; exact Hm4'|].
  split.
  { rewrite (Hother "autosize") by discriminate. rewrite Hmargin. literal_keys.
    rewrite Hauto. literal_keys. reflexivity. }
  split.
  { intros k Hk Ha. rewrite (Hother k Hk).
    apply String.eqb_neq in Hk, Ha. now rewrite Hmargin, Hk, Hauto, Ha. }
  split; [margin_side Hb Ht Hr Hl|].
  split; [margin_side Hb Ht Hr Hl|].
  split; [margin_side Hb Ht Hr Hl|].
  split; [margin_side Hb Ht Hr Hl|].
  intros k Kl Kr Kt Kb.
  apply String.eqb_neq in Kl, Kr, Kt, Kb.
  now rewrite Hb, Kb, Ht, Kt, Hr, Kr, Hl, Kl.
Qed.

(** A chart with a left margin of 80 and autosize off keeps both. *)
Lemma plotly_layout_fills_defaults_witness :
  exists kvs margin,
    PDict [("autosize", PBool false);
           ("margin", PDict [("l", PInt 80); ("r", PInt 10); ("t", PInt 40); ("b", PInt 10)])]
    = PDict kvs
    /\ assoc "margin" kvs = Some (PDict margin)
    /\ assoc "autosize" kvs = Some (PBool false)
    /\ (forall k, k <> "margin" -> k <> "autosize" ->
                  assoc k kvs = assoc k [("autosize", PBool false);
                                         ("margin", PDict [("l", PInt 80)])])
    /\ assoc "l" margin = Some (PInt 80)
    /\ assoc "r" margin = Some (PInt 10)
    /\ assoc "t" margin = Some (PInt 40)
    /\ assoc "b" margin = Some (PInt 10)
    /\ (forall k, k <> "l" -> k <> "r" -> k <> "t" -> k <> "b" ->
                  assoc k margin = assoc k [("l", PInt 80)]).
Proof.
  apply (plotly_layout_fills_defaults custom_chart _
           [("autosize", PBool false); ("margin", PDict [("l", PInt 80)])]
           [("l", PInt 80)]); reflexivity.
Defined.

(** X18. A layout whose [margin] is there but is no dict (null, say)
    makes the chart branch raise AttributeError: the defaults are filled
    with [setdefault] on it. *)
Theorem plotly_layout_rejects_margin
  (plotly_data margin : pyval) (kvs0 : list (string * pyval)) :
  py_get plotly_data "layout" (PDict []) = Val (PDict kvs0) ->
  assoc "margin" kvs0 = Some margin ->
  (forall m, margin <> PDict m) ->
  plotly_layout plotly_data = Exc AttributeError.
Proof.
  intros Hlayout Hmargin Hnodict. unfold plotly_layout. rewrite Hlayout. cbn [and_then].
  destruct (py_setdefault (PDict kvs0) "autosize" (PBool true)) as [l1|] eqn:H1;
    [|discriminate H1].
  destruct (setdefault_lookup _ _ _ _ H1) as (k0 & kvs1 & [= <-] & -> & Hauto).
  cbn [and_then].
  destruct (py_setdefault (PDict kvs1) "margin" (PDict [])) as [l2|] eqn:H2;
    [|discriminate H2].
  destruct (setdefault_lookup _ _ _ _ H2) as (k1 & kvs2 & [= <-] & -> & Hlook).
  cbn [and_then].
  assert (Hfirst : margin_setdefault (PDict kvs2) "l" 10 = Exc AttributeError).
  { unfold margin_setdefault, py_getitem. rewrite Hlook. literal_keys.
    rewrite Hauto. literal_keys. rewrite Hmargin. cbn [or_default and_then].
    destruct margin as [| | | | | |m]; try reflexivity.
    exfalso. exact (Hnodict m eq_refl). }
  now rewrite Hfirst.
Qed.

Lemma plotly_layout_rejects_margin_witness :
  plotly_layout (PDict [("data", PList []); ("layout", PDict [("margin", PNone)])])
  = Exc AttributeError.
Proof.
  apply (plotly_layout_rejects_margin _ PNone [("margin", PNone)]);
    try reflexivity.
  intros m. discriminate.
Defined.

(** ** Cells and identifiers *)

Lemma cell_step_other (H : Host) (parts : list string) (c : pyval) (n : nat) :
  other_cell c = true -> cell_step H parts c n = (Val parts, n).
Proof.
  unfold other_cell, cell_step.
  destruct (py_getitem c "cell_type") as [cell_type|]; [|discriminate].
  intros Hc. apply andb_prop in Hc as [Hmarkdown Hcode].
  apply negb_true_iff in Hmarkdown. now rewrite Hmarkdown, Hcode.
Qed.

Lemma cell_loop_skips_other (H : Host) (cells : list pyval) :
  forall parts n,
    for_each_drawing (cell_step H) cells parts n
    = for_each_drawing (cell_step H) (rendered_cells cells) parts n.
Proof.
  unfold rendered_cells.
  induction cells as [|c rest IH]; intros parts n; cbn [filter for_each_drawing];
    [reflexivity|].
  destruct (other_cell c) eqn:Hc; cbn [negb].
  - rewrite (cell_step_other H _ _ _ Hc). apply IH.
  - cbn [for_each_drawing].
    destruct (cell_step H parts c n) as [[parts'|e] n']; [apply IH | reflexivity].
Qed.

(** X19. Cells that are neither markdown nor code (raw cells, say) leave
    no trace: a notebook and the same notebook without them give the same
    parts, the same exception if one escapes, and draw the same
    identifiers.  A cell without [cell_type] is not such a cell: it raises
    KeyError. *)
Theorem other_cells_are_ignored (H : Host) (nb nb' : pyval) (cells : list pyval) (n : nat) :
  py_get nb "cells" (PList []) = Val (PList cells) ->
  py_get nb' "cells" (PList []) = Val (PList (rendered_cells cells)) ->
  extract_parts H nb n = extract_parts H nb' n.
Proof.
  intros Hnb Hnb'. unfold extract_parts. rewrite Hnb, Hnb'. cbn [and_then py_iter].
  apply cell_loop_skips_other.
Qed.

(** A heading, a raw cell and a stream, against the heading and the stream. *)
Lemma other_cells_are_ignored_witness :
  extract_parts bare_host mixed_notebook 0 = extract_parts bare_host plain_notebook 0.
Proof.
  apply (other_cells_are_ignored bare_host mixed_notebook plain_notebook
           [PDict [("cell_type", PStr "markdown"); ("source", PList [PStr "# Data"])];
            PDict [("cell_type", PStr "raw"); ("source", PList [PStr "---"])];
            PDict [("cell_type", PStr "code");
                   ("outputs",
                    PList [PDict [("output_type", PStr "stream");
                                  ("text", PList [PStr "169 countries"])]])]] 0);
    reflexivity.
Defined.

(** X20. Every identifier drawn by an extraction that ends normally is
    spent on a part of its own: the number of draws never goes down, and
    the parts are at least as many as the identifiers drawn. *)
Theorem extraction_parts_cover_draws
  (H : Host) (nb : pyval) (parts : list string) (n n' : nat) :
  extract_parts H nb n = (Val parts, n') ->
  (n <= n' /\ n' - n <= List.length parts)%nat.
Proof.
  unfold extract_parts.
  destruct (let* cells := py_get nb "cells" (PList []) in py_iter cells) as [cells|];
    [|discriminate].
  intros Hrun.
  destruct (for_each_drawing_grows _ (cell_step_grows H) cells [] tt n parts n' Hrun)
    as [Hle Hlen].
  cbn [List.length] in Hlen. lia.
Qed.

(** The notebook with one chart: one identifier, one part. *)
Lemma extraction_parts_cover_draws_witness :
  (0 <= 1
   /\ 1 - 0 <= List.length (match fst (extract_parts chart_host chart_notebook 0) with
                            | Val parts => parts
                            | Exc _ => []
                            end))%nat.
Proof.
  apply (extraction_parts_cover_draws chart_host chart_notebook _ 0 1).
  vm_compute. reflexivity.
Defined.

(** ** Section titles *)

Lemma lstrip_by_split (drop : ascii -> bool) (s : string) :
  exists prefix,
    s = prefix ++ str_lstrip_by drop s
    /\ (forall c, str_mem c prefix = true -> drop c = true)
    /\ (forall c rest, str_lstrip_by drop s = String c rest -> drop c = false).
Proof.
  induction s as [|c r (prefix & Hsplit & Hprefix & Hhead)]; cbn [str_lstrip_by].
  - exists EmptyString. repeat split; discriminate.
  - destruct (drop c) eqn:Hc.
    + exists (String c prefix). split; [cbn [String.append]; now rewrite <- Hsplit|].
      split; [|exact Hhead].
      intros x. cbn [str_mem]. destruct (Ascii.eqb x c) eqn:Hx; [|apply Hprefix].
      apply Ascii.eqb_eq in Hx as ->. intros _. exact Hc.
    + exists EmptyString. split; [reflexivity|]. split; [discriminate|].
      intros x rest [= <- _]. exact Hc.
Qed.

(** X21. The title of a section is the title-cased notebook name (no
    [.ipynb], blanks for underscores) without its leading digits and
    blanks: what is cut off holds digits and blanks only, and the title
    itself starts with neither. *)
Theorem section_title_strips_number (nb_name : string) :
  exists prefix,
    str_title (str_replace "_" " " (str_replace ".ipynb" "" nb_name))
    = prefix ++ section_title nb_name
    /\ (forall c, str_mem c prefix = true -> str_mem c "0123456789 " = true)
    /\ (forall c rest, section_title nb_name = String c rest ->
                       str_mem c "0123456789 " = false).
Proof.
  unfold section_title, str_lstrip_chars.
  exact (lstrip_by_split (fun c => str_mem c "0123456789 ") _).
Qed.

(** ** The file size in the last line *)

Lemma digits_have_no_comma (u : Decimal.uint) :
  str_mem "," (NilEmpty.string_of_uint u) = false.
Proof.
  induction u; cbn [NilEmpty.string_of_uint str_mem]; try exact IHu; reflexivity.
Qed.

Lemma str_of_nat_has_no_comma (n : nat) : str_mem "," (str_of_nat n) = false.
Proof.
  unfold str_of_nat, str_of_int.
  destruct (Z.to_int (Z.of_nat n)) as [u|u]; cbn [NilZero.string_of_int].
  - unfold NilZero.string_of_uint. destruct u; try apply digits_have_no_comma. reflexivity.
  - cbn [str_mem]. unfold NilZero.string_of_uint.
    destruct u; try apply digits_have_no_comma. reflexivity.
Qed.

Lemma replace_skips_other (d : ascii) (s : string) :
  Ascii.eqb "," d = false ->
  str_replace "," "" (String d s) = String d (str_replace "," "" s).
Proof.
  intros Hd. unfold str_replace. cbn [str_replace_from String.prefix].
  destruct (ascii_dec "," d) as [<-|_]; [discriminate Hd | reflexivity].
Qed.

Lemma replace_drops_comma (s : string) :
  str_replace "," "" (String "," s) = str_replace "," "" s.
Proof.
  unfold str_replace. cbn [str_replace_from String.prefix].
  destruct (ascii_dec "," ",") as [_|Hne]; [|now contradiction Hne].
  now destruct s.
Qed.

Lemma group_digits_ungroup (digits : string) :
  str_mem "," digits = false -> str_replace "," "" (group_digits digits) = digits.
Proof.
  induction digits as [|d rest IH]; [reflexivity|].
  cbn [str_mem]. intros Hno. apply orb_false_iff in Hno as [Hd Hrest].
  cbn [group_digits]. rewrite (replace_skips_other _ _ Hd). f_equal.
  destruct ((0 <? String.length rest)%nat && (String.length rest mod 3 =? 0)%nat).
  - change ("," ++ group_digits rest) with (String "," (group_digits rest)).
    rewrite replace_drops_comma. exact (IH Hrest).
  - exact (IH Hrest).
Qed.

Lemma group_digits_short (digits : string) :
  (String.length digits <= 3)%nat -> group_digits digits = digits.
Proof.
  destruct digits as [|a [|b [|c [|d rest]]]]; try reflexivity.
  cbn [String.length]. lia.
Qed.

Lemma length_append (a b : string) :
  String.length (a ++ b) = (String.length a + String.length b)%nat.
Proof. induction a as [|c a IH]; cbn [String.append String.length]; [reflexivity | now rewrite IH]. Qed.

Lemma group_digits_last_three (a b : string) :
  a <> EmptyString -> String.length b = 3%nat ->
  group_digits (a ++ b) = group_digits a ++ "," ++ b.
Proof.
  intros Ha Hb. induction a as [|d a IH]; [contradiction|].
  cbn [String.append group_digits]. f_equal. rewrite length_append, Hb.
  replace ((String.length a + 3) mod 3)%nat with (String.length a mod 3)%nat
    by (rewrite <- (Nat.Div0.mod_add (String.length a) 1 3); f_equal; lia).
  destruct a as [|d' a'].
  - cbn [String.length String.append Nat.add]. cbn.
    now rewrite (group_digits_short b) by lia.
  - replace (0 <? String.length (String d' a') + 3)%nat with true
      by (symmetry; apply Nat.ltb_lt; lia).
    replace (0 <? String.length (String d' a'))%nat with true
      by (symmetry; apply Nat.ltb_lt; cbn [String.length]; lia).
    rewrite IH by discriminate.
    now destruct ((true && (String.length (String d' a') mod 3 =? 0))%nat).
Qed.

(** X22. The file size is printed with nothing but commas added to its
    decimal digits: taking the commas out gives [str(size)] back, and a
    size of at most three digits is printed as it is. *)
Theorem thousands_only_adds_commas (n : nat) :
  str_replace "," "" (thousands n) = str_of_nat n
  /\ ((String.length (str_of_nat n) <= 3)%nat -> thousands n = str_of_nat n).
Proof.
  unfold thousands. split.
  - apply group_digits_ungroup, str_of_nat_has_no_comma.
  - apply group_digits_short.
Qed.

(** X23. The commas group the digits by three from the right: the last
    three digits of a longer size stand behind a comma, and the digits
    before them are grouped in the same way. *)
Theorem thousands_groups_from_the_right (n : nat) (a b : string) :
  str_of_nat n = a ++ b -> a <> EmptyString -> String.length b = 3%nat ->
  thousands n = group_digits a ++ "," ++ b.
Proof.
  intros Hsplit Ha Hb. unfold thousands. rewrite Hsplit.
  now apply group_digits_last_three.
Qed.

(** A report of 4321 bytes. *)
Lemma thousands_groups_from_the_right_witness :
  thousands 4321 = "4,321".
Proof.
  apply (thousands_groups_from_the_right 4321 "4" "321");
    [vm_compute; reflexivity | discriminate | reflexivity].
Defined.

(** ** Text in one piece or in chunks *)

Lemma join_chars (s : string) : join_items "" (chars_of s) = Val s.
Proof.
  unfold chars_of. induction s as [|c r IH]; [reflexivity|].
  cbn [list_ascii_of_string map join_items].
  destruct r as [|d r']; [reflexivity|].
  cbn [list_ascii_of_string map] in *. rewrite IH. reflexivity.
Qed.

Lemma py_join_chunks (chunks : list pyval) (s : string) :
  join_items "" chunks = Val s ->
  py_join "" (PList chunks) = Val s /\ py_join "" (PStr s) = Val s.
Proof.
  intros Hjoin. unfold py_join. cbn [py_iter and_then]. split; [exact Hjoin|].
  apply join_chars.
Qed.

(** X24. The notebook format stores a multi-line text as one string or as
    a list of strings.  The conversion does not tell them apart: a
    markdown source, a stream text, an HTML output and a PNG image give
    the same result in chunks as in one piece. *)
Theorem chunks_read_as_one_text (H : Host) (chunks : list pyval) (s : string) :
  join_items "" chunks = Val s ->
  markdown_cell (PDict [("cell_type", PStr "markdown"); ("source", PList chunks)])
  = markdown_cell (PDict [("cell_type", PStr "markdown"); ("source", PStr s)])
  /\ (forall parts n,
        output_step H parts
          (PDict [("output_type", PStr "stream"); ("text", PList chunks)]) n
        = output_step H parts
            (PDict [("output_type", PStr "stream"); ("text", PStr s)]) n)
  /\ (forall parts n,
        output_step H parts
          (PDict [("output_type", PStr "display_data");
                  ("data", PDict [("text/html", PList chunks)])]) n
        = output_step H parts
            (PDict [("output_type", PStr "display_data");
                    ("data", PDict [("text/html", PStr s)])]) n)
  /\ (forall parts n,
        output_step H parts
          (PDict [("output_type", PStr "display_data");
                  ("data", PDict [("image/png", PList chunks)])]) n
        = output_step H parts
            (PDict [("output_type", PStr "display_data");
                    ("data", PDict [("image/png", PStr s)])]) n).
Proof.
  intros Hjoin. destruct (py_join_chunks chunks s Hjoin) as [Hlist Hstr].
  split; [|split; [|split]].
  - unfold markdown_cell.
    change (py_get (PDict [("cell_type", PStr "markdown"); ("source", PList chunks)])
              "source" (PList [])) with (Val (PList chunks)).
    change (py_get (PDict [("cell_type", PStr "markdown"); ("source", PStr s)])
              "source" (PList [])) with (Val (PStr s)).
    cbn [and_then]. now rewrite Hlist, Hstr.
  - intros parts n. unfold output_step.
    change (py_get (PDict [("output_type", PStr "stream"); ("text", PList chunks)])
              "output_type" (PStr "")) with (Val (PStr "stream")).
    change (py_get (PDict [("output_type", PStr "stream"); ("text", PStr s)])
              "output_type" (PStr "")) with (Val (PStr "stream")).
    change (py_get (PDict [("output_type", PStr "stream"); ("text", PList chunks)])
              "text" (PList [])) with (Val (PList chunks)).
    change (py_get (PDict [("output_type", PStr "stream"); ("text", PStr s)])
              "text" (PList [])) with (Val (PStr s)).
    cbn [and_then]. now rewrite Hlist, Hstr.
  - intros parts n. unfold output_step.
    change (py_get (PDict [("output_type", PStr "display_data");
                           ("data", PDict [("text/html", PList chunks)])])
              "output_type" (PStr "")) with (Val (PStr "display_data")).
    change (py_get (PDict [("output_type", PStr "display_data");
                           ("data", PDict [("text/html", PStr s)])])
              "output_type" (PStr "")) with (Val (PStr "display_data")).
    change (py_get (PDict [("output_type", PStr "display_data");
                           ("data", PDict [("text/html", PList chunks)])])
              "data" (PDict [])) with (Val (PDict [("text/html", PList chunks)])).
    change (py_get (PDict [("output_type", PStr "display_data");
                           ("data", PDict [("text/html", PStr s)])])
              "data" (PDict [])) with (Val (PDict [("text/html", PStr s)])).
    change (py_eq_str (PStr "display_data") "display_data") with true.
    cbn [orb].
    change (py_in plotly_mime (PDict [("text/html", PList chunks)])) with (Val false).
    change (py_in plotly_mime (PDict [("text/html", PStr s)])) with (Val false).
    unfold static_output.
    change (py_in "text/html" (PDict [("text/html", PList chunks)])) with (Val true).
    change (py_in "text/html" (PDict [("text/html", PStr s)])) with (Val true).
    change (py_getitem (PDict [("text/html", PList chunks)]) "text/html")
      with (Val (PList chunks)).
    change (py_getitem (PDict [("text/html", PStr s)]) "text/html") with (Val (PStr s)).
    cbn [and_then]. now rewrite Hlist, Hstr.
  - intros parts n. unfold output_step.
    change (py_get (PDict [("output_type", PStr "display_data");
                           ("data", PDict [("image/png", PList chunks)])])
              "output_type" (PStr "")) with (Val (PStr "display_data")).
    change (py_get (PDict [("output_type", PStr "display_data");
                           ("data", PDict [("image/png", PStr s)])])
              "output_type" (PStr "")) with (Val (PStr "display_data")).
    change (py_get (PDict [("output_type", PStr "display_data");
                           ("data", PDict [("image/png", PList chunks)])])
              "data" (PDict [])) with (Val (PDict [("image/png", PList chunks)])).
    change (py_get (PDict [("output_type", PStr "display_data");
                           ("data", PDict [("image/png", PStr s)])])
              "data" (PDict [])) with (Val (PDict [("image/png", PStr s)])).
    change (py_eq_str (PStr "display_data") "display_data") with true.
    cbn [orb].
    change (py_in plotly_mime (PDict [("image/png", PList chunks)])) with (Val false).
    change (py_in plotly_mime (PDict [("image/png", PStr s)])) with (Val false).
    unfold static_output.
    change (py_in "text/html" (PDict [("image/png", PList chunks)])) with (Val false).
    change (py_in "text/html" (PDict [("image/png", PStr s)])) with (Val false).
    change (py_in "image/png" (PDict [("image/png", PList chunks)])) with (Val true).
    change (py_in "image/png" (PDict [("image/png", PStr s)])) with (Val true).
    change (py_getitem (PDict [("image/png", PList chunks)]) "image/png")
      with (Val (PList chunks)).
    change (py_getitem (PDict [("image/png", PStr s)]) "image/png") with (Val (PStr s)).
    cbn [and_then image_text]. now rewrite Hjoin.
Qed.

(** A heading and a paragraph, stored line by line. *)
Lemma chunks_read_as_one_text_witness :
  markdown_cell (PDict [("cell_type", PStr "markdown");
                        ("source", PList [PStr ("# Data" ++ nl); PStr "World Bank"])])
  = markdown_cell (PDict [("cell_type", PStr "markdown");
                          ("source", PStr ("# Data" ++ nl ++ "World Bank"))]).
Proof.
  exact (proj1 (chunks_read_as_one_text bare_host
                  [PStr ("# Data" ++ nl); PStr "World Bank"]
                  ("# Data" ++ nl ++ "World Bank") eq_refl)).
Defined.
